(** * Movie catalog service: route handlers and request schemas

    A shallow embedding of [src/routes/movies.py] and [src/schemas/movies.py].

    The handlers talk to the database through an ORM session.  The session is
    modelled as a pair of stores (the committed one and the view of the
    running transaction) threaded through a small state-and-exception monad;
    tables are lists of rows in insertion order, and a movie row carries its
    foreign key and its membership rows.  Python integers are unbounded, so
    they are [Z]; a float is a rational or an infinity ([PyFloat]); a string
    is a sequence of characters ([String.string], one element per
    character); a calendar date is its proleptic day number
    ([date.toordinal()]).

    The table declarations ([database.models]) are not among the sources.
    The store therefore accepts whatever a handler writes, and the
    constraints a schema would enforce (unique keys, populated columns) are
    stated as properties of a store, assumed where a result needs them and
    shown to be kept by the create handler. *)

From Stdlib Require Import ZArith QArith String List Bool Lia.
From Stdlib Require Import Qround Permutation Sorted DecimalString DecimalZ DecimalPos.
Import ListNotations.

Local Open Scope string_scope.
Local Open Scope list_scope.
Local Open Scope Z_scope.

(* ================================================================= *)
(** ** Values and rows *)

(** [schemas.movies.MovieStatusEnum]: a [str]-valued enumeration. *)
Inductive MovieStatusEnum : Type :=
| RELEASED
| POST_PRODUCTION
| IN_PRODUCTION.

(** The [.value] of a member. *)
Definition value (e : MovieStatusEnum) : string :=
  match e with
  | RELEASED => "Released"
  | POST_PRODUCTION => "Post Production"
  | IN_PRODUCTION => "In Production"
  end.

(** A Python [float] as a JSON number gives it: a finite value, taken
    exactly, or an infinity when the number is beyond the range of a float
    ([1e999] reads as [inf]).  JSON has no number that reads as NaN. *)
Inductive PyFloat : Type :=
| Finite (q : Q)
| PosInf
| NegInf.

Definition is_finite (x : PyFloat) : bool :=
  match x with
  | Finite _ => true
  | _ => false
  end.

(** [x <= y] on floats. *)
Definition float_le (x y : PyFloat) : Prop :=
  match x, y with
  | Finite p, Finite q => (p <= q)%Q
  | Finite _, PosInf => True
  | NegInf, Finite _ => True
  | NegInf, PosInf => True
  | NegInf, NegInf => True
  | PosInf, PosInf => True
  | _, _ => False
  end.

(** A Python value as it sits in a dumped payload or in a column attribute of
    an ORM object: attributes are dynamically typed, so [setattr] can put
    [None] (or anything else) where a string is expected. *)
Inductive PyVal : Type :=
| VNone
| VStr (s : string)
| VDate (d : Z)
| VFloat (x : PyFloat)
| VEnum (e : MovieStatusEnum).

(** Python truthiness ([if v:]).  A [str]-mixin enum member is truthy exactly
    when its string value is non-empty. *)
Definition truthy (v : PyVal) : bool :=
  match v with
  | VNone => false
  | VStr s => negb (String.eqb s "")
  | VDate _ => true
  | VFloat (Finite q) => negb (Qeq_bool q 0)
  | VFloat _ => true
  | VEnum e => negb (String.eqb (value e) "")
  end.

(** Rows of the three name-keyed tables ([GenreModel], [ActorModel],
    [LanguageModel]): an identifier and a name. *)
Record NamedModel : Type := mkNamed {
  named_id : Z;
  named_name : string
}.

Record CountryModel : Type := mkCountry {
  country_id : Z;
  country_code : string;
  country_name : option string
}.

(** A movie row: the primary key, the seven scalar columns, the foreign key
    to the country and the membership rows of the three many-to-many
    relations (identifiers of the related rows, in the order given). *)
Record MovieModel : Type := mkMovie {
  movie_id : Z;
  movie_name : PyVal;
  movie_date : PyVal;
  movie_score : PyVal;
  movie_overview : PyVal;
  movie_status : PyVal;
  movie_budget : PyVal;
  movie_revenue : PyVal;
  movie_country : Z;
  movie_genres : list Z;
  movie_actors : list Z;
  movie_languages : list Z
}.

(** The [model] argument of the get-or-create helper. *)
Inductive RelatedModel : Type :=
| GenreModel
| ActorModel
| LanguageModel.

(* ================================================================= *)
(** ** The store and the session *)

Record Store : Type := mkStore {
  movies : list MovieModel;
  countries : list CountryModel;
  genres : list NamedModel;
  actors : list NamedModel;
  languages : list NamedModel
}.

Definition empty_store : Store := mkStore [] [] [] [] [].

Definition table (model : RelatedModel) (s : Store) : list NamedModel :=
  match model with
  | GenreModel => genres s
  | ActorModel => actors s
  | LanguageModel => languages s
  end.

Definition set_table (model : RelatedModel) (t : list NamedModel) (s : Store)
  : Store :=
  match model with
  | GenreModel => mkStore (movies s) (countries s) t (actors s) (languages s)
  | ActorModel => mkStore (movies s) (countries s) (genres s) t (languages s)
  | LanguageModel => mkStore (movies s) (countries s) (genres s) (actors s) t
  end.

Definition set_movies (ms : list MovieModel) (s : Store) : Store :=
  mkStore ms (countries s) (genres s) (actors s) (languages s).

Definition set_countries (cs : list CountryModel) (s : Store) : Store :=
  mkStore (movies s) cs (genres s) (actors s) (languages s).

(** An integer primary key assigned on insert: one more than the largest
    identifier in the table (identifiers start at 1). *)
Definition next_id (ids : list Z) : Z := 1 + fold_right Z.max 0 ids.

(** The session: what is committed, and what the running transaction sees
    (flushed but not yet committed rows included). *)
Record AsyncSession : Type := mkSession {
  committed : Store;
  view : Store
}.

Definition begin_session (s : Store) : AsyncSession := mkSession s s.

(** What can be raised inside a handler.  The detail text of an
    [HTTPException] is not modelled, only its status code. *)
Inductive Exc : Type :=
| HTTPException (status_code : Z)
| MultipleResultsFound
| ValidationError
| AttributeError
| InvalidRequestError.

Inductive Outcome (A : Type) : Type :=
| Return (a : A)
| Raise (e : Exc).
Arguments Return {A} a.
Arguments Raise {A} e.

(** Database computations: state passing over the session; an exception
    leaves the session as it was when raised. *)
Definition DB (A : Type) : Type := AsyncSession -> Outcome A * AsyncSession.

Definition ret {A} (a : A) : DB A := fun ses => (Return a, ses).

Definition raise {A} (e : Exc) : DB A := fun ses => (Raise e, ses).

Definition bind {A B} (c : DB A) (k : A -> DB B) : DB B :=
  fun ses =>
    match c ses with
    | (Return a, ses') => k a ses'
    | (Raise e, ses') => (Raise e, ses')
    end.

Declare Scope db_scope.
Delimit Scope db_scope with db.
Notation "x <- c ;; k" := (bind c (fun x => k))
  (at level 100, c at next level, right associativity) : db_scope.
Notation "c ;;; k" := (bind c (fun _ => k))
  (at level 100, right associativity) : db_scope.
Local Open Scope db_scope.

(** [await db.execute(select(...).where(p))] on a table: the matching rows. *)
Definition execute {A} (tbl : Store -> list A) (where_ : A -> bool)
  : DB (list A) :=
  fun ses => (Return (filter where_ (tbl (view ses))), ses).

(** [result.scalar_one_or_none()]: no row, the one row, or an exception when
    several rows match. *)
Definition scalar_one_or_none {A} (rows : list A) : DB (option A) :=
  match rows with
  | [] => ret None
  | [r] => ret (Some r)
  | _ :: _ :: _ => raise MultipleResultsFound
  end.

(** [await db.commit()]. *)
Definition commit : DB unit :=
  fun ses => (Return tt, mkSession (view ses) (view ses)).

(** A sequence of awaited calls in a list comprehension, left to right. *)
Fixpoint for_each {A B} (f : A -> DB B) (l : list A) : DB (list B) :=
  match l with
  | [] => ret []
  | a :: l' => b <- f a ;; bs <- for_each f l' ;; ret (b :: bs)
  end.

(* ================================================================= *)
(** ** Helper functions of the routes *)

(** [instance = model(name=name); db.add(instance); await db.flush()]:
    the row is written into the transaction's view with a fresh identifier. *)
Definition add_flush_named (model : RelatedModel) (name : string)
  : DB NamedModel :=
  fun ses =>
    let t := table model (view ses) in
    let instance := mkNamed (next_id (map named_id t)) name in
    (Return instance,
     mkSession (committed ses) (set_table model (t ++ [instance]) (view ses))).

Definition get_or_create_related_instance (model : RelatedModel)
  (name : string) : DB NamedModel :=
  rows <- execute (table model) (fun r => String.eqb (named_name r) name) ;;
  instance <- scalar_one_or_none rows ;;
  match instance with
  | Some i => ret i
  | None => add_flush_named model name
  end.

(** A movie together with its relations, as [get_movie_by_id] loads it
    ([joinedload] of the country, [selectinload] of the three collections). *)
Record MovieLoaded : Type := mkLoaded {
  loaded_row : MovieModel;
  loaded_country : option CountryModel;
  loaded_genres : list NamedModel;
  loaded_actors : list NamedModel;
  loaded_languages : list NamedModel
}.

(** The rows of a name-keyed table that the membership rows of a movie point
    to: a join of the table with the memberships, so each row comes once,
    however often it was named, in the order of the table. *)
Definition related (t : list NamedModel) (ids : list Z) : list NamedModel :=
  filter (fun r => existsb (Z.eqb (named_id r)) ids) t.

Definition load_relations (s : Store) (m : MovieModel) : MovieLoaded :=
  mkLoaded m
    (find (fun c => country_id c =? movie_country m) (countries s))
    (related (genres s) (movie_genres m))
    (related (actors s) (movie_actors m))
    (related (languages s) (movie_languages m)).

Definition get_movie_by_id (movie_id_ : Z) : DB (option MovieLoaded) :=
  fun ses =>
    bind (execute movies (fun m => movie_id m =? movie_id_))
      (fun rows =>
         bind (scalar_one_or_none rows)
           (fun r => ret (option_map (load_relations (view ses)) r)))
      ses.

(* ================================================================= *)
(** ** Schemas *)

Record MovieShortResponse : Type := mkShort {
  short_id : Z;
  short_name : string;
  short_date : Z;
  short_score : PyFloat;
  short_overview : string
}.

Record MoviesListResponse : Type := mkList {
  list_movies : list MovieShortResponse;
  prev_page : option string;
  next_page : option string;
  total_pages : Z;
  total_items : Z
}.

Record CountrySchema : Type := mkCountrySchema {
  cs_id : Z;
  cs_code : string;
  cs_name : option string
}.

(** [GenreSchema], [ActorSchema] and [LanguageSchema] have the same shape. *)
Record NamedSchema : Type := mkNamedSchema {
  ns_id : Z;
  ns_name : string
}.

Record MovieDetailResponse : Type := mkDetail {
  detail_id : Z;
  detail_name : string;
  detail_date : Z;
  detail_score : PyFloat;
  detail_overview : string;
  detail_status : string;
  detail_budget : PyFloat;
  detail_revenue : PyFloat;
  detail_country : CountrySchema;
  detail_genres : list NamedSchema;
  detail_actors : list NamedSchema;
  detail_languages : list NamedSchema
}.

(** [MovieCreateRequest], validated: the score, bounded on both sides, is
    finite; budget and revenue, bounded from below only, can be [inf]. *)
Record MovieCreateRequest : Type := mkCreate {
  req_name : string;
  req_date : Z;
  req_score : Q;
  req_overview : string;
  req_status : MovieStatusEnum;
  req_budget : PyFloat;
  req_revenue : PyFloat;
  req_country : string;
  req_genres : list string;
  req_actors : list string;
  req_languages : list string
}.

(** [MovieUpdateRequest]: every field is optional with default [None];
    [model_fields_set] holds the names of the fields the payload carried. *)
Record MovieUpdateRequest : Type := mkUpdate {
  upd_name : option string;
  upd_date : option Z;
  upd_score : option Q;
  upd_overview : option string;
  upd_status : option MovieStatusEnum;
  upd_budget : option PyFloat;
  upd_revenue : option PyFloat;
  model_fields_set : list string
}.

Record MovieUpdateResponse : Type := mkUpdateResponse {
  detail : string
}.

(** Reading typed fields from attributes ([from_attributes=True]): a field
    holding a value of another type, [None] included, fails validation. *)
Definition as_str (v : PyVal) : option string :=
  match v with VStr s => Some s | _ => None end.

Definition as_date (v : PyVal) : option Z :=
  match v with VDate d => Some d | _ => None end.

Definition as_float (v : PyVal) : option PyFloat :=
  match v with VFloat x => Some x | _ => None end.

Definition MovieShortResponse_validate (m : MovieModel)
  : option MovieShortResponse :=
  match as_str (movie_name m), as_date (movie_date m),
        as_float (movie_score m), as_str (movie_overview m) with
  | Some n, Some d, Some sc, Some o => Some (mkShort (movie_id m) n d sc o)
  | _, _, _, _ => None
  end.

Fixpoint validate_all {A B} (f : A -> option B) (l : list A)
  : option (list B) :=
  match l with
  | [] => Some []
  | a :: l' =>
      match f a, validate_all f l' with
      | Some b, Some bs => Some (b :: bs)
      | _, _ => None
      end
  end.

Definition NamedSchema_validate (r : NamedModel) : NamedSchema :=
  mkNamedSchema (named_id r) (named_name r).

Definition CountrySchema_validate (c : CountryModel) : CountrySchema :=
  mkCountrySchema (country_id c) (country_code c) (country_name c).

Definition MovieDetailResponse_validate (l : MovieLoaded)
  : option MovieDetailResponse :=
  let m := loaded_row l in
  match as_str (movie_name m), as_date (movie_date m),
        as_float (movie_score m), as_str (movie_overview m),
        as_str (movie_status m), as_float (movie_budget m),
        as_float (movie_revenue m), loaded_country l with
  | Some n, Some d, Some sc, Some o, Some st, Some b, Some r, Some c =>
      Some (mkDetail (movie_id m) n d sc o st b r
              (CountrySchema_validate c)
              (map NamedSchema_validate (loaded_genres l))
              (map NamedSchema_validate (loaded_actors l))
              (map NamedSchema_validate (loaded_languages l)))
  | _, _, _, _, _, _, _, _ => None
  end.

(** The body of a create request as it arrives: every field present with a
    value of its JSON type, the date already read as a calendar date.  The
    status is still a plain string. *)
Record RawCreateRequest : Type := mkRaw {
  raw_name : string;
  raw_date : Z;
  raw_score : PyFloat;
  raw_overview : string;
  raw_status : string;
  raw_budget : PyFloat;
  raw_revenue : PyFloat;
  raw_country : string;
  raw_genres : list string;
  raw_actors : list string;
  raw_languages : list string
}.

(** Validation of a string against [MovieStatusEnum]: one of the values. *)
Definition MovieStatusEnum_validate (s : string) : option MovieStatusEnum :=
  if String.eqb s (value RELEASED) then Some RELEASED
  else if String.eqb s (value POST_PRODUCTION) then Some POST_PRODUCTION
  else if String.eqb s (value IN_PRODUCTION) then Some IN_PRODUCTION
  else None.

(** [constr(max_length=n)]. *)
Definition constr_max_length (n : Z) (s : string) : bool :=
  Z.of_nat (String.length s) <=? n.

(** [confloat(ge=lo)] and [confloat(ge=lo, le=hi)]: the float itself when
    it is within the bounds.  An infinity passes a bound it does not break;
    between two finite bounds only finite values pass. *)
Definition confloat_ge (lo : Q) (x : PyFloat) : option PyFloat :=
  match x with
  | Finite q => if Qle_bool lo q then Some x else None
  | PosInf => Some x
  | NegInf => None
  end.

Definition confloat_ge_le (lo hi : Q) (x : PyFloat) : option Q :=
  match x with
  | Finite q => if Qle_bool lo q && Qle_bool q hi then Some q else None
  | _ => None
  end.

(** The [validate_date] field validator: [None] stands for the raised
    [ValueError].  [today] is [datetime.date.today()]. *)
Definition validate_date (today : Z) (v : Z) : option Z :=
  if today + 365 <? v then None else Some v.

Definition MovieCreateRequest_validate (today : Z) (raw : RawCreateRequest)
  : option MovieCreateRequest :=
  if negb (constr_max_length 255 (raw_name raw)) then None
  else
    match validate_date today (raw_date raw) with
    | None => None
    | Some d =>
        match confloat_ge_le 0 100 (raw_score raw),
              MovieStatusEnum_validate (raw_status raw),
              confloat_ge 0 (raw_budget raw),
              confloat_ge 0 (raw_revenue raw) with
        | Some sc, Some st, Some b, Some r =>
            Some (mkCreate (raw_name raw) d sc (raw_overview raw) st b r
                    (raw_country raw) (raw_genres raw) (raw_actors raw)
                    (raw_languages raw))
        | _, _, _, _ => None
        end
    end.

(* ================================================================= *)
(** ** Route handlers *)

Definition HTTP_200_OK : Z := 200.
Definition HTTP_201_CREATED : Z := 201.
Definition HTTP_204_NO_CONTENT : Z := 204.
Definition HTTP_404_NOT_FOUND : Z := 404.
Definition HTTP_409_CONFLICT : Z := 409.
Definition HTTP_422_UNPROCESSABLE_ENTITY : Z := 422.
Definition HTTP_500_INTERNAL_SERVER_ERROR : Z := 500.

(** The part of the incoming [Request] that matters here: the path at which
    the request was served. *)
Record Request : Type := mkRequest {
  url_path : string
}.

(** [str(n)] of an integer, as an f-string formats it. *)
Definition str_int (n : Z) : string := NilZero.string_of_int (Z.to_int n).

(** [ORDER BY id DESC]. *)
Fixpoint insert_desc (m : MovieModel) (l : list MovieModel)
  : list MovieModel :=
  match l with
  | [] => [m]
  | x :: l' =>
      if movie_id x <=? movie_id m then m :: l else x :: insert_desc m l'
  end.

Definition order_by_id_desc (l : list MovieModel) : list MovieModel :=
  fold_right insert_desc [] l.

(** [OFFSET o LIMIT n]. *)
Definition offset_limit {A} (o n : Z) (l : list A) : list A :=
  firstn (Z.to_nat n) (skipn (Z.to_nat o) l).

(** [select(func.count(MovieModel.id))] then [scalar_one()]. *)
Definition count_movies : DB Z :=
  fun ses => (Return (Z.of_nat (length (movies (view ses)))), ses).

(** [math.ceil(a / b)]: true division, then the ceiling.  The quotient is
    taken exactly; for a divisor of at most 20 the float quotient of Python
    has the same ceiling as long as the row count stays below 2^48. *)
Definition math_ceil_div (a b : Z) : Z :=
  Qceiling (inject_Z a / inject_Z b).

(** [f"{base_url}?page={page}&per_page={per_page}"]. *)
Definition page_url (base_url : string) (page per_page : Z) : string :=
  (base_url ++ "?page=" ++ str_int page ++ "&per_page=" ++ str_int per_page)
  %string.

(** Constructing [MoviesListResponse(movies=..., ...)] validates every row
    against [MovieShortResponse]. *)
Definition MoviesListResponse_new (rows : list MovieModel)
  (prev next : option string) (pages items : Z) : DB MoviesListResponse :=
  match validate_all MovieShortResponse_validate rows with
  | Some l => ret (mkList l prev next pages items)
  | None => raise ValidationError
  end.

Definition get_movies_list (request : Request) (page per_page : Z)
  : DB MoviesListResponse :=
  let offset := (page - 1) * per_page in
  total_items <- count_movies ;;
  if total_items =? 0 then raise (HTTPException HTTP_404_NOT_FOUND)
  else
    let total_pages := math_ceil_div total_items per_page in
    movies_ <- (fun ses =>
                  (Return (offset_limit offset per_page
                             (order_by_id_desc (movies (view ses)))), ses)) ;;
    match movies_ with
    | [] => raise (HTTPException HTTP_404_NOT_FOUND)
    | _ :: _ =>
        let base_url := "/api/v1/theater/movies/" in
        let prev_page :=
          if 1 <? page then Some (page_url base_url (page - 1) per_page)
          else None in
        let next_page :=
          if page <? total_pages
          then Some (page_url base_url (page + 1) per_page)
          else None in
        MoviesListResponse_new movies_ prev_page next_page
          total_pages total_items
    end.

(** [country = CountryModel(code=..., name=None); db.add(country);
    await db.flush()]. *)
Definition add_flush_country (code : string) (name : option string)
  : DB CountryModel :=
  fun ses =>
    let t := countries (view ses) in
    let c := mkCountry (next_id (map country_id t)) code name in
    (Return c, mkSession (committed ses) (set_countries (t ++ [c]) (view ses))).

(** [db.add(new_movie)]; the row gets its identifier when written. *)
Definition add_movie (new_movie : Z -> MovieModel) : DB MovieModel :=
  fun ses =>
    let t := movies (view ses) in
    let m := new_movie (next_id (map movie_id t)) in
    (Return m, mkSession (committed ses) (set_movies (t ++ [m]) (view ses))).

(** SQL equality of a column with a string or a date: a [NULL] column (or
    one of another type) matches nothing. *)
Definition col_eq_str (c : PyVal) (s : string) : bool :=
  match c with VStr t => String.eqb t s | _ => false end.

Definition col_eq_date (c : PyVal) (d : Z) : bool :=
  match c with VDate e => e =? d | _ => false end.

(** [await db.refresh(new_movie)]: the attributes are read again from the
    row with that primary key. *)
Definition refresh (movie : MovieModel) : DB MovieModel :=
  fun ses =>
    match find (fun m => movie_id m =? movie_id movie) (movies (view ses)) with
    | Some m => (Return m, ses)
    | None => (Raise InvalidRequestError, ses)
    end.

(** [and_(MovieModel.name == name, MovieModel.date == date)]. *)
Definition name_date_is (name : string) (date : Z) (m : MovieModel) : bool :=
  col_eq_str (movie_name m) name && col_eq_date (movie_date m) date.

Definition create_movie (movie_data : MovieCreateRequest)
  : DB (option MovieLoaded) :=
  duplicate_rows <- execute movies
    (name_date_is (req_name movie_data) (req_date movie_data)) ;;
  duplicate <- scalar_one_or_none duplicate_rows ;;
  match duplicate with
  | Some _ => raise (HTTPException HTTP_409_CONFLICT)
  | None =>
      country_rows <- execute countries
        (fun c => String.eqb (country_code c) (req_country movie_data)) ;;
      country <- scalar_one_or_none country_rows ;;
      country <- match country with
                 | Some c => ret c
                 | None => add_flush_country (req_country movie_data) None
                 end ;;
      genres_list <- for_each (get_or_create_related_instance GenreModel)
                       (req_genres movie_data) ;;
      actors_list <- for_each (get_or_create_related_instance ActorModel)
                       (req_actors movie_data) ;;
      languages_list <- for_each
                          (get_or_create_related_instance LanguageModel)
                          (req_languages movie_data) ;;
      new_movie <- add_movie (fun id =>
        mkMovie id
          (VStr (req_name movie_data))
          (VDate (req_date movie_data))
          (VFloat (Finite (req_score movie_data)))
          (VStr (req_overview movie_data))
          (VStr (value (req_status movie_data)))
          (VFloat (req_budget movie_data))
          (VFloat (req_revenue movie_data))
          (country_id country)
          (map named_id genres_list)
          (map named_id actors_list)
          (map named_id languages_list)) ;;
      commit ;;;
      new_movie <- refresh new_movie ;;
      created_movie <- get_movie_by_id (movie_id new_movie) ;;
      ret created_movie
  end.

Definition get_movie_details (movie_id_ : Z) : DB MovieLoaded :=
  movie <- get_movie_by_id movie_id_ ;;
  match movie with
  | None => raise (HTTPException HTTP_404_NOT_FOUND)
  | Some m => ret m
  end.

(** [await db.delete(movie)]: the row with that primary key goes, and its
    membership rows with it. *)
Definition db_delete (movie : MovieModel) : DB unit :=
  fun ses =>
    (Return tt,
     mkSession (committed ses)
       (set_movies
          (filter (fun m => negb (movie_id m =? movie_id movie))
             (movies (view ses)))
          (view ses))).

Definition delete_movie (movie_id_ : Z) : DB unit :=
  rows <- execute movies (fun m => movie_id m =? movie_id_) ;;
  movie <- scalar_one_or_none rows ;;
  match movie with
  | None => raise (HTTPException HTTP_404_NOT_FOUND)
  | Some m => db_delete m ;;; commit
  end.

(** A Python [dict] with string keys, in insertion order. *)
Definition Dict : Type := list (string * PyVal).

Fixpoint dict_get (d : Dict) (k : string) : option PyVal :=
  match d with
  | [] => None
  | (k', v) :: d' => if String.eqb k' k then Some v else dict_get d' k
  end.

(** [d[k] = v]: an existing key keeps its place. *)
Fixpoint dict_set (d : Dict) (k : string) (v : PyVal) : Dict :=
  match d with
  | [] => [(k, v)]
  | (k', v') :: d' =>
      if String.eqb k' k then (k', v) :: d' else (k', v') :: dict_set d' k v
  end.

Definition of_option {A} (inj : A -> PyVal) (o : option A) : PyVal :=
  match o with
  | Some a => inj a
  | None => VNone
  end.

(** All fields of a [MovieUpdateRequest], in declaration order. *)
Definition model_dump (r : MovieUpdateRequest) : Dict :=
  [ ("name", of_option VStr (upd_name r));
    ("date", of_option VDate (upd_date r));
    ("score", of_option (fun q => VFloat (Finite q)) (upd_score r));
    ("overview", of_option VStr (upd_overview r));
    ("status", of_option VEnum (upd_status r));
    ("budget", of_option VFloat (upd_budget r));
    ("revenue", of_option VFloat (upd_revenue r)) ].

Definition is_set (r : MovieUpdateRequest) (k : string) : bool :=
  existsb (String.eqb k) (model_fields_set r).

(** [movie_data.model_dump(exclude_unset=True)]. *)
Definition model_dump_exclude_unset (r : MovieUpdateRequest) : Dict :=
  filter (fun kv => is_set r (fst kv)) (model_dump r).

(** [v.value]: only an enum member has the attribute. *)
Definition dot_value (v : PyVal) : DB PyVal :=
  match v with
  | VEnum e => ret (VStr (value e))
  | _ => raise AttributeError
  end.

(** [setattr(movie, key, value)].  A key that names no column leaves the row
    as it is. *)
Definition setattr (movie : MovieModel) (key : string) (v : PyVal)
  : MovieModel :=
  let '(mkMovie i n d sc o st b r c g a l) := movie in
  if String.eqb key "name" then mkMovie i v d sc o st b r c g a l
  else if String.eqb key "date" then mkMovie i n v sc o st b r c g a l
  else if String.eqb key "score" then mkMovie i n d v o st b r c g a l
  else if String.eqb key "overview" then mkMovie i n d sc v st b r c g a l
  else if String.eqb key "status" then mkMovie i n d sc o v b r c g a l
  else if String.eqb key "budget" then mkMovie i n d sc o st v r c g a l
  else if String.eqb key "revenue" then mkMovie i n d sc o st b v c g a l
  else movie.

(** [for key, value in update_data.items(): setattr(movie, key, value)]. *)
Definition apply_updates (update_data : Dict) (movie : MovieModel)
  : MovieModel :=
  fold_left (fun m kv => setattr m (fst kv) (snd kv)) update_data movie.

(** The changed attributes of a loaded object are written back to the row
    with its primary key. *)
Definition db_write_back (movie : MovieModel) : DB unit :=
  fun ses =>
    (Return tt,
     mkSession (committed ses)
       (set_movies
          (map (fun m => if movie_id m =? movie_id movie then movie else m)
             (movies (view ses)))
          (view ses))).

Definition normalize_status (update_data : Dict) : DB Dict :=
  match dict_get update_data "status" with
  | Some v =>
      if truthy v
      then v' <- dot_value v ;; ret (dict_set update_data "status" v')
      else ret update_data
  | None => ret update_data
  end.

Definition update_movie (movie_id_ : Z) (movie_data : MovieUpdateRequest)
  : DB MovieUpdateResponse :=
  rows <- execute movies (fun m => movie_id m =? movie_id_) ;;
  movie <- scalar_one_or_none rows ;;
  match movie with
  | None => raise (HTTPException HTTP_404_NOT_FOUND)
  | Some m =>
      let update_data := model_dump_exclude_unset movie_data in
      update_data <- normalize_status update_data ;;
      db_write_back (apply_updates update_data m) ;;;
      commit ;;;
      ret (mkUpdateResponse "Movie updated successfully.")
  end.

(* ================================================================= *)
(** ** The routes as served *)

Inductive Body : Type :=
| ListBody (r : MoviesListResponse)
| DetailBody (r : MovieDetailResponse)
| UpdateBody (r : MovieUpdateResponse)
| NoBody
| ErrorBody.

Record Response : Type := mkResponse {
  status_code : Z;
  body : Body
}.

(** One request: a session is opened on the store, the handler runs, and
    what was committed is the store afterwards.  An [HTTPException] becomes a
    response with its status code, any other exception a server error. *)
Definition serve {A} (handler : DB A) (render : A -> Response) (s : Store)
  : Response * Store :=
  match handler (begin_session s) with
  | (Return a, ses) => (render a, committed ses)
  | (Raise (HTTPException c), ses) => (mkResponse c ErrorBody, committed ses)
  | (Raise _, ses) =>
      (mkResponse HTTP_500_INTERNAL_SERVER_ERROR ErrorBody, committed ses)
  end.

Definition unprocessable : Response :=
  mkResponse HTTP_422_UNPROCESSABLE_ENTITY ErrorBody.

Definition server_error : Response :=
  mkResponse HTTP_500_INTERNAL_SERVER_ERROR ErrorBody.

(** The floats a body carries. *)
Definition body_floats (b : Body) : list PyFloat :=
  match b with
  | ListBody r => map short_score (list_movies r)
  | DetailBody d => [detail_score d; detail_budget d; detail_revenue d]
  | UpdateBody _ => []
  | NoBody => []
  | ErrorBody => []
  end.

(** The body written as JSON: an infinity has no JSON form, the encoder
    raises, and the answer is a server error. *)
Definition render_json (code : Z) (b : Body) : Response :=
  if forallb is_finite (body_floats b) then mkResponse code b
  else server_error.

(** [Query(ge=1)] for [page], [Query(ge=1, le=20)] for [per_page]. *)
Definition valid_query (page per_page : Z) : bool :=
  (1 <=? page) && (1 <=? per_page) && (per_page <=? 20).

(** [GET /movies/]. *)
Definition route_get_movies_list (request : Request) (page per_page : Z)
  (s : Store) : Response * Store :=
  if valid_query page per_page
  then serve (get_movies_list request page per_page)
         (fun r => render_json HTTP_200_OK (ListBody r)) s
  else (unprocessable, s).

Definition render_detail (code : Z) (l : option MovieLoaded) : Response :=
  match l with
  | Some m =>
      match MovieDetailResponse_validate m with
      | Some d => render_json code (DetailBody d)
      | None => server_error
      end
  | None => server_error
  end.




(** The create handler under the framework, for a validated body. *)
Definition serve_create_movie (movie_data : MovieCreateRequest) (s : Store)
  : Response * Store :=
  serve (create_movie movie_data) (render_detail HTTP_201_CREATED) s.

(** [POST /movies/]: the body is validated first. *)
Definition route_create_movie (today : Z) (raw : RawCreateRequest)
  (s : Store) : Response * Store :=
  match MovieCreateRequest_validate today raw with
  | Some movie_data => serve_create_movie movie_data s
  | None => (unprocessable, s)
  end.

(** [GET /movies/{movie_id}/]. *)
Definition route_get_movie_details (movie_id_ : Z) (s : Store)
  : Response * Store :=
  serve (get_movie_details movie_id_)
    (fun m => render_detail HTTP_200_OK (Some m)) s.

(** [DELETE /movies/{movie_id}/]. *)
Definition route_delete_movie (movie_id_ : Z) (s : Store)
  : Response * Store :=
  serve (delete_movie movie_id_)
    (fun _ => mkResponse HTTP_204_NO_CONTENT NoBody) s.

(** [PATCH /movies/{movie_id}/]. *)
Definition route_update_movie (movie_id_ : Z)
  (movie_data : MovieUpdateRequest) (s : Store) : Response * Store :=
  serve (update_movie movie_id_ movie_data)
    (fun r => mkResponse HTTP_200_OK (UpdateBody r)) s.

(* ================================================================= *)
(** ** Integrity constraints of the schema, as properties of a store

    The table declarations are not part of the sources above; the handlers
    rely on them through [scalar_one_or_none].  They are stated here as
    properties of a store and assumed where a result needs them. *)

Definition unique_ids (ms : list MovieModel) : Prop :=
  NoDup (map movie_id ms).

Definition unique_name_date (ms : list MovieModel) : Prop :=
  forall name date, (length (filter (name_date_is name date) ms) <= 1)%nat.

Definition unique_codes (cs : list CountryModel) : Prop :=
  NoDup (map country_code cs).

Definition unique_names (t : list NamedModel) : Prop :=
  NoDup (map named_name t).

Record Integrity (s : Store) : Prop := mkIntegrity {
  ok_ids : unique_ids (movies s);
  ok_name_date : unique_name_date (movies s);
  ok_codes : unique_codes (countries s);
  ok_names : forall model, unique_names (table model s)
}.

(** The four columns that a list item shows hold a string, a date, a finite
    float and a string. *)
Definition list_ready (m : MovieModel) : Prop :=
  exists n d q o,
    movie_name m = VStr n /\ movie_date m = VDate d
    /\ movie_score m = VFloat (Finite q) /\ movie_overview m = VStr o.

(** Every stored movie can be shown in the list. *)
Definition populated (ms : list MovieModel) : Prop :=
  Forall list_ready ms.


(** A movie with that name and release date is in the store. *)
Definition has_movie (name : string) (date : Z) (s : Store) : Prop :=
  exists m, In m (movies s)
            /\ movie_name m = VStr name /\ movie_date m = VDate date.


(** Rows in descending order of identifier. *)
Definition id_descending (l : list MovieModel) : Prop :=
  StronglySorted (fun a b => movie_id b <= movie_id a) l.

(** What the update handler leaves in a column: the dumped value when the
    payload carried the field, the old value otherwise. *)
Definition patched {A} (r : MovieUpdateRequest) (key : string)
  (inj : A -> PyVal) (field : option A) (old : PyVal) : PyVal :=
  if is_set r key then of_option inj field else old.

(** The row a partial update leaves behind. *)
Definition patched_movie (r : MovieUpdateRequest) (m : MovieModel)
  : MovieModel :=
  mkMovie (movie_id m)
    (patched r "name" VStr (upd_name r) (movie_name m))
    (patched r "date" VDate (upd_date r) (movie_date m))
    (patched r "score" (fun q => VFloat (Finite q)) (upd_score r)
       (movie_score m))
    (patched r "overview" VStr (upd_overview r) (movie_overview m))
    (patched r "status" (fun e => VStr (value e)) (upd_status r)
       (movie_status m))
    (patched r "budget" VFloat (upd_budget r) (movie_budget m))
    (patched r "revenue" VFloat (upd_revenue r) (movie_revenue m))
    (movie_country m) (movie_genres m) (movie_actors m) (movie_languages m).

(** The bounds the create schema puts on a body. *)
Definition within_bounds (today : Z) (raw : RawCreateRequest) : Prop :=
  (String.length (raw_name raw) <= 255)%nat
  /\ float_le (Finite 0) (raw_score raw)
  /\ float_le (raw_score raw) (Finite 100)
  /\ float_le (Finite 0) (raw_budget raw)
  /\ float_le (Finite 0) (raw_revenue raw)
  /\ raw_date raw <= today + 365.

Definition status_known (raw : RawCreateRequest) : Prop :=
  exists e, raw_status raw = value e.

(* ================================================================= *)
(** ** Sample data *)

(** 2021-06-01 and 2021-10-22 as day numbers. *)
Definition sample_today : Z := 737942.

Definition dune_request : MovieCreateRequest :=
  mkCreate "Dune" 738085 82 "A noble family on a desert planet." RELEASED
    (Finite 165000000) (Finite 400000000) "USA" ["Sci-Fi"] ["Actor A"]
    ["English"].

Definition arrival_request : MovieCreateRequest :=
  mkCreate "Arrival" 736279 79 "A linguist meets visitors." RELEASED
    (Finite 47000000) (Finite 203000000) "USA" ["Sci-Fi"; "Drama"]
    ["Actor B"] ["English"].

Definition dune_raw : RawCreateRequest :=
  mkRaw "Dune" 738085 (Finite 82) "A noble family on a desert planet."
    "Released" (Finite 165000000) (Finite 400000000) "USA" ["Sci-Fi"]
    ["Actor A"] ["English"].

(** The same body with a status that is not one of the enumerated values. *)
Definition unknown_status_raw : RawCreateRequest :=
  mkRaw "Dune" 738085 (Finite 82) "A noble family on a desert planet."
    "Banana" (Finite 165000000) (Finite 400000000) "USA" ["Sci-Fi"]
    ["Actor A"] ["English"].

Definition dune_row : MovieModel :=
  mkMovie 1 (VStr "Dune") (VDate 738085) (VFloat (Finite 82))
    (VStr "A noble family on a desert planet.") (VStr "Released")
    (VFloat (Finite 165000000)) (VFloat (Finite 400000000)) 1 [1] [1] [1].

(** The store after creating the first movie, and after the second. *)
Definition one_movie : Store :=
  Eval vm_compute in snd (serve_create_movie dune_request empty_store).

Definition two_movies : Store :=
  Eval vm_compute in snd (serve_create_movie arrival_request one_movie).

(** A payload carrying only [score], and one carrying [status: null]. *)
Definition only_score : MovieUpdateRequest :=
  mkUpdate None None (Some 90%Q) None None None None ["score"].

Definition null_status : MovieUpdateRequest :=
  mkUpdate None None None None None None None ["status"].

(** A create request whose budget is an infinity ([1e999] in the body). *)
Definition endless_budget_request : MovieCreateRequest :=
  mkCreate "Dune" 738085 82 "A noble family on a desert planet." RELEASED
    PosInf (Finite 400000000) "USA" ["Sci-Fi"] ["Actor A"] ["English"].

(** The body of that request as it arrives. *)
Definition endless_budget_raw : RawCreateRequest :=
  mkRaw "Dune" 738085 (Finite 82) "A noble family on a desert planet."
    "Released" PosInf (Finite 400000000) "USA" ["Sci-Fi"] ["Actor A"]
    ["English"].

(** A payload that gives a movie the name and the date of the first one. *)
Definition same_as_dune : MovieUpdateRequest :=
  mkUpdate (Some "Dune") (Some 738085) None None None None None
    ["name"; "date"].

(** A payload carrying [name: null]. *)
Definition null_name : MovieUpdateRequest :=
  mkUpdate None None None None None None None ["name"].

(** The store after the second movie was given the name and the date of the
    first, and the store after the name of the only movie was set to null. *)
Definition twin_movies : Store :=
  Eval vm_compute in snd (route_update_movie 2 same_as_dune two_movies).

Definition nameless_movie : Store :=
  Eval vm_compute in snd (route_update_movie 1 null_name one_movie).

(** A request at the path the list is served at. *)
Definition request_at_literal : Request :=
  mkRequest "/api/v1/theater/movies/".

(* ================================================================= *)
(** ** Vocabulary for the results on the remaining code *)

(** The names a create request gives for one of the three relations. *)
Definition requested_names (model : RelatedModel)
  (movie_data : MovieCreateRequest) : list string :=
  match model with
  | GenreModel => req_genres movie_data
  | ActorModel => req_actors movie_data
  | LanguageModel => req_languages movie_data
  end.

(** The movie table of [s'] is that of [s] with one more row, which has the
    name and the date of the request and an identifier above all the others,
    while no movie of [s] had that name and date. *)
Definition stores_new_row (movie_data : MovieCreateRequest) (s s' : Store)
  : Prop :=
  ~ has_movie (req_name movie_data) (req_date movie_data) s
  /\ exists m,
       movies s' = movies s ++ [m]
       /\ movie_name m = VStr (req_name movie_data)
       /\ movie_date m = VDate (req_date movie_data)
       /\ forall x, In x (movies s) -> movie_id x < movie_id m.

(** The keys the create handler looks rows up by are unique: the code in
    the country table, the name in the three name-keyed tables. *)
Definition unique_lookup_keys (s : Store) : Prop :=
  unique_codes (countries s) /\ forall model, unique_names (table model s).

(** Identifiers are unique in the country table and in the three name-keyed
    tables (their primary keys). *)
Definition unique_related_ids (s : Store) : Prop :=
  NoDup (map country_id (countries s))
  /\ forall model, NoDup (map named_id (table model s)).

(** The identifiers of the items on one page of the list route; nothing when
    the answer carries no list. *)
Definition page_ids (request : Request) (page per_page : Z) (s : Store)
  : list Z :=
  match body (fst (route_get_movies_list request page per_page s)) with
  | ListBody r => map short_id (list_movies r)
  | _ => []
  end.

(** Page numbers 1, 2, ..., n. *)
Definition page_numbers (n : Z) : list Z :=
  map Z.of_nat (seq 1 (Z.to_nat n)).

(** No field of the payload is carried with the value null. *)
Definition no_explicit_null (r : MovieUpdateRequest) : Prop :=
  (is_set r "name" = true -> upd_name r <> None)
  /\ (is_set r "date" = true -> upd_date r <> None)
  /\ (is_set r "score" = true -> upd_score r <> None)
  /\ (is_set r "overview" = true -> upd_overview r <> None).

(** A payload that carries no field at all, and one that renames a movie. *)
Definition empty_payload : MovieUpdateRequest :=
  mkUpdate None None None None None None None [].

Definition rename_payload : MovieUpdateRequest :=
  mkUpdate (Some "Dune: Part One") None None None (Some POST_PRODUCTION)
    None None ["name"; "status"].

(** ** The body of a PATCH request *)

(** A key of a JSON body: absent, present with null, or present with a value
    of its JSON type (a date already read as a calendar date). *)
Inductive JsonField (A : Type) : Type :=
| Absent
| Null
| Given (a : A).
Arguments Absent {A}.
Arguments Null {A}.
Arguments Given {A} a.

Record RawUpdateRequest : Type := mkRawUpdate {
  rawu_name : JsonField string;
  rawu_date : JsonField Z;
  rawu_score : JsonField PyFloat;
  rawu_overview : JsonField string;
  rawu_status : JsonField string;
  rawu_budget : JsonField PyFloat;
  rawu_revenue : JsonField PyFloat
}.

(** Validation of an [Optional[...] = None] field: an absent key takes the
    default [None], null is accepted as [None], a value is checked. *)
Definition validate_optional {A B : Type} (check : A -> option B)
  (f : JsonField A) : option (option B) :=
  match f with
  | Absent => Some None
  | Null => Some None
  | Given a =>
      match check a with
      | Some b => Some (Some b)
      | None => None
      end
  end.

Definition is_present {A : Type} (f : JsonField A) : bool :=
  match f with
  | Absent => false
  | _ => true
  end.

Definition check_if {A : Type} (p : A -> bool) (a : A) : option A :=
  if p a then Some a else None.

(** The names of the keys the body carries, in declaration order. *)
Definition fields_set_of (raw : RawUpdateRequest) : list string :=
  map fst
    (filter snd
       [ ("name", is_present (rawu_name raw));
         ("date", is_present (rawu_date raw));
         ("score", is_present (rawu_score raw));
         ("overview", is_present (rawu_overview raw));
         ("status", is_present (rawu_status raw));
         ("budget", is_present (rawu_budget raw));
         ("revenue", is_present (rawu_revenue raw)) ]).

(** [MovieUpdateRequest]: the constraints of its seven fields.  The date has
    none: the [validate_date] validator belongs to [MovieCreateRequest]. *)
Definition MovieUpdateRequest_validate (raw : RawUpdateRequest)
  : option MovieUpdateRequest :=
  match validate_optional (check_if (constr_max_length 255)) (rawu_name raw),
        validate_optional Some (rawu_date raw),
        validate_optional (confloat_ge_le 0 100) (rawu_score raw),
        validate_optional Some (rawu_overview raw),
        validate_optional MovieStatusEnum_validate (rawu_status raw),
        validate_optional (confloat_ge 0) (rawu_budget raw),
        validate_optional (confloat_ge 0) (rawu_revenue raw) with
  | Some n, Some d, Some sc, Some o, Some st, Some b, Some r =>
      Some (mkUpdate n d sc o st b r (fields_set_of raw))
  | _, _, _, _, _, _, _ => None
  end.

(** [PATCH /movies/{movie_id}/] with the body validated first. *)
Definition route_update_movie_body (movie_id_ : Z) (raw : RawUpdateRequest)
  (s : Store) : Response * Store :=
  match MovieUpdateRequest_validate raw with
  | Some movie_data => route_update_movie movie_id_ movie_data s
  | None => (unprocessable, s)
  end.

(** A value given for a field satisfies the field's constraint. *)
Definition given_ok {A : Type} (ok : A -> Prop) (f : JsonField A) : Prop :=
  forall a, f = Given a -> ok a.

(** The bounds the update schema puts on a body: they bear on the values
    given for name, score, status, budget and revenue only. *)
Definition update_within_bounds (raw : RawUpdateRequest) : Prop :=
  given_ok (fun s => (String.length s <= 255)%nat) (rawu_name raw)
  /\ given_ok (fun x => float_le (Finite 0) x /\ float_le x (Finite 100))
       (rawu_score raw)
  /\ given_ok (fun s => exists e, s = value e) (rawu_status raw)
  /\ given_ok (float_le (Finite 0)) (rawu_budget raw)
  /\ given_ok (float_le (Finite 0)) (rawu_revenue raw).

(** What a validated field holds: the given value, or [None]. *)
Definition given_value {A : Type} (f : JsonField A) : option A :=
  match f with
  | Given a => Some a
  | _ => None
  end.

(** A body that carries only a release date. *)
Definition only_date (d : Z) : RawUpdateRequest :=
  mkRawUpdate Absent (Given d) Absent Absent Absent Absent Absent.

(* ================================================================= *)
(** * Properties *)

(** ** Looking a row up by a unique key *)

Section KeyLookup.

Context {A K : Type} (key : A -> K) (eqb : K -> K -> bool).
Hypothesis eqb_eq : forall x y, eqb x y = true <-> x = y.

Lemma filter_key_absent (l : list A) (k : K) :
  (forall a, In a l -> key a <> k) ->
  filter (fun a => eqb (key a) k) l = [].
Proof.
  induction l as [|a l IH]; intros Hno; [reflexivity|].
  cbn. destruct (eqb (key a) k) eqn:E.
  - apply eqb_eq in E. exfalso. apply (Hno a); [now left | exact E].
  - apply IH. intros b Hb. apply Hno. now right.
Qed.

Lemma filter_key_unique (l : list A) (k : K) (a : A) :
  NoDup (map key l) -> In a l -> key a = k ->
  filter (fun a => eqb (key a) k) l = [a].
Proof.
  induction l as [|b l IH]; intros Hnd Hin Hk; [contradiction|].
  cbn in Hnd. apply NoDup_cons_iff in Hnd. destruct Hnd as [Hb Hnd].
  cbn. destruct Hin as [->|Hin].
  - assert (E : eqb (key a) k = true) by now apply eqb_eq.
    rewrite E. f_equal. apply filter_key_absent.
    intros c Hc Hck. apply Hb. rewrite Hk, <- Hck. now apply in_map.
  - destruct (eqb (key b) k) eqn:E.
    + apply eqb_eq in E. exfalso. apply Hb.
      rewrite E, <- Hk. now apply in_map.
    + now apply IH.
Qed.

Lemma filter_key_nil_absent (l : list A) (k : K) :
  filter (fun a => eqb (key a) k) l = [] ->
  forall a, In a l -> key a <> k.
Proof.
  intros Hf a Hin Hk.
  assert (Hin' : In a (filter (fun a => eqb (key a) k) l)).
  { apply filter_In. split; [exact Hin | now apply eqb_eq]. }
  rewrite Hf in Hin'. contradiction.
Qed.

Lemma key_in_dec (l : list A) (k : K) :
  (exists a, In a l /\ key a = k) \/ (forall a, In a l -> key a <> k).
Proof.
  induction l as [|a l IH].
  - right. intros b [].
  - destruct (eqb (key a) k) eqn:E.
    + apply eqb_eq in E. left. exists a. split; [now left | exact E].
    + destruct IH as [[b [Hb Hk]]|IH].
      * left. exists b. split; [now right | exact Hk].
      * right. intros b [<-|Hb]; [|now apply IH].
        intros Hk. apply eqb_eq in Hk. congruence.
Qed.

End KeyLookup.

(** ** Fresh identifiers *)

Lemma next_id_above (ids : list Z) (x : Z) : In x ids -> x < next_id ids.
Proof.
  unfold next_id. induction ids as [|y ids IH]; [contradiction|].
  intros [->|Hin]; cbn [fold_right]; [lia|]. specialize (IH Hin). lia.
Qed.

Lemma next_id_fresh (ids : list Z) : ~ In (next_id ids) ids.
Proof. intros H. apply next_id_above in H. lia. Qed.

Lemma next_id_positive (ids : list Z) : 1 <= next_id ids.
Proof.
  unfold next_id. induction ids as [|y ids IH]; cbn [fold_right]; lia.
Qed.

(** ** The get-or-create resolver *)

Lemma table_set_table (model : RelatedModel) t s :
  table model (set_table model t s) = t.
Proof. now destruct model. Qed.

Lemma table_set_table_other (model model' : RelatedModel) t s :
  model' <> model -> table model' (set_table model t s) = table model' s.
Proof. destruct model, model'; intros H; try reflexivity; congruence. Qed.

Lemma movies_set_table (model : RelatedModel) t s :
  movies (set_table model t s) = movies s.
Proof. now destruct model. Qed.

Lemma countries_set_table (model : RelatedModel) t s :
  countries (set_table model t s) = countries s.
Proof. now destruct model. Qed.

(** A row with the name is there: it is returned and nothing is written. *)
Lemma get_or_create_existing (model : RelatedModel) (name : string)
  (ses : AsyncSession) (r : NamedModel) :
  unique_names (table model (view ses)) ->
  In r (table model (view ses)) -> named_name r = name ->
  get_or_create_related_instance model name ses = (Return r, ses).
Proof.
  intros Hu Hin Hn. unfold get_or_create_related_instance, bind, execute.
  rewrite (filter_key_unique named_name String.eqb String.eqb_eq
             (table model (view ses)) name r Hu Hin Hn).
  reflexivity.
Qed.

(** No row has the name: one row is appended, with a fresh identifier. *)
Lemma get_or_create_absent (model : RelatedModel) (name : string)
  (ses : AsyncSession) :
  (forall r, In r (table model (view ses)) -> named_name r <> name) ->
  let t := table model (view ses) in
  let r := mkNamed (next_id (map named_id t)) name in
  get_or_create_related_instance model name ses
  = (Return r, mkSession (committed ses) (set_table model (t ++ [r]) (view ses))).
Proof.
  intros Hno. unfold get_or_create_related_instance, bind, execute.
  rewrite (filter_key_absent named_name String.eqb String.eqb_eq _ name Hno).
  reflexivity.
Qed.

Lemma unique_names_snoc (t : list NamedModel) (r : NamedModel) :
  unique_names t ->
  (forall r0, In r0 t -> named_name r0 <> named_name r) ->
  unique_names (t ++ [r]).
Proof.
  unfold unique_names. intros Hu Hno. rewrite map_app. cbn.
  apply NoDup_app_remove_l with (l := []). cbn.
  apply Permutation_NoDup with (l := named_name r :: map named_name t).
  - apply Permutation_cons_append.
  - constructor; [|exact Hu].
    intros Hin. apply in_map_iff in Hin. destruct Hin as [r0 [E Hr0]].
    now apply (Hno r0).
Qed.

(** The resolver always returns under the uniqueness constraint, keeps the
    constraint, touches only its own table and never commits. *)
Lemma get_or_create_total (model : RelatedModel) (name : string)
  (ses : AsyncSession) :
  unique_names (table model (view ses)) ->
  exists r ses',
    get_or_create_related_instance model name ses = (Return r, ses')
    /\ named_name r = name
    /\ In r (table model (view ses'))
    /\ unique_names (table model (view ses'))
    /\ committed ses' = committed ses
    /\ movies (view ses') = movies (view ses)
    /\ countries (view ses') = countries (view ses)
    /\ (forall model', model' <> model ->
          table model' (view ses') = table model' (view ses)).
Proof.
  intros Hu.
  destruct (key_in_dec named_name String.eqb String.eqb_eq
              (table model (view ses)) name) as [[r [Hin Hn]]|Hno].
  - exists r, ses. rewrite (get_or_create_existing model name ses r Hu Hin Hn).
    repeat split; auto.
  - eexists. eexists. rewrite (get_or_create_absent model name ses Hno).
    split; [reflexivity|]. cbn.
    rewrite table_set_table, movies_set_table, countries_set_table.
    repeat split; auto.
    + apply in_or_app. right. now left.
    + apply unique_names_snoc; [exact Hu | exact Hno].
    + intros model' Hne. now apply table_set_table_other.
Qed.

Lemma get_or_create_again (model : RelatedModel) (name : string)
  (ses : AsyncSession) (r : NamedModel) (n : nat) :
  unique_names (table model (view ses)) ->
  In r (table model (view ses)) -> named_name r = name ->
  for_each (get_or_create_related_instance model) (repeat name n) ses
  = (Return (repeat r n), ses).
Proof.
  intros Hu Hin Hn. induction n as [|n IH]; [reflexivity|].
  cbn [repeat for_each]. unfold bind at 1.
  rewrite (get_or_create_existing model name ses r Hu Hin Hn).
  unfold bind at 1. rewrite IH. reflexivity.
Qed.

(** C1.  For each of the three name-keyed models and every name, on a table
    whose names are unique: the resolver returns a row with that name; when
    such a row exists it is that row and nothing is written; otherwise the
    table gains exactly that one row, whose identifier was not in use, and
    nothing is committed; any number of further calls with the same name
    return the same row and leave the session as it is, and exactly one row
    of the table has the name. *)
Theorem get_or_create_idempotent (model : RelatedModel) (name : string)
  (ses : AsyncSession) (n : nat) :
  unique_names (table model (view ses)) ->
  exists r ses',
    get_or_create_related_instance model name ses = (Return r, ses')
    /\ named_name r = name
    /\ (forall r0, In r0 (table model (view ses)) -> named_name r0 = name ->
          r = r0 /\ ses' = ses)
    /\ ((forall r0, In r0 (table model (view ses)) -> named_name r0 <> name) ->
          ses' = mkSession (committed ses)
                   (set_table model (table model (view ses) ++ [r]) (view ses))
          /\ ~ In (named_id r) (map named_id (table model (view ses))))
    /\ committed ses' = committed ses
    /\ for_each (get_or_create_related_instance model) (repeat name n) ses'
       = (Return (repeat r n), ses')
    /\ filter (fun x => String.eqb (named_name x) name)
         (table model (view ses')) = [r].
Proof.
  intros Hu.
  destruct (get_or_create_total model name ses Hu)
    as [r [ses' [Hrun [Hn [Hin [Hu' [Hc _]]]]]]].
  exists r, ses'. split; [exact Hrun|]. split; [exact Hn|].
  split; [|split; [|split; [exact Hc|split]]].
  - intros r0 Hin0 Hn0.
    rewrite (get_or_create_existing model name ses r0 Hu Hin0 Hn0) in Hrun.
    inversion Hrun. split; reflexivity.
  - intros Hno. rewrite (get_or_create_absent model name ses Hno) in Hrun.
    inversion Hrun. split; [reflexivity|]. cbn. apply next_id_fresh.
  - now apply get_or_create_again.
  - now apply (filter_key_unique named_name String.eqb String.eqb_eq).
Qed.

Lemma get_or_create_idempotent_witness :
  unique_names (table GenreModel (view (begin_session empty_store)))
  /\ exists r ses',
       get_or_create_related_instance GenreModel "Sci-Fi"
         (begin_session empty_store) = (Return r, ses')
       /\ named_name r = "Sci-Fi"
       /\ (forall r0, In r0 (table GenreModel (view (begin_session empty_store))) ->
             named_name r0 = "Sci-Fi" -> r = r0 /\ ses' = begin_session empty_store)
       /\ ((forall r0, In r0 (table GenreModel (view (begin_session empty_store))) ->
              named_name r0 <> "Sci-Fi") ->
             ses' = mkSession (committed (begin_session empty_store))
                      (set_table GenreModel
                         (table GenreModel (view (begin_session empty_store)) ++ [r])
                         (view (begin_session empty_store)))
             /\ ~ In (named_id r)
                  (map named_id (table GenreModel (view (begin_session empty_store)))))
       /\ committed ses' = committed (begin_session empty_store)
       /\ for_each (get_or_create_related_instance GenreModel)
            (repeat "Sci-Fi" 3) ses' = (Return (repeat r 3), ses')
       /\ filter (fun x => String.eqb (named_name x) "Sci-Fi")
            (table GenreModel (view ses')) = [r].
Proof.
  split.
  - constructor.
  - apply (get_or_create_idempotent GenreModel "Sci-Fi"
             (begin_session empty_store) 3).
    constructor.
Defined.

(** ** Creating a movie *)

Lemma name_date_is_true (name : string) (date : Z) (m : MovieModel) :
  name_date_is name date m = true
  <-> movie_name m = VStr name /\ movie_date m = VDate date.
Proof.
  unfold name_date_is, col_eq_str, col_eq_date.
  rewrite andb_true_iff. split.
  - intros [Hn Hd].
    destruct (movie_name m); try discriminate.
    destruct (movie_date m); try discriminate.
    apply String.eqb_eq in Hn. apply Z.eqb_eq in Hd. now subst.
  - intros [-> ->]. split; [apply String.eqb_refl | apply Z.eqb_refl].
Qed.

Lemma has_movie_filter (name : string) (date : Z) (s : Store) :
  has_movie name date s <-> filter (name_date_is name date) (movies s) <> [].
Proof.
  unfold has_movie. split.
  - intros [m [Hin Hm]] Hf.
    assert (H : In m (filter (name_date_is name date) (movies s))).
    { apply filter_In. split; [exact Hin | now apply name_date_is_true]. }
    rewrite Hf in H. contradiction.
  - intros Hf.
    destruct (filter (name_date_is name date) (movies s)) as [|m l] eqn:E;
      [congruence|].
    assert (H : In m (filter (name_date_is name date) (movies s)))
      by (rewrite E; now left).
    apply filter_In in H. destruct H as [Hin Hm].
    exists m. split; [exact Hin | now apply name_date_is_true].
Qed.

Lemma has_movie_dec (name : string) (date : Z) (s : Store) :
  has_movie name date s \/ ~ has_movie name date s.
Proof.
  rewrite has_movie_filter.
  destruct (filter (name_date_is name date) (movies s));
    [right; intros H; now apply H | left; discriminate].
Qed.

(** The resolver run over a list of names. *)
Lemma for_each_get_or_create (model : RelatedModel) (names : list string) :
  forall ses,
    unique_names (table model (view ses)) ->
    exists rs ses',
      for_each (get_or_create_related_instance model) names ses
      = (Return rs, ses')
      /\ map named_name rs = names
      /\ unique_names (table model (view ses'))
      /\ committed ses' = committed ses
      /\ movies (view ses') = movies (view ses)
      /\ countries (view ses') = countries (view ses)
      /\ (forall model', model' <> model ->
            table model' (view ses') = table model' (view ses)).
Proof.
  induction names as [|name names IH]; intros ses Hu.
  - exists [], ses. repeat split; auto.
  - destruct (get_or_create_total model name ses Hu)
      as [r [ses1 [Hrun [Hn [_ [Hu1 [Hc1 [Hm1 [Hk1 Ht1]]]]]]]]].
    destruct (IH ses1 Hu1)
      as [rs [ses2 [Hrun2 [Hn2 [Hu2 [Hc2 [Hm2 [Hk2 Ht2]]]]]]]].
    exists (r :: rs), ses2. cbn [for_each]. unfold bind at 1. rewrite Hrun.
    unfold bind at 1. rewrite Hrun2. cbn.
    repeat split; try congruence.
    intros model' Hne. rewrite Ht2, Ht1; auto.
Qed.

Lemma find_id_some (cs : list CountryModel) (c : CountryModel) :
  In c cs -> find (fun x => country_id x =? country_id c) cs <> None.
Proof.
  intros Hin Hf. apply (find_none _ _ Hf) in Hin.
  rewrite Z.eqb_refl in Hin. discriminate.
Qed.

Lemma find_new_movie (ms : list MovieModel) (m : MovieModel) :
  movie_id m = next_id (map movie_id ms) ->
  find (fun x => movie_id x =? movie_id m) (ms ++ [m]) = Some m.
Proof.
  intros Hid.
  assert (Hfresh : forall x, In x ms -> movie_id x <> movie_id m).
  { intros x Hx E. apply (next_id_fresh (map movie_id ms)).
    rewrite <- Hid, <- E. now apply in_map. }
  clear Hid. induction ms as [|a ms IH]; cbn.
  - now rewrite Z.eqb_refl.
  - destruct (Z.eqb_spec (movie_id a) (movie_id m)) as [E|E].
    + exfalso. apply (Hfresh a); [now left | exact E].
    + apply IH. intros x Hx. apply Hfresh. now right.
Qed.

Lemma filter_new_movie (ms : list MovieModel) (m : MovieModel) :
  movie_id m = next_id (map movie_id ms) ->
  filter (fun x => movie_id x =? movie_id m) (ms ++ [m]) = [m].
Proof.
  intros Hid. rewrite filter_app. cbn. rewrite Z.eqb_refl.
  rewrite (filter_key_absent movie_id Z.eqb Z.eqb_eq ms (movie_id m));
    [reflexivity|].
  intros x Hx E. apply (next_id_fresh (map movie_id ms)).
  rewrite <- Hid, <- E. now apply in_map.
Qed.

Lemma country_step {B : Type} (code : string) (k : CountryModel -> DB B)
  (ses : AsyncSession) :
  unique_codes (countries (view ses)) ->
  exists c ses1,
    (country <- scalar_one_or_none
                  (filter (fun c => String.eqb (country_code c) code)
                     (countries (view ses))) ;;
     country0 <- match country with
                 | Some c => ret c
                 | None => add_flush_country code None
                 end ;;
     k country0) ses = k c ses1
    /\ In c (countries (view ses1))
    /\ country_code c = code
    /\ unique_codes (countries (view ses1))
    /\ committed ses1 = committed ses
    /\ movies (view ses1) = movies (view ses)
    /\ (forall model, table model (view ses1) = table model (view ses)).
Proof.
  intros Hu.
  destruct (key_in_dec country_code String.eqb String.eqb_eq
              (countries (view ses)) code) as [[c [Hin Hc]]|Hno].
  - exists c, ses.
    rewrite (filter_key_unique country_code String.eqb String.eqb_eq
               _ code c Hu Hin Hc).
    repeat split; auto.
  - rewrite (filter_key_absent country_code String.eqb String.eqb_eq
               _ code Hno).
    eexists. eexists. split; [reflexivity|]. cbn.
    repeat split; auto.
    + apply in_or_app. right. now left.
    + unfold unique_codes. rewrite map_app. cbn.
      apply Permutation_NoDup
        with (l := code :: map country_code (countries (view ses))).
      * apply Permutation_cons_append.
      * constructor; [|exact Hu].
        intros Hin. apply in_map_iff in Hin. destruct Hin as [c0 [E Hc0]].
        now apply (Hno c0).
Qed.

(** Writing a body as JSON. *)
Lemma render_json_finite (code : Z) (b : Body) :
  forallb is_finite (body_floats b) = true ->
  render_json code b = mkResponse code b.
Proof. intros H. unfold render_json. now rewrite H. Qed.

Lemma render_json_status (code : Z) (b : Body) :
  code <> HTTP_500_INTERNAL_SERVER_ERROR ->
  status_code (render_json code b) = code ->
  forallb is_finite (body_floats b) = true
  /\ render_json code b = mkResponse code b.
Proof.
  intros Hc. unfold render_json.
  destruct (forallb is_finite (body_floats b)); cbn; intros H.
  - now split.
  - congruence.
Qed.

Lemma detail_floats_finite (d : MovieDetailResponse) :
  forallb is_finite (body_floats (DetailBody d))
  = is_finite (detail_score d) && is_finite (detail_budget d)
    && is_finite (detail_revenue d).
Proof.
  cbn. now rewrite andb_true_r, andb_assoc.
Qed.

Lemma create_movie_fresh (movie_data : MovieCreateRequest) (ses : AsyncSession) :
  filter (name_date_is (req_name movie_data) (req_date movie_data))
    (movies (view ses)) = [] ->
  unique_codes (countries (view ses)) ->
  (forall model, unique_names (table model (view ses))) ->
  exists m ses' d,
    create_movie movie_data ses
    = (Return (Some (load_relations (view ses') m)), ses')
    /\ movies (view ses') = movies (view ses) ++ [m]
    /\ committed ses' = view ses'
    /\ movie_name m = VStr (req_name movie_data)
    /\ movie_date m = VDate (req_date movie_data)
    /\ movie_id m = next_id (map movie_id (movies (view ses)))
    /\ MovieDetailResponse_validate (load_relations (view ses') m) = Some d
    /\ detail_id d = movie_id m
    /\ detail_name d = req_name movie_data
    /\ detail_date d = req_date movie_data
    /\ unique_codes (countries (view ses'))
    /\ (forall model, unique_names (table model (view ses')))
    /\ list_ready m
    /\ detail_score d = Finite (req_score movie_data)
    /\ detail_budget d = req_budget movie_data
    /\ detail_revenue d = req_revenue movie_data.
Proof.
  intros Hf Hcodes Hnames.
  unfold create_movie. unfold bind at 1. unfold execute at 1. rewrite Hf.
  unfold bind at 1. cbn [scalar_one_or_none ret].
  unfold bind at 1. unfold execute at 1.
  lazymatch goal with
  | |- exists m ses' d, (bind _ (fun country => bind _ ?K)) ses = _ /\ _ =>
      destruct (country_step (req_country movie_data) K ses Hcodes)
        as [c [ses1 [Heq [Hc [Hcode [Hcodes1 [Hcm1 [Hm1 Ht1]]]]]]]]
  end.
  rewrite Heq. clear Heq.
  assert (Hn1 : forall model, unique_names (table model (view ses1))).
  { intros model. rewrite Ht1. apply Hnames. }
  destruct (for_each_get_or_create GenreModel (req_genres movie_data)
              ses1 (Hn1 GenreModel))
    as [gs [ses2 [Hg [_ [Hu2 [Hcm2 [Hm2 [Hk2 Ht2]]]]]]]].
  unfold bind at 1. rewrite Hg.
  assert (Hn2 : unique_names (table ActorModel (view ses2))).
  { rewrite Ht2 by discriminate. apply Hn1. }
  destruct (for_each_get_or_create ActorModel (req_actors movie_data)
              ses2 Hn2)
    as [acs [ses3 [Ha [_ [Hu3 [Hcm3 [Hm3 [Hk3 Ht3]]]]]]]].
  unfold bind at 1. rewrite Ha.
  assert (Hn3 : unique_names (table LanguageModel (view ses3))).
  { rewrite Ht3, Ht2 by discriminate. apply Hn1. }
  destruct (for_each_get_or_create LanguageModel (req_languages movie_data)
              ses3 Hn3)
    as [ls [ses4 [Hl [_ [Hu4 [Hcm4 [Hm4 [Hk4 Ht4]]]]]]]].
  unfold bind at 1. rewrite Hl.
  unfold bind at 1. unfold add_movie.
  set (m := mkMovie _ _ _ _ _ _ _ _ _ _ _ _).
  assert (Hid : movie_id m = next_id (map movie_id (movies (view ses4))))
    by reflexivity.
  unfold bind at 1. unfold commit. cbn [view committed].
  unfold bind at 1. unfold refresh. cbn [view movies set_movies].
  rewrite (find_new_movie _ m Hid).
  unfold bind at 1. unfold get_movie_by_id.
  unfold bind at 1. unfold execute. cbn [view movies set_movies].
  rewrite (filter_new_movie _ m Hid).
  unfold bind at 1. cbn [scalar_one_or_none ret option_map].
  set (s' := set_movies _ _).
  assert (Hk : find (fun x => country_id x =? movie_country m) (countries s')
               <> None).
  { change (movie_country m) with (country_id c). apply find_id_some.
    subst s'. cbn [countries set_movies]. now rewrite Hk4, Hk3, Hk2. }
  destruct (find (fun x => country_id x =? movie_country m) (countries s'))
    as [c'|] eqn:Hfind; [|congruence].
  exists m, (mkSession s' s').
  eexists. cbn [view committed].
  split; [reflexivity|].
  split; [subst s'; cbn; now rewrite Hm4, Hm3, Hm2, Hm1|].
  split; [reflexivity|].
  split; [reflexivity|].
  split; [reflexivity|].
  split; [now rewrite Hid, Hm4, Hm3, Hm2, Hm1|].
  split.
  { unfold MovieDetailResponse_validate, load_relations.
    cbn [loaded_row loaded_country]. rewrite Hfind. reflexivity. }
  split; [reflexivity|]. split; [reflexivity|]. split; [reflexivity|].
  split; [|split; [|split]].
  - subst s'. cbn [countries set_movies]. now rewrite Hk4, Hk3, Hk2.
  - intros model. subst s'.
    replace (table model (set_movies (movies (view ses4) ++ [m]) (view ses4)))
      with (table model (view ses4)) by now destruct model.
    destruct model.
    + rewrite Ht4, Ht3 by discriminate. exact Hu2.
    + rewrite Ht4 by discriminate. exact Hu3.
    + exact Hu4.
  - exists (req_name movie_data), (req_date movie_data),
      (req_score movie_data), (req_overview movie_data).
    now repeat split.
  - now repeat split.
Qed.

Lemma create_movie_duplicate (movie_data : MovieCreateRequest)
  (ses : AsyncSession) :
  unique_name_date (movies (view ses)) ->
  filter (name_date_is (req_name movie_data) (req_date movie_data))
    (movies (view ses)) <> [] ->
  create_movie movie_data ses = (Raise (HTTPException HTTP_409_CONFLICT), ses).
Proof.
  intros Hu Hf. specialize (Hu (req_name movie_data) (req_date movie_data)).
  unfold create_movie. unfold bind at 1. unfold execute at 1.
  destruct (filter (name_date_is (req_name movie_data) (req_date movie_data))
              (movies (view ses))) as [|m [|m' l]]; [congruence| |].
  - reflexivity.
  - cbn in Hu. lia.
Qed.

(** A second row for a conflicting request is always found, whatever the
    store held before the first one was written. *)
Lemma create_movie_after_create (other : MovieCreateRequest)
  (ms : list MovieModel) (m : MovieModel) (ses : AsyncSession) :
  movies (view ses) = ms ++ [m] ->
  filter (name_date_is (req_name other) (req_date other)) ms = [] ->
  movie_name m = VStr (req_name other) ->
  movie_date m = VDate (req_date other) ->
  create_movie other ses = (Raise (HTTPException HTTP_409_CONFLICT), ses).
Proof.
  intros Hms Hf Hn Hd.
  unfold create_movie. unfold bind at 1. unfold execute at 1.
  rewrite Hms, filter_app, Hf. cbn [filter app].
  assert (E : name_date_is (req_name other) (req_date other) m = true)
    by now apply name_date_is_true.
  rewrite E. reflexivity.
Qed.

Lemma unique_ids_snoc (ms : list MovieModel) (m : MovieModel) :
  unique_ids ms -> movie_id m = next_id (map movie_id ms) ->
  unique_ids (ms ++ [m]).
Proof.
  unfold unique_ids. intros Hu Hid. rewrite map_app. cbn.
  apply Permutation_NoDup with (l := movie_id m :: map movie_id ms).
  - apply Permutation_cons_append.
  - constructor; [|exact Hu]. rewrite Hid. apply next_id_fresh.
Qed.

Lemma unique_name_date_snoc (ms : list MovieModel) (m : MovieModel)
  (name : string) (date : Z) :
  unique_name_date ms ->
  movie_name m = VStr name -> movie_date m = VDate date ->
  filter (name_date_is name date) ms = [] ->
  unique_name_date (ms ++ [m]).
Proof.
  intros Hu Hn Hd Hf name' date'. rewrite filter_app, length_app.
  cbn [filter]. destruct (name_date_is name' date' m) eqn:E.
  - apply name_date_is_true in E. destruct E as [E1 E2].
    rewrite Hn in E1. rewrite Hd in E2.
    injection E1 as <-. injection E2 as <-. rewrite Hf. cbn. lia.
  - specialize (Hu name' date'). cbn. lia.
Qed.

(** The create handler on a store that holds no movie with the request's
    name and date and whose lookup keys are unique: the row is stored; the
    answer is 201 when budget and revenue can be written as JSON. *)
Lemma serve_create_movie_fresh (movie_data : MovieCreateRequest) (s : Store) :
  filter (name_date_is (req_name movie_data) (req_date movie_data))
    (movies s) = [] ->
  unique_codes (countries s) ->
  (forall model, unique_names (table model s)) ->
  exists m d s',
    serve_create_movie movie_data s
    = (render_json HTTP_201_CREATED (DetailBody d), s')
    /\ movies s' = movies s ++ [m]
    /\ movie_name m = VStr (req_name movie_data)
    /\ movie_date m = VDate (req_date movie_data)
    /\ movie_id m = next_id (map movie_id (movies s))
    /\ detail_name d = req_name movie_data
    /\ detail_date d = req_date movie_data
    /\ forallb is_finite (body_floats (DetailBody d))
       = is_finite (req_budget movie_data)
         && is_finite (req_revenue movie_data)
    /\ unique_codes (countries s')
    /\ (forall model, unique_names (table model s'))
    /\ list_ready m.
Proof.
  intros Hf Hcodes Hnames.
  destruct (create_movie_fresh movie_data (begin_session s) Hf Hcodes Hnames)
    as (m & ses' & d & Hrun & Hms & Hcm & Hn & Hd & Hid & Hv & _ & Hdn
        & Hdd & Hcodes' & Hnames' & Hready & Hsc & Hb & Hr).
  cbn [view begin_session] in Hms, Hid.
  exists m, d, (view ses').
  unfold serve_create_movie, serve. rewrite Hrun.
  cbn [render_detail]. rewrite Hv, Hcm.
  split; [reflexivity|].
  do 6 (split; [assumption|]).
  split; [|now repeat split].
  rewrite detail_floats_finite, Hsc, Hb, Hr. reflexivity.
Qed.

(** A create request that finds its name and date in the last row of the
    movie table, and nowhere before it, is answered 409. *)
Lemma serve_create_movie_after_create (other : MovieCreateRequest)
  (s : Store) (ms : list MovieModel) (m : MovieModel) :
  movies s = ms ++ [m] ->
  filter (name_date_is (req_name other) (req_date other)) ms = [] ->
  movie_name m = VStr (req_name other) ->
  movie_date m = VDate (req_date other) ->
  serve_create_movie other s = (mkResponse HTTP_409_CONFLICT ErrorBody, s).
Proof.
  intros Hms Hf Hn Hd. unfold serve_create_movie, serve.
  now rewrite (create_movie_after_create other ms m (begin_session s)).
Qed.

(** The duplicate check of the create handler: one matching row gives 409,
    several give a server error, and in both cases nothing is written. *)
Lemma serve_create_movie_found (movie_data : MovieCreateRequest) (s : Store)
  (x : MovieModel) (l : list MovieModel) :
  filter (name_date_is (req_name movie_data) (req_date movie_data))
    (movies s) = x :: l ->
  serve_create_movie movie_data s
  = (mkResponse (match l with
                 | [] => HTTP_409_CONFLICT
                 | _ :: _ => HTTP_500_INTERNAL_SERVER_ERROR
                 end) ErrorBody, s).
Proof.
  intros Hf. unfold serve_create_movie, serve, create_movie.
  unfold bind at 1. unfold execute at 1. cbn [view begin_session].
  rewrite Hf. destruct l; reflexivity.
Qed.

(** Rows written by the create handler are populated, so a store filled
    through it stays populated. *)
Lemma create_movie_keeps_populated (movie_data : MovieCreateRequest)
  (s : Store) :
  Integrity s -> populated (movies s) ->
  populated (movies (snd (serve_create_movie movie_data s))).
Proof.
  intros [Hids Hnd Hcodes Hnames] Hpop.
  unfold serve_create_movie, serve.
  destruct (filter (name_date_is (req_name movie_data) (req_date movie_data))
              (movies s)) as [|x l] eqn:Hf.
  - destruct (create_movie_fresh movie_data (begin_session s) Hf Hcodes Hnames)
      as (m & ses' & d & Hrun & Hms & Hcm & _ & _ & _ & _ & _ & _ & _ & _ & _
          & Hm & _).
    rewrite Hrun. cbn [snd]. rewrite Hcm, Hms. cbn [view begin_session].
    apply Forall_app. split; [exact Hpop|]. constructor; [exact Hm|constructor].
  - rewrite (create_movie_duplicate movie_data (begin_session s) Hnd).
    + exact Hpop.
    + cbn [view begin_session]. rewrite Hf. discriminate.
Qed.

Lemma Integrity_empty : Integrity empty_store.
Proof.
  constructor.
  - constructor.
  - intros name date. cbn. lia.
  - constructor.
  - intros []; constructor.
Qed.

(** ** Deleting a movie *)

Lemma delete_movie_absent (movie_id_ : Z) (ses : AsyncSession) :
  (forall m, In m (movies (view ses)) -> movie_id m <> movie_id_) ->
  delete_movie movie_id_ ses = (Raise (HTTPException HTTP_404_NOT_FOUND), ses).
Proof.
  intros Hno. unfold delete_movie, bind, execute.
  rewrite (filter_key_absent movie_id Z.eqb Z.eqb_eq _ movie_id_ Hno).
  reflexivity.
Qed.

Lemma delete_movie_present (movie_id_ : Z) (ses : AsyncSession)
  (m : MovieModel) :
  unique_ids (movies (view ses)) ->
  In m (movies (view ses)) -> movie_id m = movie_id_ ->
  let s' := set_movies
              (filter (fun x => negb (movie_id x =? movie_id_))
                 (movies (view ses)))
              (view ses) in
  delete_movie movie_id_ ses = (Return tt, mkSession s' s').
Proof.
  intros Hu Hin Hid. unfold delete_movie, bind, execute.
  rewrite (filter_key_unique movie_id Z.eqb Z.eqb_eq _ movie_id_ m Hu Hin Hid).
  cbn. rewrite Hid. reflexivity.
Qed.

Lemma get_movie_details_absent (movie_id_ : Z) (ses : AsyncSession) :
  (forall m, In m (movies (view ses)) -> movie_id m <> movie_id_) ->
  get_movie_details movie_id_ ses
  = (Raise (HTTPException HTTP_404_NOT_FOUND), ses).
Proof.
  intros Hno. unfold get_movie_details, get_movie_by_id, bind, execute.
  rewrite (filter_key_absent movie_id Z.eqb Z.eqb_eq _ movie_id_ Hno).
  reflexivity.
Qed.

(** C8.  With identifiers unique in the movie table: deleting an identifier
    that no movie has is answered 404 and changes nothing; deleting the
    identifier of a stored movie is answered 204 with no body, the committed
    store is the old one without that row (the other tables are untouched),
    and fetching the detail of that identifier afterwards is answered 404. *)
Theorem delete_movie_then_not_found (movie_id_ : Z) (s : Store) :
  unique_ids (movies s) ->
  ((forall m, In m (movies s) -> movie_id m <> movie_id_) ->
   route_delete_movie movie_id_ s
   = (mkResponse HTTP_404_NOT_FOUND ErrorBody, s))
  /\ (forall m, In m (movies s) -> movie_id m = movie_id_ ->
      exists s',
        route_delete_movie movie_id_ s
        = (mkResponse HTTP_204_NO_CONTENT NoBody, s')
        /\ movies s'
           = filter (fun x => negb (movie_id x =? movie_id_)) (movies s)
        /\ countries s' = countries s
        /\ (forall model, table model s' = table model s)
        /\ route_get_movie_details movie_id_ s'
           = (mkResponse HTTP_404_NOT_FOUND ErrorBody, s')).
Proof.
  intros Hu. split.
  - intros Hno. unfold route_delete_movie, serve.
    rewrite (delete_movie_absent movie_id_ (begin_session s) Hno).
    reflexivity.
  - intros m Hin Hid. unfold route_delete_movie, serve.
    rewrite (delete_movie_present movie_id_ (begin_session s) m Hu Hin Hid).
    cbn [committed view begin_session].
    eexists. split; [reflexivity|].
    split; [reflexivity|]. split; [reflexivity|].
    split; [now intros []|].
    unfold route_get_movie_details, serve.
    rewrite get_movie_details_absent; [reflexivity|].
    cbn [view begin_session movies set_movies].
    intros x Hx E. apply filter_In in Hx. destruct Hx as [_ Hx].
    apply Z.eqb_eq in E. rewrite E in Hx. discriminate.
Qed.

(** ** Updating a movie *)

Lemma dump_status (r : MovieUpdateRequest) :
  dict_get (model_dump_exclude_unset r) "status"
  = if is_set r "status" then Some (of_option VEnum (upd_status r)) else None.
Proof.
  unfold model_dump_exclude_unset, model_dump. cbn [filter fst].
  destruct (is_set r "name"), (is_set r "date"), (is_set r "score"),
    (is_set r "overview"), (is_set r "status"), (is_set r "budget"),
    (is_set r "revenue"); reflexivity.
Qed.

Lemma truthy_enum (e : MovieStatusEnum) : truthy (VEnum e) = true.
Proof. now destruct e. Qed.

Lemma normalize_then_apply (r : MovieUpdateRequest) (m : MovieModel)
  (ses : AsyncSession) :
  exists update_data,
    normalize_status (model_dump_exclude_unset r) ses
    = (Return update_data, ses)
    /\ apply_updates update_data m = patched_movie r m.
Proof.
  unfold normalize_status. rewrite dump_status.
  unfold patched_movie, patched.
  unfold model_dump_exclude_unset, model_dump. cbn [filter fst].
  destruct m as [i n d sc o st b rv c g a l]. cbn [movie_id movie_name
    movie_date movie_score movie_overview movie_status movie_budget
    movie_revenue movie_country movie_genres movie_actors movie_languages].
  destruct (is_set r "status").
  - destruct (upd_status r) as [e|]; cbn [of_option].
    + rewrite truthy_enum. unfold bind. cbn [dot_value ret].
      eexists. split; [reflexivity|].
      destruct (is_set r "name"), (is_set r "date"), (is_set r "score"),
        (is_set r "overview"), (is_set r "budget"), (is_set r "revenue");
        reflexivity.
    + cbn [truthy ret].
      eexists. split; [reflexivity|].
      destruct (is_set r "name"), (is_set r "date"), (is_set r "score"),
        (is_set r "overview"), (is_set r "budget"), (is_set r "revenue");
        reflexivity.
  - cbn [ret].
    eexists. split; [reflexivity|].
    destruct (is_set r "name"), (is_set r "date"), (is_set r "score"),
      (is_set r "overview"), (is_set r "budget"), (is_set r "revenue");
      reflexivity.
Qed.

Lemma filter_replaced (ms : list MovieModel) (m m' : MovieModel) (k : Z) :
  unique_ids ms -> In m ms -> movie_id m = k -> movie_id m' = k ->
  filter (fun x => movie_id x =? k)
    (map (fun x => if movie_id x =? k then m' else x) ms) = [m'].
Proof.
  intros Hu Hin Hk Hk'.
  set (f := fun x => if movie_id x =? k then m' else x).
  assert (Hids : map movie_id (map f ms) = map movie_id ms).
  { rewrite map_map. apply map_ext. intros x. unfold f.
    destruct (Z.eqb_spec (movie_id x) k); congruence. }
  apply (filter_key_unique movie_id Z.eqb Z.eqb_eq).
  - unfold unique_ids in Hu. now rewrite Hids.
  - apply in_map_iff. exists m. split; [|exact Hin].
    unfold f. now rewrite Hk, Z.eqb_refl.
  - exact Hk'.
Qed.

Lemma update_movie_absent (movie_id_ : Z) (r : MovieUpdateRequest)
  (ses : AsyncSession) :
  (forall m, In m (movies (view ses)) -> movie_id m <> movie_id_) ->
  update_movie movie_id_ r ses
  = (Raise (HTTPException HTTP_404_NOT_FOUND), ses).
Proof.
  intros Hno. unfold update_movie. unfold bind at 1. unfold execute.
  rewrite (filter_key_absent movie_id Z.eqb Z.eqb_eq _ movie_id_ Hno).
  reflexivity.
Qed.

(** The whole effect of a partial update on the session. *)
Lemma update_movie_present (movie_id_ : Z) (r : MovieUpdateRequest)
  (ses : AsyncSession) (m : MovieModel) :
  unique_ids (movies (view ses)) ->
  In m (movies (view ses)) -> movie_id m = movie_id_ ->
  let s' := set_movies
              (map (fun x => if movie_id x =? movie_id_
                             then patched_movie r m else x)
                 (movies (view ses)))
              (view ses) in
  update_movie movie_id_ r ses
  = (Return (mkUpdateResponse "Movie updated successfully."),
     mkSession s' s')
  /\ get_movie_by_id movie_id_ (begin_session s')
     = (Return (Some (load_relations s' (patched_movie r m))),
        begin_session s').
Proof.
  intros Hu Hin Hid s'. split.
  - unfold update_movie. unfold bind at 1. unfold execute.
    rewrite (filter_key_unique movie_id Z.eqb Z.eqb_eq _ movie_id_ m
               Hu Hin Hid).
    unfold bind at 1. cbn [scalar_one_or_none ret].
    destruct (normalize_then_apply r m ses) as [ud [Hrun Happ]].
    unfold bind at 1. rewrite Hrun. rewrite Happ.
    unfold bind, db_write_back, commit, ret. cbn [view committed].
    change (movie_id (patched_movie r m)) with (movie_id m). rewrite Hid.
    reflexivity.
  - unfold get_movie_by_id, bind, execute.
    cbn [view begin_session]. subst s'. cbn [movies set_movies].
    rewrite (filter_replaced (movies (view ses)) m (patched_movie r m)
               movie_id_ Hu Hin Hid Hid).
    reflexivity.
Qed.

(** C4.  With identifiers unique in the movie table, a PATCH on the
    identifier of a stored movie is answered 200, and the movie fetched again
    holds, in each of the seven columns, the payload's value when the payload
    carried the field and the old value when it did not; the identifier and
    the relations are as before, and so is every other movie.  In particular
    a payload carrying only [score] leaves name, date, overview, status,
    budget and revenue as they were. *)
Theorem update_movie_partial (movie_id_ : Z)
  (movie_data : MovieUpdateRequest) (s : Store) (m : MovieModel) :
  unique_ids (movies s) -> In m (movies s) -> movie_id m = movie_id_ ->
  exists s' l',
    route_update_movie movie_id_ movie_data s
    = (mkResponse HTTP_200_OK
         (UpdateBody (mkUpdateResponse "Movie updated successfully.")), s')
    /\ get_movie_by_id movie_id_ (begin_session s')
       = (Return (Some l'), begin_session s')
    /\ movie_name (loaded_row l')
       = patched movie_data "name" VStr (upd_name movie_data) (movie_name m)
    /\ movie_date (loaded_row l')
       = patched movie_data "date" VDate (upd_date movie_data) (movie_date m)
    /\ movie_score (loaded_row l')
       = patched movie_data "score" (fun q => VFloat (Finite q))
           (upd_score movie_data) (movie_score m)
    /\ movie_overview (loaded_row l')
       = patched movie_data "overview" VStr (upd_overview movie_data)
           (movie_overview m)
    /\ movie_status (loaded_row l')
       = patched movie_data "status" (fun e => VStr (value e))
           (upd_status movie_data) (movie_status m)
    /\ movie_budget (loaded_row l')
       = patched movie_data "budget" VFloat (upd_budget movie_data)
           (movie_budget m)
    /\ movie_revenue (loaded_row l')
       = patched movie_data "revenue" VFloat (upd_revenue movie_data)
           (movie_revenue m)
    /\ movie_id (loaded_row l') = movie_id m
    /\ loaded_country l' = loaded_country (load_relations s m)
    /\ loaded_genres l' = loaded_genres (load_relations s m)
    /\ loaded_actors l' = loaded_actors (load_relations s m)
    /\ loaded_languages l' = loaded_languages (load_relations s m)
    /\ (forall x, In x (movies s) -> movie_id x <> movie_id_ ->
          In x (movies s'))
    /\ (model_fields_set movie_data = ["score"] ->
          movie_name (loaded_row l') = movie_name m
          /\ movie_date (loaded_row l') = movie_date m
          /\ movie_overview (loaded_row l') = movie_overview m
          /\ movie_status (loaded_row l') = movie_status m
          /\ movie_budget (loaded_row l') = movie_budget m
          /\ movie_revenue (loaded_row l') = movie_revenue m).
Proof.
  intros Hu Hin Hid.
  destruct (update_movie_present movie_id_ movie_data (begin_session s) m
              Hu Hin Hid) as [Hrun Hget].
  cbn [view begin_session] in Hrun, Hget.
  eexists. eexists.
  split; [unfold route_update_movie, serve; rewrite Hrun; reflexivity|].
  cbn [committed].
  split; [exact Hget|].
  cbn [loaded_row load_relations loaded_country loaded_genres loaded_actors
       loaded_languages patched_movie movie_name movie_date movie_score
       movie_overview movie_status movie_budget movie_revenue movie_id
       movie_country movie_genres movie_actors movie_languages
       countries genres actors languages set_movies].
  do 12 (split; [reflexivity|]).
  split.
  - intros x Hx Hne. apply in_map_iff. exists x. split; [|exact Hx].
    destruct (Z.eqb_spec (movie_id x) movie_id_); congruence.
  - intros Hset. unfold patched, is_set. rewrite Hset. cbn.
    repeat split.
Qed.

(** C10.  With identifiers unique in the movie table, a PATCH on the
    identifier of a stored movie whose payload carries a field with the value
    null is answered 200 and the movie fetched again holds null in that
    column, for each of the seven fields; for [status] the normalization step
    leaves the dumped payload as it is. *)
Theorem update_movie_explicit_null (movie_id_ : Z)
  (movie_data : MovieUpdateRequest) (s : Store) (m : MovieModel) :
  unique_ids (movies s) -> In m (movies s) -> movie_id m = movie_id_ ->
  exists s' l',
    route_update_movie movie_id_ movie_data s
    = (mkResponse HTTP_200_OK
         (UpdateBody (mkUpdateResponse "Movie updated successfully.")), s')
    /\ get_movie_by_id movie_id_ (begin_session s')
       = (Return (Some l'), begin_session s')
    /\ (is_set movie_data "name" = true -> upd_name movie_data = None ->
        movie_name (loaded_row l') = VNone)
    /\ (is_set movie_data "date" = true -> upd_date movie_data = None ->
        movie_date (loaded_row l') = VNone)
    /\ (is_set movie_data "score" = true -> upd_score movie_data = None ->
        movie_score (loaded_row l') = VNone)
    /\ (is_set movie_data "overview" = true ->
        upd_overview movie_data = None ->
        movie_overview (loaded_row l') = VNone)
    /\ (is_set movie_data "status" = true -> upd_status movie_data = None ->
        movie_status (loaded_row l') = VNone
        /\ forall ses,
             normalize_status (model_dump_exclude_unset movie_data) ses
             = (Return (model_dump_exclude_unset movie_data), ses))
    /\ (is_set movie_data "budget" = true -> upd_budget movie_data = None ->
        movie_budget (loaded_row l') = VNone)
    /\ (is_set movie_data "revenue" = true ->
        upd_revenue movie_data = None ->
        movie_revenue (loaded_row l') = VNone).
Proof.
  intros Hu Hin Hid.
  destruct (update_movie_present movie_id_ movie_data (begin_session s) m
              Hu Hin Hid) as [Hrun Hget].
  cbn [view begin_session] in Hrun, Hget.
  eexists. eexists.
  split; [unfold route_update_movie, serve; rewrite Hrun; reflexivity|].
  cbn [committed].
  split; [exact Hget|].
  cbn [loaded_row load_relations patched_movie movie_name movie_date
       movie_score movie_overview movie_status movie_budget movie_revenue].
  unfold patched.
  do 4 (split; [intros -> ->; reflexivity|]).
  split; [|split; intros -> ->; reflexivity].
  intros Hset Hnull. split.
  - now rewrite Hset, Hnull.
  - intros ses. unfold normalize_status.
    rewrite dump_status, Hset, Hnull. reflexivity.
Qed.

(** ** Listing movies *)

Lemma math_ceil_div_floor (a b : Z) : math_ceil_div a b = - ((- a) / b).
Proof.
  unfold math_ceil_div, Qceiling. f_equal. rewrite Zdiv_Qdiv.
  apply Qfloor_comp. rewrite inject_Z_opp. unfold Qdiv. ring.
Qed.

(** [math_ceil_div a b] is the least integer [c] with [a <= c * b]. *)
Lemma math_ceil_div_spec (a b : Z) :
  0 < b ->
  (math_ceil_div a b - 1) * b < a <= math_ceil_div a b * b.
Proof.
  intros Hb. rewrite math_ceil_div_floor.
  pose proof (Z.mul_div_le (- a) b Hb).
  pose proof (Z.mul_succ_div_gt (- a) b Hb).
  nia.
Qed.

Lemma insert_desc_perm (m : MovieModel) (l : list MovieModel) :
  Permutation (insert_desc m l) (m :: l).
Proof.
  induction l as [|x l IH]; cbn; [reflexivity|].
  destruct (movie_id x <=? movie_id m); [reflexivity|].
  rewrite IH. apply perm_swap.
Qed.

Lemma order_by_id_desc_perm (l : list MovieModel) :
  Permutation (order_by_id_desc l) l.
Proof.
  induction l as [|m l IH]; cbn; [reflexivity|].
  rewrite insert_desc_perm. now apply perm_skip.
Qed.

Lemma order_by_id_desc_length (l : list MovieModel) :
  length (order_by_id_desc l) = length l.
Proof. apply Permutation_length, order_by_id_desc_perm. Qed.

Lemma insert_desc_sorted (m : MovieModel) (l : list MovieModel) :
  id_descending l -> id_descending (insert_desc m l).
Proof.
  unfold id_descending. induction l as [|x l IH]; intros Hs; cbn.
  - constructor; constructor.
  - apply StronglySorted_inv in Hs. destruct Hs as [Hs Hx].
    destruct (Z.leb_spec (movie_id x) (movie_id m)) as [Hle|Hgt].
    + constructor; [constructor; assumption|].
      constructor; [exact Hle|].
      rewrite Forall_forall in *. intros y Hy. specialize (Hx y Hy). lia.
    + constructor; [now apply IH|].
      rewrite Forall_forall in *. intros y Hy.
      apply (Permutation_in _ (insert_desc_perm m l)) in Hy.
      destruct Hy as [<-|Hy]; [lia | now apply Hx].
Qed.

Lemma order_by_id_desc_sorted (l : list MovieModel) :
  id_descending (order_by_id_desc l).
Proof.
  induction l as [|m l IH]; cbn; [constructor|].
  now apply insert_desc_sorted.
Qed.

(** Identifiers grow with insertion, so the row written last comes first. *)
Lemma order_by_id_desc_newest_first (ms : list MovieModel) (m : MovieModel) :
  movie_id m = next_id (map movie_id ms) ->
  order_by_id_desc (ms ++ [m]) = m :: order_by_id_desc ms.
Proof.
  intros Hid.
  assert (Hlt : forall x, In x ms -> movie_id x < movie_id m).
  { intros x Hx. rewrite Hid. apply next_id_above. now apply in_map. }
  clear Hid. induction ms as [|a ms IH]; [reflexivity|].
  cbn [app order_by_id_desc fold_right].
  fold (order_by_id_desc (ms ++ [m])). fold (order_by_id_desc ms).
  rewrite IH by (intros x Hx; apply Hlt; now right).
  cbn [insert_desc].
  destruct (Z.leb_spec (movie_id m) (movie_id a)) as [Hle|_]; [|reflexivity].
  specialize (Hlt a (or_introl eq_refl)). lia.
Qed.

Lemma offset_limit_length {A : Type} (o n : Z) (l : list A) :
  0 <= n -> Z.of_nat (length (offset_limit o n l)) <= n.
Proof.
  intros Hn. unfold offset_limit.
  pose proof (firstn_le_length (Z.to_nat n) (skipn (Z.to_nat o) l)). lia.
Qed.

(** The slice is empty exactly when the offset is past the last row. *)
Lemma offset_limit_nil {A : Type} (o n : Z) (l : list A) :
  0 <= o -> 1 <= n ->
  (offset_limit o n l = [] <-> Z.of_nat (length l) <= o).
Proof.
  intros Ho Hn. unfold offset_limit. split.
  - intros H. apply (f_equal (@length A)) in H.
    rewrite length_firstn, length_skipn in H. cbn in H. lia.
  - intros H. rewrite skipn_all2 by lia. apply firstn_nil.
Qed.

Lemma validate_all_length {A B : Type} (f : A -> option B) (l : list A)
  (l' : list B) :
  validate_all f l = Some l' -> Forall2 (fun a b => f a = Some b) l l'.
Proof.
  revert l'. induction l as [|a l IH]; intros l' H; cbn in H.
  - injection H as <-. constructor.
  - destruct (f a) as [b|] eqn:E; [|discriminate].
    destruct (validate_all f l) as [bs|]; [|discriminate].
    injection H as <-. constructor; [exact E | now apply IH].
Qed.

(** What a 200 answer of the list route says about the request. *)
Lemma get_movies_list_ok (request : Request) (page per_page : Z) (s : Store)
  (resp : Response) (s' : Store) :
  valid_query page per_page = true ->
  route_get_movies_list request page per_page s = (resp, s') ->
  status_code resp = HTTP_200_OK ->
  let rows := offset_limit ((page - 1) * per_page) per_page
                (order_by_id_desc (movies s)) in
  let base_url := "/api/v1/theater/movies/" in
  exists items,
    resp = mkResponse HTTP_200_OK
             (ListBody
                (mkList items
                   (if 1 <? page
                    then Some (page_url base_url (page - 1) per_page)
                    else None)
                   (if page <? math_ceil_div (Z.of_nat (length (movies s)))
                                 per_page
                    then Some (page_url base_url (page + 1) per_page)
                    else None)
                   (math_ceil_div (Z.of_nat (length (movies s))) per_page)
                   (Z.of_nat (length (movies s)))))
    /\ s' = s
    /\ rows <> []
    /\ validate_all MovieShortResponse_validate rows = Some items.
Proof.
  intros Hv Hrun Hst rows base_url.
  unfold route_get_movies_list in Hrun. rewrite Hv in Hrun.
  unfold serve, get_movies_list in Hrun.
  unfold bind at 1 in Hrun. unfold count_movies in Hrun.
  cbn [view begin_session] in Hrun.
  destruct (Z.of_nat (length (movies s)) =? 0).
  { cbn in Hrun. injection Hrun as <- <-. discriminate. }
  unfold bind in Hrun. cbn [view begin_session] in Hrun.
  fold rows in Hrun. destruct rows as [|row rows'] eqn:Erows.
  { cbn in Hrun. injection Hrun as <- <-. discriminate. }
  unfold MoviesListResponse_new in Hrun.
  destruct (validate_all MovieShortResponse_validate (row :: rows'))
    as [items|] eqn:Ev.
  - cbn [ret committed view begin_session] in Hrun.
    injection Hrun as <- <-.
    apply render_json_status in Hst; [|discriminate].
    destruct Hst as [_ ->].
    exists items. repeat split; congruence.
  - cbn in Hrun. injection Hrun as <- <-. discriminate.
Qed.

Lemma valid_query_true (page per_page : Z) :
  1 <= page -> 1 <= per_page <= 20 -> valid_query page per_page = true.
Proof.
  intros Hp [Hl Hh]. unfold valid_query.
  apply andb_true_intro; split; [apply andb_true_intro; split|];
    now apply Z.leb_le.
Qed.

Lemma offset_limit_incl {A : Type} (o n : Z) (l : list A) (x : A) :
  In x (offset_limit o n l) -> In x l.
Proof.
  unfold offset_limit. intros H.
  rewrite <- (firstn_skipn (Z.to_nat o) l). apply in_or_app. right.
  rewrite <- (firstn_skipn (Z.to_nat n) (skipn (Z.to_nat o) l)).
  apply in_or_app. now left.
Qed.

Lemma MovieShortResponse_validate_some (m : MovieModel)
  (item : MovieShortResponse) :
  MovieShortResponse_validate m = Some item ->
  short_id item = movie_id m
  /\ movie_name m = VStr (short_name item)
  /\ movie_date m = VDate (short_date item)
  /\ movie_score m = VFloat (short_score item)
  /\ movie_overview m = VStr (short_overview item).
Proof.
  unfold MovieShortResponse_validate, as_str, as_date, as_float.
  destruct (movie_name m); try discriminate.
  destruct (movie_date m); try discriminate.
  destruct (movie_score m); try discriminate.
  destruct (movie_overview m); try discriminate.
  intros H. injection H as <-. cbn. repeat split.
Qed.

(** C3.  For a list request with [page >= 1] and [1 <= per_page <= 20] that
    is answered 200: the number of items is at most [per_page]; [prev_page]
    is null exactly when [page = 1]; [next_page] is null exactly when
    [page = total_pages]; and [total_pages] is the ceiling of
    [total_items / per_page], where [total_items] counts the stored movies. *)
Theorem list_pagination_links (request : Request) (page per_page : Z)
  (s : Store) (resp : Response) (s' : Store) :
  1 <= page -> 1 <= per_page <= 20 ->
  route_get_movies_list request page per_page s = (resp, s') ->
  status_code resp = HTTP_200_OK ->
  exists r,
    body resp = ListBody r
    /\ Z.of_nat (length (list_movies r)) <= per_page
    /\ (prev_page r = None <-> page = 1)
    /\ (next_page r = None <-> page = total_pages r)
    /\ total_pages r = math_ceil_div (total_items r) per_page
    /\ (total_pages r - 1) * per_page < total_items r
       <= total_pages r * per_page
    /\ total_items r = Z.of_nat (length (movies s)).
Proof.
  intros Hp Hpp Hrun Hst.
  destruct (get_movies_list_ok request page per_page s resp s'
              (valid_query_true page per_page Hp Hpp) Hrun Hst)
    as [items [-> [_ [Hrows Hitems]]]].
  eexists. split; [reflexivity|].
  cbn [list_movies prev_page next_page total_pages total_items].
  set (total := Z.of_nat (length (movies s))) in *.
  pose proof (math_ceil_div_spec total per_page ltac:(lia)) as Hceil.
  set (pages := math_ceil_div total per_page) in *.
  assert (Hoff : (page - 1) * per_page < total).
  { destruct (Z.lt_ge_cases ((page - 1) * per_page) total) as [H|H];
      [exact H|].
    exfalso. apply Hrows. apply offset_limit_nil; [nia | lia |].
    rewrite order_by_id_desc_length. exact H. }
  assert (Hle : page <= pages) by nia.
  split.
  { apply validate_all_length, Forall2_length in Hitems. rewrite <- Hitems.
    apply offset_limit_length. lia. }
  split.
  { destruct (Z.ltb_spec 1 page); split; intros H0;
      try discriminate; try reflexivity; lia. }
  split.
  { destruct (Z.ltb_spec page pages); split; intros H0;
      try discriminate; try reflexivity; lia. }
  split; [reflexivity|]. split; [exact Hceil | reflexivity].
Qed.

Lemma validate_all_ids (rows : list MovieModel)
  (items : list MovieShortResponse) :
  validate_all MovieShortResponse_validate rows = Some items ->
  map short_id items = map movie_id rows.
Proof.
  intros H. apply validate_all_length in H.
  induction H as [|row item rows items Hv _ IH]; [reflexivity|].
  cbn. apply MovieShortResponse_validate_some in Hv.
  destruct Hv as [-> _]. now rewrite IH.
Qed.

(** A row whose four listed columns are in order validates as a list item
    with a finite score, and so does a whole slice of such rows. *)
Lemma list_ready_validate (m : MovieModel) :
  list_ready m ->
  exists item,
    MovieShortResponse_validate m = Some item
    /\ is_finite (short_score item) = true.
Proof.
  intros (n & d & q & o & Hn & Hd & Hq & Ho).
  unfold MovieShortResponse_validate. rewrite Hn, Hd, Hq, Ho. cbn.
  eexists. split; reflexivity.
Qed.

Lemma validate_all_ready (rows : list MovieModel) :
  Forall list_ready rows ->
  exists items,
    validate_all MovieShortResponse_validate rows = Some items
    /\ forallb is_finite (map short_score items) = true.
Proof.
  induction 1 as [|m rows Hm _ IH].
  - exists []. now split.
  - destruct (list_ready_validate m Hm) as (item & Hitem & Hfin).
    destruct IH as (items & Hitems & Hall).
    exists (item :: items). cbn. rewrite Hitem, Hitems.
    split; [reflexivity|]. now rewrite Hfin, Hall.
Qed.

(** The list route, case by case. *)
Lemma route_get_movies_list_cases (request : Request) (page per_page : Z)
  (s : Store) :
  valid_query page per_page = true ->
  let total := Z.of_nat (length (movies s)) in
  let rows := offset_limit ((page - 1) * per_page) per_page
                (order_by_id_desc (movies s)) in
  let base_url := "/api/v1/theater/movies/" in
  route_get_movies_list request page per_page s
  = if total =? 0 then (mkResponse HTTP_404_NOT_FOUND ErrorBody, s)
    else
      match rows with
      | [] => (mkResponse HTTP_404_NOT_FOUND ErrorBody, s)
      | _ :: _ =>
          match validate_all MovieShortResponse_validate rows with
          | Some items =>
              (render_json HTTP_200_OK
                 (ListBody
                    (mkList items
                       (if 1 <? page
                        then Some (page_url base_url (page - 1) per_page)
                        else None)
                       (if page <? math_ceil_div total per_page
                        then Some (page_url base_url (page + 1) per_page)
                        else None)
                       (math_ceil_div total per_page) total)), s)
          | None => (server_error, s)
          end
      end.
Proof.
  intros Hv total rows base_url.
  unfold route_get_movies_list. rewrite Hv.
  unfold serve, get_movies_list. unfold bind at 1. unfold count_movies.
  cbn [view begin_session]. fold total.
  destruct (total =? 0); [reflexivity|].
  unfold bind. cbn [view begin_session]. fold rows.
  destruct rows as [|row rows']; [reflexivity|].
  unfold MoviesListResponse_new.
  destruct (validate_all MovieShortResponse_validate (row :: rows'));
    reflexivity.
Qed.

(** C5, amended.  For a list request with [page >= 1] and
    [1 <= per_page <= 20]: the answer is 404 exactly when no movie is stored
    or the slice at offset [(page - 1) * per_page] with limit [per_page] of
    the movies in descending order of identifier has no row, which is when
    the offset is not below the number of movies; otherwise, when every row
    of the slice holds a name, a date, a finite score and an overview, the
    answer is 200 with one item for each row of the slice, so at least one,
    and the store is unchanged. *)
Theorem list_not_found_iff (request : Request) (page per_page : Z)
  (s : Store) :
  1 <= page -> 1 <= per_page <= 20 ->
  let rows := offset_limit ((page - 1) * per_page) per_page
                (order_by_id_desc (movies s)) in
  (status_code (fst (route_get_movies_list request page per_page s))
   = HTTP_404_NOT_FOUND
   <-> movies s = [] \/ rows = [])
  /\ (rows = [] <-> Z.of_nat (length (movies s)) <= (page - 1) * per_page)
  /\ (populated rows -> ~ (movies s = [] \/ rows = []) ->
      exists r,
        route_get_movies_list request page per_page s
        = (mkResponse HTTP_200_OK (ListBody r), s)
        /\ list_movies r <> []
        /\ map short_id (list_movies r) = map movie_id rows).
Proof.
  intros Hp Hpp rows.
  assert (Hnil : rows = [] <->
                 Z.of_nat (length (movies s)) <= (page - 1) * per_page).
  { subst rows. rewrite offset_limit_nil by nia.
    now rewrite order_by_id_desc_length. }
  rewrite (route_get_movies_list_cases request page per_page s
             (valid_query_true page per_page Hp Hpp)).
  fold rows.
  destruct (Z.eqb_spec (Z.of_nat (length (movies s))) 0) as [E0|E0].
  { assert (Hm : movies s = [])
      by (destruct (movies s); [easy | cbn in E0; lia]).
    cbn. split; [|split; [exact Hnil|]].
    - split; [now left | reflexivity].
    - intros _ H. exfalso. apply H. now left. }
  assert (Hm : movies s <> [])
    by (intros Hm; rewrite Hm in E0; now apply E0).
  destruct rows as [|row rows'] eqn:Erows.
  { cbn. split; [|split; [exact Hnil|]].
    - split; [now right | reflexivity].
    - intros _ H. exfalso. apply H. now right. }
  split; [|split; [exact Hnil|]].
  - destruct (validate_all MovieShortResponse_validate (row :: rows'));
      [unfold render_json;
       match goal with
       | |- context [forallb ?f ?l] => destruct (forallb f l)
       end|];
      cbn; (split; [discriminate |
                    intros [H|H]; [contradiction | discriminate]]).
  - intros Hpop _.
    destruct (validate_all_ready (row :: rows') Hpop)
      as (items & Hitems & Hfin).
    rewrite Hitems, render_json_finite by exact Hfin.
    eexists. split; [reflexivity|]. cbn [list_movies].
    pose proof (validate_all_ids _ _ Hitems) as Hids.
    split; [|exact Hids].
    destruct items; [discriminate Hids | discriminate].
Qed.

(** C6.  For a list request with [page >= 1] and [1 <= per_page <= 20] that
    is answered 200: there is an arrangement of all stored movies in
    descending order of identifier such that the items returned are, one for
    one and in order, the rows of that arrangement from offset
    [(page - 1) * per_page] on, at most [per_page] of them; each item shows
    the identifier, name, date, score and overview of its row. *)
Theorem list_slice_by_id_desc (request : Request) (page per_page : Z)
  (s : Store) (resp : Response) (s' : Store) :
  1 <= page -> 1 <= per_page <= 20 ->
  route_get_movies_list request page per_page s = (resp, s') ->
  status_code resp = HTTP_200_OK ->
  exists r ordered,
    body resp = ListBody r
    /\ Permutation ordered (movies s)
    /\ id_descending ordered
    /\ ordered = order_by_id_desc (movies s)
    /\ Forall2
         (fun row item =>
            short_id item = movie_id row
            /\ movie_name row = VStr (short_name item)
            /\ movie_date row = VDate (short_date item)
            /\ movie_score row = VFloat (short_score item)
            /\ movie_overview row = VStr (short_overview item))
         (firstn (Z.to_nat per_page)
            (skipn (Z.to_nat ((page - 1) * per_page)) ordered))
         (list_movies r)
    /\ Z.of_nat (length (list_movies r)) <= per_page.
Proof.
  intros Hp Hpp Hrun Hst.
  destruct (get_movies_list_ok request page per_page s resp s'
              (valid_query_true page per_page Hp Hpp) Hrun Hst)
    as [items [-> [_ [Hrows Hitems]]]].
  eexists. exists (order_by_id_desc (movies s)).
  split; [reflexivity|]. cbn [list_movies].
  split; [apply order_by_id_desc_perm|].
  split; [apply order_by_id_desc_sorted|].
  split; [reflexivity|].
  apply validate_all_length in Hitems. split.
  - unfold offset_limit in Hitems.
    eapply Forall2_impl; [|exact Hitems].
    intros row item. apply MovieShortResponse_validate_some.
  - apply Forall2_length in Hitems. rewrite <- Hitems.
    apply offset_limit_length. lia.
Qed.


(** The decimal rendering of an integer reads back as that integer. *)
Lemma int_of_str_int (n : Z) :
  option_map Z.of_int (NilZero.int_of_string (str_int n)) = Some n.
Proof.
  unfold str_int. rewrite NilZero.isi.
  - cbn. now rewrite DecimalZ.of_to.
  - destruct n; cbn; try discriminate.
    intros H. injection H as H. now apply Unsigned.to_uint_nonnil in H.
  - destruct n; cbn; try discriminate.
    intros H. injection H as H. now apply Unsigned.to_uint_nonnil in H.
Qed.


(** ** Validating a create request *)

Lemma MovieStatusEnum_validate_some (s : string) (e : MovieStatusEnum) :
  MovieStatusEnum_validate s = Some e <-> s = value e.
Proof.
  unfold MovieStatusEnum_validate. split.
  - destruct (String.eqb_spec s (value RELEASED)) as [->|_];
      [intros H; now injection H as <-|].
    destruct (String.eqb_spec s (value POST_PRODUCTION)) as [->|_];
      [intros H; now injection H as <-|].
    destruct (String.eqb_spec s (value IN_PRODUCTION)) as [->|_];
      [intros H; now injection H as <-|].
    discriminate.
  - intros ->. now destruct e.
Qed.

Lemma constr_max_length_true (n : nat) (s : string) :
  constr_max_length (Z.of_nat n) s = true <-> (String.length s <= n)%nat.
Proof. unfold constr_max_length. rewrite Z.leb_le. lia. Qed.

Lemma validate_date_some (today v : Z) :
  validate_date today v = Some v <-> v <= today + 365.
Proof.
  unfold validate_date. destruct (Z.ltb_spec (today + 365) v).
  - split; [discriminate | lia].
  - split; [lia | reflexivity].
Qed.

Lemma confloat_ge_some (lo : Q) (x y : PyFloat) :
  confloat_ge lo x = Some y <-> float_le (Finite lo) x /\ y = x.
Proof.
  unfold confloat_ge, float_le. destruct x as [q| |].
  - pose proof (Qle_bool_iff lo q) as H. destruct (Qle_bool lo q).
    + split; [intros E; injection E as <-; split; [now apply H | easy]
             | now intros [_ ->]].
    + split; [discriminate | intros [Hle _]; apply H in Hle; discriminate].
  - split; [intros E; now injection E as <- | now intros [_ ->]].
  - split; [discriminate | now intros [[] _]].
Qed.

Lemma confloat_ge_le_some (lo hi : Q) (x : PyFloat) (q : Q) :
  confloat_ge_le lo hi x = Some q
  <-> float_le (Finite lo) x /\ float_le x (Finite hi) /\ x = Finite q.
Proof.
  unfold confloat_ge_le, float_le. destruct x as [p| |].
  - pose proof (Qle_bool_iff lo p) as H1. pose proof (Qle_bool_iff p hi) as H2.
    destruct (Qle_bool lo p), (Qle_bool p hi); cbn [andb].
    + split; [intros E; injection E as <-; repeat split;
                [now apply H1 | now apply H2]
             | now intros (_ & _ & E); injection E as <-].
    + split; [discriminate | intros (_ & Hle & _); apply H2 in Hle;
                             discriminate].
    + split; [discriminate | intros (Hle & _); apply H1 in Hle;
                             discriminate].
    + split; [discriminate | intros (Hle & _); apply H1 in Hle;
                             discriminate].
  - split; [discriminate | now intros (_ & [] & _)].
  - split; [discriminate | now intros ([] & _)].
Qed.

(** A body passes validation exactly when it is within the bounds and its
    status is one of the enumerated values; the validated request carries
    the fields of the body. *)
Lemma MovieCreateRequest_validate_some (today : Z) (raw : RawCreateRequest)
  (movie_data : MovieCreateRequest) :
  MovieCreateRequest_validate today raw = Some movie_data
  <-> within_bounds today raw
      /\ exists e q,
           raw_status raw = value e
           /\ raw_score raw = Finite q
           /\ movie_data
              = mkCreate (raw_name raw) (raw_date raw) q
                  (raw_overview raw) e (raw_budget raw) (raw_revenue raw)
                  (raw_country raw) (raw_genres raw) (raw_actors raw)
                  (raw_languages raw).
Proof.
  unfold MovieCreateRequest_validate, within_bounds.
  change 255 with (Z.of_nat 255).
  pose proof (constr_max_length_true 255 (raw_name raw)) as Hname.
  pose proof (validate_date_some today (raw_date raw)) as Hdate.
  split.
  - destruct (constr_max_length (Z.of_nat 255) (raw_name raw));
      [|discriminate]. cbn [negb].
    destruct (validate_date today (raw_date raw)) as [d|] eqn:Ed;
      [|discriminate].
    assert (d = raw_date raw) as ->.
    { unfold validate_date in Ed.
      destruct (today + 365 <? raw_date raw); [discriminate | congruence]. }
    destruct (confloat_ge_le 0 100 (raw_score raw)) as [q|] eqn:Es;
      [|discriminate].
    destruct (MovieStatusEnum_validate (raw_status raw)) as [e|] eqn:Ee;
      [|discriminate].
    destruct (confloat_ge 0 (raw_budget raw)) as [b|] eqn:Eb;
      [|discriminate].
    destruct (confloat_ge 0 (raw_revenue raw)) as [r|] eqn:Er;
      [|discriminate].
    intros H. injection H as <-.
    apply MovieStatusEnum_validate_some in Ee.
    apply confloat_ge_le_some in Es. destruct Es as (Hs0 & Hs1 & Hq).
    apply confloat_ge_some in Eb. destruct Eb as [Hb ->].
    apply confloat_ge_some in Er. destruct Er as [Hr ->].
    split.
    + split; [now apply Hname|]. do 4 (split; [assumption|]).
      now apply Hdate.
    + now exists e, q.
  - intros [[H1 [H2 [H3 [H4 [H5 H6]]]]] [e [q [He [Hq ->]]]]].
    apply Hname in H1. apply Hdate in H6.
    apply MovieStatusEnum_validate_some in He.
    rewrite H1, H6, He. cbn [negb].
    rewrite (proj2 (confloat_ge_le_some 0 100 (raw_score raw) q))
      by now repeat split.
    rewrite (proj2 (confloat_ge_some 0 (raw_budget raw) (raw_budget raw)))
      by now split.
    rewrite (proj2 (confloat_ge_some 0 (raw_revenue raw) (raw_revenue raw)))
      by now split.
    reflexivity.
Qed.

Lemma within_bounds_score (today : Z) (raw : RawCreateRequest) :
  within_bounds today raw -> exists q, raw_score raw = Finite q.
Proof.
  intros (_ & H0 & H1 & _). unfold float_le in H0, H1.
  destruct (raw_score raw) as [q| |]; try contradiction. now exists q.
Qed.

(** C7.  A create body (every field present with a value of its JSON type)
    is rejected exactly when one of these fails: name of at most 255
    characters, score within 0 and 100, budget and revenue not negative,
    release date at most 365 days after today, status one of the three
    enumerated values.  A rejected body is answered 422 with the store
    untouched; a body that satisfies all of them reaches the handler as the
    request with the same fields. *)
Theorem create_request_validation (today : Z) (raw : RawCreateRequest)
  (s : Store) :
  (MovieCreateRequest_validate today raw = None
   <-> ~ (within_bounds today raw /\ status_known raw))
  /\ (MovieCreateRequest_validate today raw = None ->
      route_create_movie today raw s = (unprocessable, s))
  /\ (within_bounds today raw /\ status_known raw ->
      exists movie_data,
        MovieCreateRequest_validate today raw = Some movie_data
        /\ req_name movie_data = raw_name raw
        /\ req_date movie_data = raw_date raw
        /\ Finite (req_score movie_data) = raw_score raw
        /\ req_overview movie_data = raw_overview raw
        /\ value (req_status movie_data) = raw_status raw
        /\ req_budget movie_data = raw_budget raw
        /\ req_revenue movie_data = raw_revenue raw
        /\ req_country movie_data = raw_country raw
        /\ req_genres movie_data = raw_genres raw
        /\ req_actors movie_data = raw_actors raw
        /\ req_languages movie_data = raw_languages raw
        /\ route_create_movie today raw s = serve_create_movie movie_data s).
Proof.
  assert (Hpass : within_bounds today raw /\ status_known raw ->
                  exists e q, raw_status raw = value e
                    /\ raw_score raw = Finite q
                    /\ MovieCreateRequest_validate today raw
                       = Some (mkCreate (raw_name raw) (raw_date raw)
                                 q (raw_overview raw) e
                                 (raw_budget raw) (raw_revenue raw)
                                 (raw_country raw) (raw_genres raw)
                                 (raw_actors raw) (raw_languages raw))).
  { intros [Hb [e He]].
    destruct (within_bounds_score today raw Hb) as [q Hq].
    exists e, q. split; [exact He|]. split; [exact Hq|].
    apply MovieCreateRequest_validate_some. split; [exact Hb|].
    now exists e, q. }
  split; [|split].
  - split.
    + intros Hnone Hok. destruct (Hpass Hok) as (e & q & _ & _ & H).
      congruence.
    + intros Hno.
      destruct (MovieCreateRequest_validate today raw) as [md|] eqn:E;
        [|reflexivity].
      exfalso. apply Hno. apply MovieCreateRequest_validate_some in E.
      destruct E as [Hb (e & q & He & _)]. split; [exact Hb | now exists e].
  - intros Hnone. unfold route_create_movie. now rewrite Hnone.
  - intros Hok. destruct (Hpass Hok) as (e & q & He & Hq & Hv).
    eexists. split; [exact Hv|]. cbn.
    repeat split; try (symmetry; exact He); try (symmetry; exact Hq).
    unfold route_create_movie. now rewrite Hv.
Qed.

(* ================================================================= *)
(** ** The results on the sample data *)

Ltac singleton_nodup :=
  cbn; repeat (constructor; [cbn; intuition discriminate|]); constructor.

Lemma list_pagination_links_witness :
  (1 <= 1 /\ 1 <= 1 <= 20
   /\ route_get_movies_list request_at_literal 1 1 two_movies
      = (fst (route_get_movies_list request_at_literal 1 1 two_movies),
         two_movies)
   /\ status_code
        (fst (route_get_movies_list request_at_literal 1 1 two_movies))
      = HTTP_200_OK)
  /\ exists r,
       body (fst (route_get_movies_list request_at_literal 1 1 two_movies))
       = ListBody r
       /\ Z.of_nat (length (list_movies r)) <= 1
       /\ (prev_page r = None <-> 1 = 1)
       /\ (next_page r = None <-> 1 = total_pages r)
       /\ total_pages r = math_ceil_div (total_items r) 1
       /\ (total_pages r - 1) * 1 < total_items r <= total_pages r * 1
       /\ total_items r = Z.of_nat (length (movies two_movies)).
Proof.
  split.
  - split; [lia|]. split; [lia|]. split; reflexivity.
  - apply (list_pagination_links request_at_literal 1 1 two_movies
             (fst (route_get_movies_list request_at_literal 1 1 two_movies))
             two_movies);
      [lia | lia | reflexivity | reflexivity].
Defined.

Lemma update_movie_partial_witness :
  (unique_ids (movies one_movie) /\ In dune_row (movies one_movie)
   /\ movie_id dune_row = 1)
  /\ exists s' l',
       route_update_movie 1 only_score one_movie
       = (mkResponse HTTP_200_OK
            (UpdateBody (mkUpdateResponse "Movie updated successfully.")), s')
       /\ get_movie_by_id 1 (begin_session s')
          = (Return (Some l'), begin_session s')
       /\ movie_score (loaded_row l') = VFloat (Finite 90)
       /\ movie_name (loaded_row l') = movie_name dune_row
       /\ movie_date (loaded_row l') = movie_date dune_row
       /\ movie_overview (loaded_row l') = movie_overview dune_row
       /\ movie_status (loaded_row l') = movie_status dune_row
       /\ movie_budget (loaded_row l') = movie_budget dune_row
       /\ movie_revenue (loaded_row l') = movie_revenue dune_row.
Proof.
  assert (Hu : unique_ids (movies one_movie))
    by (unfold unique_ids; singleton_nodup).
  assert (Hin : In dune_row (movies one_movie)) by (left; reflexivity).
  split; [split; [exact Hu | split; [exact Hin | reflexivity]]|].
  destruct (update_movie_partial 1 only_score one_movie dune_row
              Hu Hin eq_refl)
    as (s' & l' & Hrun & Hget & _ & _ & Hscore & _ & _ & _ & _ & _ & _ & _
        & _ & _ & _ & Hrest).
  exists s', l'. split; [exact Hrun|]. split; [exact Hget|].
  split; [exact Hscore|]. exact (Hrest eq_refl).
Defined.

Lemma list_not_found_iff_witness :
  (1 <= 1 /\ 1 <= 1 <= 20)
  /\ (exists r,
        route_get_movies_list request_at_literal 1 1 two_movies
        = (mkResponse HTTP_200_OK (ListBody r), two_movies)
        /\ list_movies r <> []
        /\ map short_id (list_movies r) = [2])
  /\ (status_code (fst (route_get_movies_list request_at_literal 1 1
                          two_movies))
      = HTTP_404_NOT_FOUND
      <-> movies two_movies = []
          \/ offset_limit ((1 - 1) * 1) 1
               (order_by_id_desc (movies two_movies)) = []).
Proof.
  split; [lia|].
  destruct (list_not_found_iff request_at_literal 1 1 two_movies)
    as (H404 & _ & H200); [lia | lia |].
  split; [|exact H404].
  apply H200.
  - repeat constructor. cbn. repeat eexists.
  - intros [H|H]; discriminate H.
Defined.

Lemma list_slice_by_id_desc_witness :
  (1 <= 2 /\ 1 <= 1 <= 20
   /\ route_get_movies_list request_at_literal 2 1 two_movies
      = (fst (route_get_movies_list request_at_literal 2 1 two_movies),
         two_movies)
   /\ status_code
        (fst (route_get_movies_list request_at_literal 2 1 two_movies))
      = HTTP_200_OK)
  /\ exists r ordered,
       body (fst (route_get_movies_list request_at_literal 2 1 two_movies))
       = ListBody r
       /\ Permutation ordered (movies two_movies)
       /\ id_descending ordered
       /\ ordered = order_by_id_desc (movies two_movies)
       /\ Forall2
            (fun row item =>
               short_id item = movie_id row
               /\ movie_name row = VStr (short_name item)
               /\ movie_date row = VDate (short_date item)
               /\ movie_score row = VFloat (short_score item)
               /\ movie_overview row = VStr (short_overview item))
            (firstn (Z.to_nat 1)
               (skipn (Z.to_nat ((2 - 1) * 1)) ordered))
            (list_movies r)
       /\ Z.of_nat (length (list_movies r)) <= 1.
Proof.
  split.
  - split; [lia|]. split; [lia|]. split; reflexivity.
  - apply (list_slice_by_id_desc request_at_literal 2 1 two_movies
             (fst (route_get_movies_list request_at_literal 2 1 two_movies))
             two_movies);
      [lia | lia | reflexivity | reflexivity].
Defined.

Lemma delete_movie_then_not_found_witness :
  unique_ids (movies two_movies)
  /\ ((forall m, In m (movies two_movies) -> movie_id m <> 2) ->
      route_delete_movie 2 two_movies
      = (mkResponse HTTP_404_NOT_FOUND ErrorBody, two_movies))
  /\ (forall m, In m (movies two_movies) -> movie_id m = 2 ->
      exists s',
        route_delete_movie 2 two_movies
        = (mkResponse HTTP_204_NO_CONTENT NoBody, s')
        /\ movies s'
           = filter (fun x => negb (movie_id x =? 2)) (movies two_movies)
        /\ countries s' = countries two_movies
        /\ (forall model, table model s' = table model two_movies)
        /\ route_get_movie_details 2 s'
           = (mkResponse HTTP_404_NOT_FOUND ErrorBody, s')).
Proof.
  assert (Hu : unique_ids (movies two_movies))
    by (unfold unique_ids; singleton_nodup).
  split; [exact Hu | apply (delete_movie_then_not_found 2 two_movies Hu)].
Defined.


Lemma update_movie_explicit_null_witness :
  (unique_ids (movies one_movie) /\ In dune_row (movies one_movie)
   /\ movie_id dune_row = 1)
  /\ exists s' l',
       route_update_movie 1 null_status one_movie
       = (mkResponse HTTP_200_OK
            (UpdateBody (mkUpdateResponse "Movie updated successfully.")), s')
       /\ get_movie_by_id 1 (begin_session s')
          = (Return (Some l'), begin_session s')
       /\ movie_status (loaded_row l') = VNone.
Proof.
  assert (Hu : unique_ids (movies one_movie))
    by (unfold unique_ids; singleton_nodup).
  assert (Hin : In dune_row (movies one_movie)) by (left; reflexivity).
  split; [split; [exact Hu | split; [exact Hin | reflexivity]]|].
  destruct (update_movie_explicit_null 1 null_status one_movie dune_row
              Hu Hin eq_refl)
    as (s' & l' & Hrun & Hget & _ & _ & _ & _ & Hstatus & _).
  exists s', l'. split; [exact Hrun|]. split; [exact Hget|].
  exact (proj1 (Hstatus eq_refl eq_refl)).
Defined.

(** C7, as first stated, fails: a body within all the listed bounds whose
    status is not an enumerated value is rejected (and answered 422). *)
Lemma create_request_unknown_status_rejected :
  within_bounds sample_today unknown_status_raw
  /\ MovieCreateRequest_validate sample_today unknown_status_raw = None
  /\ route_create_movie sample_today unknown_status_raw empty_store
     = (unprocessable, empty_store).
Proof.
  split; [|split; reflexivity].
  unfold within_bounds. cbn. unfold Qle. cbn. lia.
Qed.

(** C5, as first stated, fails: a PATCH that carries [name: null] for the
    only movie is answered 200, and the first page of the list is then
    answered 500, although a movie is stored and the slice of the page has a
    row: the answer is neither 404 nor 200. *)
Lemma list_null_name_server_error :
  route_update_movie 1 null_name one_movie
  = (mkResponse HTTP_200_OK
       (UpdateBody (mkUpdateResponse "Movie updated successfully.")),
     nameless_movie)
  /\ movies nameless_movie <> []
  /\ offset_limit ((1 - 1) * 1) 1 (order_by_id_desc (movies nameless_movie))
     <> []
  /\ route_get_movies_list request_at_literal 1 1 nameless_movie
     = (mkResponse HTTP_500_INTERNAL_SERVER_ERROR ErrorBody, nameless_movie).
Proof.
  split; [reflexivity|]. split; [discriminate|]. split; [discriminate|].
  reflexivity.
Qed.

(* ================================================================= *)
(** * Further properties of the handlers *)

(** ** The resolver on any table *)

Lemma get_or_create_cases (model : RelatedModel) (name : string)
  (ses : AsyncSession) :
  (exists r,
     get_or_create_related_instance model name ses = (Return r, ses)
     /\ In r (table model (view ses)) /\ named_name r = name)
  \/ ((forall r0, In r0 (table model (view ses)) -> named_name r0 <> name)
      /\ get_or_create_related_instance model name ses
         = (Return (mkNamed (next_id (map named_id (table model (view ses))))
                      name),
            mkSession (committed ses)
              (set_table model
                 (table model (view ses)
                  ++ [mkNamed (next_id (map named_id (table model (view ses))))
                        name])
                 (view ses))))
  \/ get_or_create_related_instance model name ses
     = (Raise MultipleResultsFound, ses).
Proof.
  unfold get_or_create_related_instance, bind, execute.
  destruct (filter (fun r => String.eqb (named_name r) name)
              (table model (view ses))) as [|r [|r' l]] eqn:Hf.
  - right. left. split; [|reflexivity].
    now apply (filter_key_nil_absent named_name String.eqb String.eqb_eq).
  - left. exists r. split; [reflexivity|].
    assert (H : In r (filter (fun r => String.eqb (named_name r) name)
                        (table model (view ses)))) by (rewrite Hf; now left).
    apply filter_In in H. destruct H as [Hin Hn].
    split; [exact Hin | now apply String.eqb_eq].
  - right. right. reflexivity.
Qed.

Lemma NoDup_snoc {A : Type} (l : list A) (a : A) :
  NoDup l -> ~ In a l -> NoDup (l ++ [a]).
Proof.
  intros Hl Ha. apply Permutation_NoDup with (l := a :: l).
  - apply Permutation_cons_append.
  - now constructor.
Qed.

(** What a run of the resolver over a list of names does to the session,
    when every call returns. *)
Lemma for_each_get_or_create_inv (model : RelatedModel)
  (names : list string) :
  forall ses rs ses',
    for_each (get_or_create_related_instance model) names ses
    = (Return rs, ses') ->
    exists extra,
      table model (view ses') = table model (view ses) ++ extra
      /\ committed ses' = committed ses
      /\ movies (view ses') = movies (view ses)
      /\ countries (view ses') = countries (view ses)
      /\ (forall model', model' <> model ->
            table model' (view ses') = table model' (view ses))
      /\ map named_name rs = names
      /\ Forall (fun r => In r (table model (view ses'))) rs
      /\ (forall r, In r extra ->
            In (named_name r) names
            /\ forall r0, In r0 (table model (view ses)) ->
                 named_name r0 <> named_name r)
      /\ NoDup (map named_name extra)
      /\ (NoDup (map named_id (table model (view ses))) ->
          NoDup (map named_id (table model (view ses')))).
Proof.
  induction names as [|name names IH]; intros ses rs ses' Hrun.
  - cbn in Hrun. injection Hrun as <- <-. exists [].
    rewrite app_nil_r. repeat split; auto; try constructor;
      try (intros r []); try contradiction.
  - cbn [for_each] in Hrun. unfold bind at 1 in Hrun.
    destruct (get_or_create_cases model name ses)
      as [[r [Hgoc [Hin Hn]]]|[[Hno Hgoc]|Hgoc]];
      rewrite Hgoc in Hrun; [| |discriminate].
    + unfold bind at 1 in Hrun.
      destruct (for_each (get_or_create_related_instance model) names ses)
        as [[rs'|e] ses1] eqn:Hrest; [|discriminate].
      cbn in Hrun. injection Hrun as <- <-.
      destruct (IH ses rs' ses1 Hrest)
        as (extra & Ht & Hc & Hm & Hk & Ho & Hnames & Hall & Hex & Hnd & Hid).
      exists extra. repeat split; auto.
      * cbn. now rewrite Hn, Hnames.
      * constructor; [|exact Hall].
        rewrite Ht. apply in_or_app. now left.
      * right. now apply Hex.
      * now apply Hex.
    + set (r := mkNamed (next_id (map named_id (table model (view ses)))) name)
        in *.
      set (ses0 := mkSession _ _) in Hrun.
      unfold bind at 1 in Hrun.
      destruct (for_each (get_or_create_related_instance model) names ses0)
        as [[rs'|e] ses1] eqn:Hrest; [|discriminate].
      cbn in Hrun. injection Hrun as <- <-.
      destruct (IH ses0 rs' ses1 Hrest)
        as (extra & Ht & Hc & Hm & Hk & Ho & Hnames & Hall & Hex & Hnd & Hid).
      assert (Ht0 : table model (view ses0) = table model (view ses) ++ [r]).
      { subst ses0. cbn [view]. now rewrite table_set_table. }
      exists (r :: extra).
      split; [rewrite Ht, Ht0, <- app_assoc; reflexivity|].
      split; [now rewrite Hc|].
      split; [rewrite Hm; subst ses0; cbn [view]; apply movies_set_table|].
      split; [rewrite Hk; subst ses0; cbn [view]; apply countries_set_table|].
      split.
      { intros model' Hne. rewrite Ho by exact Hne. subst ses0. cbn [view].
        now apply table_set_table_other. }
      split; [cbn; now rewrite Hnames|].
      split.
      { constructor; [|exact Hall].
        rewrite Ht, Ht0. apply in_or_app. left. apply in_or_app.
        right. now left. }
      split.
      { intros x [<-|Hx].
        - split; [now left | exact Hno].
        - destruct (Hex x Hx) as [H1 H2]. split; [now right|].
          intros r0 Hr0. apply H2. rewrite Ht0. apply in_or_app. now left. }
      split.
      { cbn. constructor; [|exact Hnd].
        intros Hin. apply in_map_iff in Hin. destruct Hin as [x [Ex Hx]].
        destruct (Hex x Hx) as [_ H2]. apply (H2 r).
        - rewrite Ht0. apply in_or_app. right. now left.
        - now rewrite Ex. }
      intros Hids. apply Hid. rewrite Ht0, map_app. cbn.
      apply NoDup_snoc; [exact Hids | apply next_id_fresh].
Qed.

(** The resolver never commits, and the only exception it raises is the one
    of [scalar_one_or_none]. *)
Lemma for_each_get_or_create_raise (model : RelatedModel)
  (names : list string) :
  forall ses e ses',
    for_each (get_or_create_related_instance model) names ses
    = (Raise e, ses') ->
    e = MultipleResultsFound /\ committed ses' = committed ses.
Proof.
  induction names as [|name names IH]; intros ses e ses' Hrun.
  - discriminate.
  - cbn [for_each] in Hrun. unfold bind at 1 in Hrun.
    destruct (get_or_create_cases model name ses)
      as [[r [Hgoc _]]|[[_ Hgoc]|Hgoc]]; rewrite Hgoc in Hrun.
    + unfold bind at 1 in Hrun.
      destruct (for_each (get_or_create_related_instance model) names ses)
        as [[rs'|e'] ses1] eqn:Hrest; [discriminate|].
      injection Hrun as <- <-. now apply IH.
    + unfold bind at 1 in Hrun.
      match type of Hrun with
      | context [for_each _ names ?s0] =>
          destruct (for_each (get_or_create_related_instance model) names s0)
            as [[rs'|e'] ses1] eqn:Hrest; [discriminate|];
          injection Hrun as <- <-;
          destruct (IH s0 e' ses1 Hrest) as [He Hc]
      end.
      split; [exact He | exact Hc].
    + injection Hrun as <- <-. now split.
Qed.

(** ** The create handler on any store *)

Lemma country_step_cases {B : Type} (code : string)
  (k : CountryModel -> DB B) (ses : AsyncSession) :
  (country <- scalar_one_or_none
                (filter (fun c => String.eqb (country_code c) code)
                   (countries (view ses))) ;;
   country0 <- match country with
               | Some c => ret c
               | None => add_flush_country code None
               end ;;
   k country0) ses = (Raise MultipleResultsFound, ses)
  \/ exists c ses1,
       (country <- scalar_one_or_none
                     (filter (fun c => String.eqb (country_code c) code)
                        (countries (view ses))) ;;
        country0 <- match country with
                    | Some c => ret c
                    | None => add_flush_country code None
                    end ;;
        k country0) ses = k c ses1
       /\ In c (countries (view ses1))
       /\ country_code c = code
       /\ committed ses1 = committed ses
       /\ movies (view ses1) = movies (view ses)
       /\ (forall model, table model (view ses1) = table model (view ses))
       /\ ((countries (view ses1) = countries (view ses)
            /\ In c (countries (view ses)))
           \/ ((forall c0, In c0 (countries (view ses)) ->
                  country_code c0 <> code)
               /\ c = mkCountry (next_id (map country_id (countries (view ses))))
                        code None
               /\ countries (view ses1) = countries (view ses) ++ [c])).
Proof.
  destruct (filter (fun c => String.eqb (country_code c) code)
              (countries (view ses))) as [|c [|c' l]] eqn:Hf.
  - right. eexists. eexists. split; [reflexivity|]. cbn.
    split; [apply in_or_app; right; now left|].
    split; [reflexivity|]. split; [reflexivity|]. split; [reflexivity|].
    split; [reflexivity|]. right. split; [|split; reflexivity].
    now apply (filter_key_nil_absent country_code String.eqb String.eqb_eq).
  - right. exists c, ses. split; [reflexivity|].
    assert (H : In c (filter (fun c => String.eqb (country_code c) code)
                        (countries (view ses)))) by (rewrite Hf; now left).
    apply filter_In in H. destruct H as [Hin Hc]. apply String.eqb_eq in Hc.
    repeat split; auto.
  - left. reflexivity.
Qed.

(** The last steps of the create handler: the row is written with a fresh
    identifier, committed, and read back with its relations. *)
Lemma create_movie_tail (new_movie : Z -> MovieModel) (ses : AsyncSession) :
  (forall i, movie_id (new_movie i) = i) ->
  let m := new_movie (next_id (map movie_id (movies (view ses)))) in
  let s' := set_movies (movies (view ses) ++ [m]) (view ses) in
  (new_movie <- add_movie new_movie ;;
   commit ;;;
   new_movie <- refresh new_movie ;;
   created_movie <- get_movie_by_id (movie_id new_movie) ;;
   ret created_movie) ses
  = (Return (Some (load_relations s' m)), mkSession s' s').
Proof.
  intros Hnew m s'.
  assert (Hid : movie_id m = next_id (map movie_id (movies (view ses))))
    by apply Hnew.
  unfold bind at 1. unfold add_movie. fold m.
  unfold bind at 1. unfold commit. cbn [view committed]. fold s'.
  unfold bind at 1. unfold refresh. cbn [view]. subst s'.
  cbn [movies set_movies]. rewrite (find_new_movie _ m Hid).
  unfold bind at 1. unfold get_movie_by_id.
  unfold bind at 1. unfold execute. cbn [view movies set_movies].
  rewrite (filter_new_movie _ m Hid). reflexivity.
Qed.

(** Every run of the create handler: either an exception with nothing
    committed, or one new movie row, committed together with the rows the
    resolvers added. *)
Lemma create_movie_outcome (movie_data : MovieCreateRequest)
  (ses : AsyncSession) (o : Outcome (option MovieLoaded))
  (ses' : AsyncSession) :
  create_movie movie_data ses = (o, ses') ->
  (exists e,
     o = Raise e
     /\ committed ses' = committed ses
     /\ ((e = HTTPException HTTP_409_CONFLICT
          /\ exists x,
               filter (name_date_is (req_name movie_data)
                         (req_date movie_data)) (movies (view ses)) = [x])
         \/ (e = MultipleResultsFound
             /\ forall x,
                  filter (name_date_is (req_name movie_data)
                            (req_date movie_data)) (movies (view ses))
                  <> [x])))
  \/ (exists m c gs acs ls,
        o = Return (Some (load_relations (view ses') m))
        /\ committed ses' = view ses'
        /\ movies (view ses') = movies (view ses) ++ [m]
        /\ m = mkMovie (next_id (map movie_id (movies (view ses))))
                 (VStr (req_name movie_data)) (VDate (req_date movie_data))
                 (VFloat (Finite (req_score movie_data)))
                 (VStr (req_overview movie_data))
                 (VStr (value (req_status movie_data)))
                 (VFloat (req_budget movie_data))
                 (VFloat (req_revenue movie_data))
                 (country_id c) (map named_id gs) (map named_id acs)
                 (map named_id ls)
        /\ filter (name_date_is (req_name movie_data) (req_date movie_data))
             (movies (view ses)) = []
        /\ In c (countries (view ses'))
        /\ country_code c = req_country movie_data
        /\ ((countries (view ses') = countries (view ses)
             /\ In c (countries (view ses)))
            \/ ((forall c0, In c0 (countries (view ses)) ->
                   country_code c0 <> req_country movie_data)
                /\ c = mkCountry
                         (next_id (map country_id (countries (view ses))))
                         (req_country movie_data) None
                /\ countries (view ses') = countries (view ses) ++ [c]))
        /\ (forall model,
              exists extra,
                table model (view ses') = table model (view ses) ++ extra
                /\ (forall r, In r extra ->
                      In (named_name r) (requested_names model movie_data)
                      /\ forall r0, In r0 (table model (view ses)) ->
                           named_name r0 <> named_name r)
                /\ NoDup (map named_name extra)
                /\ (NoDup (map named_id (table model (view ses))) ->
                    NoDup (map named_id (table model (view ses')))))
        /\ map named_name gs = req_genres movie_data
        /\ map named_name acs = req_actors movie_data
        /\ map named_name ls = req_languages movie_data
        /\ Forall (fun r => In r (genres (view ses'))) gs
        /\ Forall (fun r => In r (actors (view ses'))) acs
        /\ Forall (fun r => In r (languages (view ses'))) ls).
Proof.
  intros Hrun. unfold create_movie in Hrun.
  unfold bind at 1 in Hrun. unfold execute at 1 in Hrun.
  destruct (filter (name_date_is (req_name movie_data) (req_date movie_data))
              (movies (view ses))) as [|x [|y l]] eqn:Hf.
  2:{ injection Hrun as <- <-. left. eexists.
      split; [reflexivity|]. split; [reflexivity|]. left.
      split; [reflexivity | now exists x]. }
  2:{ injection Hrun as <- <-. left. eexists.
      split; [reflexivity|]. split; [reflexivity|]. right.
      split; [reflexivity | discriminate]. }
  unfold bind at 1 in Hrun. cbn [scalar_one_or_none ret] in Hrun.
  unfold bind at 1 in Hrun. unfold execute at 1 in Hrun.
  lazymatch type of Hrun with
  | (bind _ (fun country => bind _ ?K)) ses = _ =>
      destruct (country_step_cases (req_country movie_data) K ses)
        as [Heq|(c & ses1 & Heq & Hc & Hcode & Hcm1 & Hm1 & Ht1 & Hk1)]
  end.
  { rewrite Heq in Hrun. injection Hrun as <- <-. left. eexists.
    split; [reflexivity|]. split; [reflexivity|]. right.
    split; [reflexivity | discriminate]. }
  rewrite Heq in Hrun. clear Heq.
  unfold bind at 1 in Hrun.
  destruct (for_each (get_or_create_related_instance GenreModel)
              (req_genres movie_data) ses1) as [[gs|e] ses2] eqn:Hg.
  2:{ injection Hrun as <- <-. left. exists e. split; [reflexivity|].
      destruct (for_each_get_or_create_raise _ _ _ _ _ Hg) as [-> Hc2].
      split; [congruence|]. right. split; [reflexivity | discriminate]. }
  destruct (for_each_get_or_create_inv _ _ _ _ _ Hg)
    as (xg & Htg & Hcm2 & Hm2 & Hk2 & Ho2 & Hng & Hag & Hxg & Hdg & Hig).
  unfold bind at 1 in Hrun.
  destruct (for_each (get_or_create_related_instance ActorModel)
              (req_actors movie_data) ses2) as [[acs|e] ses3] eqn:Ha.
  2:{ injection Hrun as <- <-. left. exists e. split; [reflexivity|].
      destruct (for_each_get_or_create_raise _ _ _ _ _ Ha) as [-> Hc3].
      split; [congruence|]. right. split; [reflexivity | discriminate]. }
  destruct (for_each_get_or_create_inv _ _ _ _ _ Ha)
    as (xa & Hta & Hcm3 & Hm3 & Hk3 & Ho3 & Hna & Haa & Hxa & Hda & Hia).
  unfold bind at 1 in Hrun.
  destruct (for_each (get_or_create_related_instance LanguageModel)
              (req_languages movie_data) ses3) as [[ls|e] ses4] eqn:Hl.
  2:{ injection Hrun as <- <-. left. exists e. split; [reflexivity|].
      destruct (for_each_get_or_create_raise _ _ _ _ _ Hl) as [-> Hc4].
      split; [congruence|]. right. split; [reflexivity | discriminate]. }
  destruct (for_each_get_or_create_inv _ _ _ _ _ Hl)
    as (xl & Htl & Hcm4 & Hm4 & Hk4 & Ho4 & Hnl & Hal & Hxl & Hdl & Hil).
  rewrite create_movie_tail in Hrun by reflexivity.
  cbv beta in Hrun.
  set (m := mkMovie (next_id (map movie_id (movies (view ses4)))) _ _ _ _ _ _
              _ _ _ _ _) in Hrun.
  set (s' := set_movies _ _) in Hrun.
  injection Hrun as <- <-.
  assert (Hmov : movies (view ses4) = movies (view ses)) by congruence.
  assert (Hcou : countries (view ses4) = countries (view ses1)) by congruence.
  right. exists m, c, gs, acs, ls. cbn [view committed].
  split; [reflexivity|]. split; [reflexivity|].
  split; [subst s'; cbn [movies set_movies]; now rewrite Hmov|].
  split; [subst m; now rewrite Hmov|].
  split; [reflexivity|].
  split; [subst s'; cbn [countries set_movies]; now rewrite Hcou|].
  split; [exact Hcode|].
  split.
  { subst s'. cbn [countries set_movies]. rewrite Hcou.
    destruct Hk1 as [[E Hin]|[Hno [Ec E]]]; [left | right]; auto. }
  split.
  { intros model.
    assert (Hs' : table model s' = table model (view ses4))
      by (subst s'; now destruct model).
    rewrite Hs'. destruct model; cbn [requested_names].
    - exists xg. rewrite Ho4, Ho3 by discriminate. rewrite <- (Ht1 GenreModel).
      repeat split; auto; now apply Hxg.
    - exists xa. rewrite Ho4 by discriminate.
      rewrite <- (Ht1 ActorModel), <- (Ho2 ActorModel) by discriminate.
      repeat split; auto; now apply Hxa.
    - exists xl.
      rewrite <- (Ht1 LanguageModel), <- (Ho2 LanguageModel),
        <- (Ho3 LanguageModel) by discriminate.
      repeat split; auto; now apply Hxl. }
  split; [exact Hng|]. split; [exact Hna|]. split; [exact Hnl|].
  subst s'. cbn [genres actors languages set_movies].
  split; [|split].
  - change (genres (view ses4)) with (table GenreModel (view ses4)).
    rewrite Ho4, Ho3 by discriminate. exact Hag.
  - change (actors (view ses4)) with (table ActorModel (view ses4)).
    rewrite Ho4 by discriminate. exact Haa.
  - exact Hal.
Qed.

(** The same at the level of the served route: the possible answers and
    what each leaves in the store.  Once the row is committed the answer is
    201, unless its budget or revenue cannot be written as JSON. *)
Lemma serve_create_movie_outcome (movie_data : MovieCreateRequest)
  (s : Store) (resp : Response) (s' : Store) :
  serve_create_movie movie_data s = (resp, s') ->
  (s' = s
   /\ ((resp = mkResponse HTTP_409_CONFLICT ErrorBody
        /\ exists x,
             filter (name_date_is (req_name movie_data)
                       (req_date movie_data)) (movies s) = [x])
       \/ (resp = mkResponse HTTP_500_INTERNAL_SERVER_ERROR ErrorBody
           /\ forall x,
                filter (name_date_is (req_name movie_data)
                          (req_date movie_data)) (movies s) <> [x])))
  \/ (exists m c c' gs acs ls,
        resp = render_json HTTP_201_CREATED
                 (DetailBody
                    (mkDetail (movie_id m) (req_name movie_data)
                       (req_date movie_data)
                       (Finite (req_score movie_data))
                       (req_overview movie_data)
                       (value (req_status movie_data))
                       (req_budget movie_data) (req_revenue movie_data)
                       (CountrySchema_validate c')
                       (map NamedSchema_validate
                          (related (genres s') (map named_id gs)))
                       (map NamedSchema_validate
                          (related (actors s') (map named_id acs)))
                       (map NamedSchema_validate
                          (related (languages s') (map named_id ls)))))
        /\ find (fun x => country_id x =? country_id c) (countries s')
           = Some c'
        /\ movies s' = movies s ++ [m]
        /\ m = mkMovie (next_id (map movie_id (movies s)))
                 (VStr (req_name movie_data)) (VDate (req_date movie_data))
                 (VFloat (Finite (req_score movie_data)))
                 (VStr (req_overview movie_data))
                 (VStr (value (req_status movie_data)))
                 (VFloat (req_budget movie_data))
                 (VFloat (req_revenue movie_data))
                 (country_id c) (map named_id gs) (map named_id acs)
                 (map named_id ls)
        /\ filter (name_date_is (req_name movie_data) (req_date movie_data))
             (movies s) = []
        /\ In c (countries s')
        /\ country_code c = req_country movie_data
        /\ ((countries s' = countries s /\ In c (countries s))
            \/ ((forall c0, In c0 (countries s) ->
                   country_code c0 <> req_country movie_data)
                /\ c = mkCountry (next_id (map country_id (countries s)))
                         (req_country movie_data) None
                /\ countries s' = countries s ++ [c]))
        /\ (forall model,
              exists extra,
                table model s' = table model s ++ extra
                /\ (forall r, In r extra ->
                      In (named_name r) (requested_names model movie_data)
                      /\ forall r0, In r0 (table model s) ->
                           named_name r0 <> named_name r)
                /\ NoDup (map named_name extra)
                /\ (NoDup (map named_id (table model s)) ->
                    NoDup (map named_id (table model s'))))
        /\ map named_name gs = req_genres movie_data
        /\ map named_name acs = req_actors movie_data
        /\ map named_name ls = req_languages movie_data
        /\ Forall (fun r => In r (genres s')) gs
        /\ Forall (fun r => In r (actors s')) acs
        /\ Forall (fun r => In r (languages s')) ls).
Proof.
  unfold serve_create_movie, serve. intros Hserve.
  destruct (create_movie movie_data (begin_session s)) as [o ses'] eqn:Hrun.
  destruct (create_movie_outcome movie_data (begin_session s) o ses' Hrun)
    as [(e & -> & Hc & He)
       |(m & c & gs & acs & ls & -> & Hcm & Hms & Hm & Hf & Hin & Hcode & Hk
         & Ht & Hng & Hna & Hnl & Hag & Haa & Hal)].
  - left. cbn [committed view begin_session] in Hc, He.
    destruct He as [[-> Hx] | [-> Hx]]; injection Hserve as <- <-;
      (split; [exact Hc|]); [left | right]; now split.
  - right. cbn [view begin_session] in *.
    destruct (find (fun x => country_id x =? country_id c)
                (countries (view ses'))) as [c'|] eqn:Hfind.
    2:{ exfalso. now apply (find_id_some _ _ Hin). }
    assert (Hmc : movie_country m = country_id c) by (rewrite Hm; reflexivity).
    unfold render_detail, MovieDetailResponse_validate, load_relations
      in Hserve.
    cbn [loaded_row loaded_country loaded_genres loaded_actors
         loaded_languages] in Hserve.
    rewrite Hmc, Hfind in Hserve.
    rewrite Hm in Hserve.
    cbn [movie_id movie_name movie_date movie_score movie_overview
         movie_status movie_budget movie_revenue movie_genres movie_actors
         movie_languages as_str as_date as_float] in Hserve.
    rewrite Hcm in Hserve. injection Hserve as <- <-.
    exists m, c, c', gs, acs, ls.
    split; [rewrite Hm; reflexivity|].
    repeat (split; [assumption|]). assumption.
Qed.

(** A create answered 201: the body, the row and what else was written. *)
Lemma serve_create_movie_created (movie_data : MovieCreateRequest)
  (s : Store) (resp : Response) (s' : Store) :
  serve_create_movie movie_data s = (resp, s') ->
  status_code resp = HTTP_201_CREATED ->
  exists m c c' gs acs ls,
    resp = mkResponse HTTP_201_CREATED
             (DetailBody
                (mkDetail (movie_id m) (req_name movie_data)
                   (req_date movie_data)
                   (Finite (req_score movie_data))
                   (req_overview movie_data)
                   (value (req_status movie_data))
                   (req_budget movie_data) (req_revenue movie_data)
                   (CountrySchema_validate c')
                   (map NamedSchema_validate
                      (related (genres s') (map named_id gs)))
                   (map NamedSchema_validate
                      (related (actors s') (map named_id acs)))
                   (map NamedSchema_validate
                      (related (languages s') (map named_id ls)))))
    /\ find (fun x => country_id x =? country_id c) (countries s')
       = Some c'
    /\ movies s' = movies s ++ [m]
    /\ m = mkMovie (next_id (map movie_id (movies s)))
             (VStr (req_name movie_data)) (VDate (req_date movie_data))
             (VFloat (Finite (req_score movie_data)))
             (VStr (req_overview movie_data))
             (VStr (value (req_status movie_data)))
             (VFloat (req_budget movie_data))
             (VFloat (req_revenue movie_data))
             (country_id c) (map named_id gs) (map named_id acs)
             (map named_id ls)
    /\ filter (name_date_is (req_name movie_data) (req_date movie_data))
         (movies s) = []
    /\ In c (countries s')
    /\ country_code c = req_country movie_data
    /\ ((countries s' = countries s /\ In c (countries s))
        \/ ((forall c0, In c0 (countries s) ->
               country_code c0 <> req_country movie_data)
            /\ c = mkCountry (next_id (map country_id (countries s)))
                     (req_country movie_data) None
            /\ countries s' = countries s ++ [c]))
    /\ (forall model,
          exists extra,
            table model s' = table model s ++ extra
            /\ (forall r, In r extra ->
                  In (named_name r) (requested_names model movie_data)
                  /\ forall r0, In r0 (table model s) ->
                       named_name r0 <> named_name r)
            /\ NoDup (map named_name extra)
            /\ (NoDup (map named_id (table model s)) ->
                NoDup (map named_id (table model s'))))
    /\ map named_name gs = req_genres movie_data
    /\ map named_name acs = req_actors movie_data
    /\ map named_name ls = req_languages movie_data
    /\ Forall (fun r => In r (genres s')) gs
    /\ Forall (fun r => In r (actors s')) acs
    /\ Forall (fun r => In r (languages s')) ls
    /\ is_finite (req_budget movie_data) = true
    /\ is_finite (req_revenue movie_data) = true.
Proof.
  intros Hserve Hst.
  destruct (serve_create_movie_outcome movie_data s resp s' Hserve)
    as [[_ [[-> _] | [-> _]]]
       |(m & c & c' & gs & acs & ls & -> & Hrest)];
    try discriminate.
  apply render_json_status in Hst; [|discriminate].
  destruct Hst as [Hfin ->]. rewrite detail_floats_finite in Hfin.
  cbn [detail_score detail_budget detail_revenue is_finite andb] in Hfin.
  apply andb_true_iff in Hfin. destruct Hfin as [Hb Hr].
  exists m, c, c', gs, acs, ls. split; [reflexivity|].
  repeat (match type of Hrest with
          | _ /\ _ => destruct Hrest as [? Hrest]; split; [assumption|]
          end).
  split; [assumption|]. now split.
Qed.

(** ** Fetching the detail of a movie *)

Lemma route_get_movie_details_cases (k : Z) (s : Store) :
  route_get_movie_details k s
  = match filter (fun x => movie_id x =? k) (movies s) with
    | [] => (mkResponse HTTP_404_NOT_FOUND ErrorBody, s)
    | [m] => (render_detail HTTP_200_OK (Some (load_relations s m)), s)
    | _ :: _ :: _ => (server_error, s)
    end.
Proof.
  unfold route_get_movie_details, serve, get_movie_details, get_movie_by_id,
    bind, execute. cbn [view begin_session].
  destruct (filter (fun x => movie_id x =? k) (movies s)) as [|m [|m' l]];
    reflexivity.
Qed.





(** ** What the create handler leaves behind *)

(** X2.  What the create route does to the store, on every store.  Either
    it answers 201, budget and revenue being finite, and the movie table
    has gained exactly one row, with the name and date of the request and
    an identifier above all the others, while no stored movie had that name
    and date; or the store is exactly as before and the answer is 409 or
    500; or budget or revenue is not finite, the row is stored all the same
    and the answer is 500. *)
Theorem create_movie_store_effect (movie_data : MovieCreateRequest)
  (s : Store) :
  (status_code (fst (serve_create_movie movie_data s)) = HTTP_201_CREATED
   /\ is_finite (req_budget movie_data) = true
   /\ is_finite (req_revenue movie_data) = true
   /\ stores_new_row movie_data s (snd (serve_create_movie movie_data s)))
  \/ (snd (serve_create_movie movie_data s) = s
      /\ (status_code (fst (serve_create_movie movie_data s))
          = HTTP_409_CONFLICT
          \/ status_code (fst (serve_create_movie movie_data s))
             = HTTP_500_INTERNAL_SERVER_ERROR))
  \/ (status_code (fst (serve_create_movie movie_data s))
      = HTTP_500_INTERNAL_SERVER_ERROR
      /\ (is_finite (req_budget movie_data) = false
          \/ is_finite (req_revenue movie_data) = false)
      /\ stores_new_row movie_data s (snd (serve_create_movie movie_data s))).
Proof.
  destruct (serve_create_movie movie_data s) as [resp s'] eqn:Hserve.
  destruct (serve_create_movie_outcome movie_data s resp s' Hserve)
    as [[-> [[-> _] | [-> _]]]
       |(m & c & c' & gs & acs & ls & -> & _ & Hms & Hm & Hf & _)].
  - right. left. split; [reflexivity | now left].
  - right. left. split; [reflexivity | now right].
  - cbn [fst snd].
    assert (Hstored : stores_new_row movie_data s s').
    { split.
      - intros Hhas. apply has_movie_filter in Hhas. now apply Hhas.
      - exists m. split; [exact Hms|]. rewrite Hm. cbn.
        split; [reflexivity|]. split; [reflexivity|].
        intros x Hx. apply next_id_above. now apply in_map. }
    unfold render_json. rewrite detail_floats_finite.
    cbn [detail_score detail_budget detail_revenue is_finite andb].
    destruct (is_finite (req_budget movie_data)) eqn:Hb;
      destruct (is_finite (req_revenue movie_data)) eqn:Hr; cbn [andb].
    + left. do 3 (split; [reflexivity|]). exact Hstored.
    + right. right. split; [reflexivity|]. split; [now right | exact Hstored].
    + right. right. split; [reflexivity|]. split; [now left | exact Hstored].
    + right. right. split; [reflexivity|]. split; [now left | exact Hstored].
Qed.

(** C2, amended.  A create request is answered 409, and nothing is written,
    when exactly one stored movie has its name and release date.  That is
    the case after every create answered 201: any later request with the
    same name and date, whatever its other fields, is then answered 409.
    When no stored movie has the name and date, country codes and the names
    of genres, actors and languages are unique in their tables, and budget
    and revenue are finite, the create is answered 201 with the detail of
    the new movie, which is stored. *)
Theorem create_movie_conflict (movie_data : MovieCreateRequest) (s : Store) :
  ((exists x,
       filter (name_date_is (req_name movie_data) (req_date movie_data))
         (movies s) = [x]) ->
   serve_create_movie movie_data s
   = (mkResponse HTTP_409_CONFLICT ErrorBody, s))
  /\ (forall resp s',
        serve_create_movie movie_data s = (resp, s') ->
        status_code resp = HTTP_201_CREATED ->
        has_movie (req_name movie_data) (req_date movie_data) s'
        /\ forall other,
             req_name other = req_name movie_data ->
             req_date other = req_date movie_data ->
             serve_create_movie other s'
             = (mkResponse HTTP_409_CONFLICT ErrorBody, s'))
  /\ (~ has_movie (req_name movie_data) (req_date movie_data) s ->
      unique_codes (countries s) ->
      (forall model, unique_names (table model s)) ->
      is_finite (req_budget movie_data) = true ->
      is_finite (req_revenue movie_data) = true ->
      exists d s',
        serve_create_movie movie_data s
        = (mkResponse HTTP_201_CREATED (DetailBody d), s')
        /\ detail_name d = req_name movie_data
        /\ detail_date d = req_date movie_data
        /\ has_movie (req_name movie_data) (req_date movie_data) s').
Proof.
  split; [|split].
  - intros [x Hx]. now rewrite (serve_create_movie_found movie_data s x []).
  - intros resp s' Hserve Hst.
    destruct (serve_create_movie_created movie_data s resp s' Hserve Hst)
      as (m & c & c' & gs & acs & ls & _ & _ & Hms & Hm & Hf & _).
    assert (Hn : movie_name m = VStr (req_name movie_data))
      by (rewrite Hm; reflexivity).
    assert (Hd : movie_date m = VDate (req_date movie_data))
      by (rewrite Hm; reflexivity).
    split.
    + exists m. rewrite Hms. split; [|now split].
      apply in_or_app. right. now left.
    + intros other En Ed.
      apply (serve_create_movie_after_create other s' (movies s) m Hms).
      * now rewrite En, Ed.
      * now rewrite En.
      * now rewrite Ed.
  - intros Hno Hcodes Hnames Hb Hr.
    assert (Hf : filter (name_date_is (req_name movie_data)
                           (req_date movie_data)) (movies s) = []).
    { destruct (filter (name_date_is (req_name movie_data)
                          (req_date movie_data)) (movies s)) eqn:E;
        [reflexivity|].
      exfalso. apply Hno. apply has_movie_filter. rewrite E. discriminate. }
    destruct (serve_create_movie_fresh movie_data s Hf Hcodes Hnames)
      as (m & d & s' & Hrun & Hms & Hn & Hd & _ & Hdn & Hdd & Hfin & _).
    exists d, s'.
    rewrite Hrun, render_json_finite by now rewrite Hfin, Hb, Hr.
    split; [reflexivity|]. split; [exact Hdn|]. split; [exact Hdd|].
    exists m. rewrite Hms. split; [|now split].
    apply in_or_app. right. now left.
Qed.

Lemma render_detail_created (code : Z) (s' : Store) (m : MovieModel)
  (c' : CountryModel) (n o st : string) (d : Z) (sc b r : PyFloat) :
  movie_name m = VStr n -> movie_date m = VDate d ->
  movie_score m = VFloat sc -> movie_overview m = VStr o ->
  movie_status m = VStr st -> movie_budget m = VFloat b ->
  movie_revenue m = VFloat r ->
  is_finite sc = true -> is_finite b = true -> is_finite r = true ->
  find (fun x => country_id x =? movie_country m) (countries s') = Some c' ->
  render_detail code (Some (load_relations s' m))
  = mkResponse code
      (DetailBody
         (mkDetail (movie_id m) n d sc o st b r (CountrySchema_validate c')
            (map NamedSchema_validate (related (genres s') (movie_genres m)))
            (map NamedSchema_validate (related (actors s') (movie_actors m)))
            (map NamedSchema_validate
               (related (languages s') (movie_languages m))))).
Proof.
  intros Hn Hd Hsc Ho Hst Hb Hr Hfs Hfb Hfr Hfind.
  unfold render_detail, MovieDetailResponse_validate, load_relations.
  cbn [loaded_row loaded_country loaded_genres loaded_actors
       loaded_languages].
  rewrite Hn, Hd, Hsc, Ho, Hst, Hb, Hr, Hfind. cbn [as_str as_date as_float].
  apply render_json_finite. rewrite detail_floats_finite.
  cbn [detail_score detail_budget detail_revenue].
  now rewrite Hfs, Hfb, Hfr.
Qed.

(** X3.  A movie that was just created can be fetched: when the create
    route answers 201, the detail route asked for the identifier in the
    body answers 200 with the very same body, on every store. *)
Theorem create_then_details (movie_data : MovieCreateRequest) (s : Store)
  (resp : Response) (s' : Store) :
  serve_create_movie movie_data s = (resp, s') ->
  status_code resp = HTTP_201_CREATED ->
  exists d,
    body resp = DetailBody d
    /\ route_get_movie_details (detail_id d) s'
       = (mkResponse HTTP_200_OK (DetailBody d), s').
Proof.
  intros Hserve Hst.
  destruct (serve_create_movie_created movie_data s resp s' Hserve Hst)
    as (m & c & c' & gs & acs & ls & -> & Hfind & Hms & Hm & _ & _ & _ & _
        & _ & _ & _ & _ & _ & _ & _ & Hfb & Hfr).
  eexists. split; [reflexivity|]. cbn [detail_id].
  rewrite route_get_movie_details_cases.
  assert (Hid : movie_id m = next_id (map movie_id (movies s)))
    by (rewrite Hm; reflexivity).
  rewrite Hms, (filter_new_movie _ m Hid).
  rewrite (render_detail_created HTTP_200_OK s' m c'
             (req_name movie_data) (req_overview movie_data)
             (value (req_status movie_data)) (req_date movie_data)
             (Finite (req_score movie_data)) (req_budget movie_data)
             (req_revenue movie_data));
    try (rewrite Hm; reflexivity); try assumption; try reflexivity.
  rewrite Hm. exact Hfind.
Qed.

Lemma filter_out_new_movie (ms : list MovieModel) (m : MovieModel) :
  movie_id m = next_id (map movie_id ms) ->
  filter (fun x => negb (movie_id x =? movie_id m)) (ms ++ [m]) = ms.
Proof.
  intros Hid. rewrite filter_app. cbn. rewrite Z.eqb_refl. cbn.
  rewrite app_nil_r.
  assert (Hall : forall x, In x ms -> movie_id x <> movie_id m).
  { intros x Hx E. apply (next_id_fresh (map movie_id ms)).
    rewrite <- Hid, <- E. now apply in_map. }
  clear Hid. induction ms as [|a ms IH]; [reflexivity|]. cbn.
  destruct (Z.eqb_spec (movie_id a) (movie_id m)) as [E|_].
  - exfalso. apply (Hall a); [now left | exact E].
  - cbn. f_equal. apply IH. intros x Hx. apply Hall. now right.
Qed.

Lemma route_delete_movie_cases (k : Z) (s : Store) :
  route_delete_movie k s
  = match filter (fun x => movie_id x =? k) (movies s) with
    | [] => (mkResponse HTTP_404_NOT_FOUND ErrorBody, s)
    | [m] =>
        (mkResponse HTTP_204_NO_CONTENT NoBody,
         set_movies
           (filter (fun x => negb (movie_id x =? movie_id m)) (movies s)) s)
    | _ :: _ :: _ => (server_error, s)
    end.
Proof.
  unfold route_delete_movie, serve, delete_movie, bind, execute.
  cbn [view begin_session].
  destruct (filter (fun x => movie_id x =? k) (movies s)) as [|m [|m' l]];
    reflexivity.
Qed.

(** X4.  The newest movie heads the list: when the create route answers 201
    on a store whose rows are populated, the first page of the list, for any
    page size from 1 to 20, is answered 200, its first item is the movie
    just created, and it has no previous page. *)
Theorem create_then_list_first (movie_data : MovieCreateRequest) (s : Store)
  (resp : Response) (s' : Store) (request : Request) (per_page : Z) :
  populated (movies s) -> 1 <= per_page <= 20 ->
  serve_create_movie movie_data s = (resp, s') ->
  status_code resp = HTTP_201_CREATED ->
  exists d r item rest,
    body resp = DetailBody d
    /\ route_get_movies_list request 1 per_page s'
       = (mkResponse HTTP_200_OK (ListBody r), s')
    /\ list_movies r = item :: rest
    /\ short_id item = detail_id d
    /\ short_name item = detail_name d
    /\ short_date item = detail_date d
    /\ short_score item = detail_score d
    /\ short_overview item = detail_overview d
    /\ prev_page r = None
    /\ total_items r = Z.of_nat (length (movies s)) + 1.
Proof.
  intros Hpop Hpp Hserve Hst.
  destruct (serve_create_movie_created movie_data s resp s' Hserve Hst)
    as (m & c & c' & gs & acs & ls & -> & Hfind & Hms & Hm & _).
  rewrite (route_get_movies_list_cases request 1 per_page s'
             (valid_query_true 1 per_page ltac:(lia) Hpp)).
  assert (Hid : movie_id m = next_id (map movie_id (movies s)))
    by (rewrite Hm; reflexivity).
  rewrite Hms, length_app, (order_by_id_desc_newest_first _ m Hid).
  cbn [length]. replace (Z.of_nat (length (movies s) + 1) =? 0) with false
    by (symmetry; apply Z.eqb_neq; lia).
  unfold offset_limit. replace (Z.to_nat ((1 - 1) * per_page)) with 0%nat
    by lia.
  destruct (Z.to_nat per_page) as [|k] eqn:Hk; [lia|].
  cbn [skipn firstn validate_all].
  assert (Hvm : MovieShortResponse_validate m
                = Some (mkShort (movie_id m) (req_name movie_data)
                          (req_date movie_data)
                          (Finite (req_score movie_data))
                          (req_overview movie_data)))
    by (rewrite Hm; reflexivity).
  rewrite Hvm.
  destruct (validate_all_ready (firstn k (order_by_id_desc (movies s))))
    as (rest & Hrest & Hfin).
  { apply Forall_forall. intros x Hx. unfold populated in Hpop.
    rewrite Forall_forall in Hpop. apply Hpop.
    apply (Permutation_in _ (order_by_id_desc_perm (movies s))).
    rewrite <- (firstn_skipn k (order_by_id_desc (movies s))).
    apply in_or_app. now left. }
  rewrite Hrest.
  rewrite render_json_finite by (cbn; exact Hfin).
  eexists. eexists. eexists. exists rest.
  split; [reflexivity|]. split; [reflexivity|]. cbn.
  repeat split. lia.
Qed.

(** X5.  Deleting a movie that was just created undoes the movie row and
    nothing else: when the create route answers 201, deleting the identifier
    in the body answers 204 and the movie table is again what it was before
    the create, while the country and the related rows the create added
    stay. *)
Theorem create_then_delete (movie_data : MovieCreateRequest) (s : Store)
  (resp : Response) (s' : Store) :
  serve_create_movie movie_data s = (resp, s') ->
  status_code resp = HTTP_201_CREATED ->
  exists d s'',
    body resp = DetailBody d
    /\ route_delete_movie (detail_id d) s'
       = (mkResponse HTTP_204_NO_CONTENT NoBody, s'')
    /\ movies s'' = movies s
    /\ countries s'' = countries s'
    /\ (forall model, table model s'' = table model s').
Proof.
  intros Hserve Hst.
  destruct (serve_create_movie_created movie_data s resp s' Hserve Hst)
    as (m & c & c' & gs & acs & ls & -> & Hfind & Hms & Hm & _).
  assert (Hid : movie_id m = next_id (map movie_id (movies s)))
    by (rewrite Hm; reflexivity).
  eexists. eexists. split; [reflexivity|]. cbn [detail_id].
  rewrite route_delete_movie_cases, Hms, (filter_new_movie _ m Hid).
  split; [reflexivity|]. cbn [movies countries set_movies].
  split; [now apply filter_out_new_movie|].
  split; [reflexivity | now intros []].
Qed.

Lemma find_by_unique_id (cs : list CountryModel) (c : CountryModel) :
  NoDup (map country_id cs) -> In c cs ->
  find (fun x => country_id x =? country_id c) cs = Some c.
Proof.
  induction cs as [|a cs IH]; intros Hnd Hin; [contradiction|].
  cbn in Hnd. apply NoDup_cons_iff in Hnd. destruct Hnd as [Ha Hnd]. cbn.
  destruct Hin as [->|Hin]; [now rewrite Z.eqb_refl|].
  destruct (Z.eqb_spec (country_id a) (country_id c)) as [E|_].
  - exfalso. apply Ha. rewrite E. now apply in_map.
  - now apply IH.
Qed.

Lemma key_inj {A K : Type} (key : A -> K) (l : list A) (a b : A) :
  NoDup (map key l) -> In a l -> In b l -> key a = key b -> a = b.
Proof.
  induction l as [|x l IH]; intros Hnd Ha Hb E; [contradiction|].
  cbn in Hnd. apply NoDup_cons_iff in Hnd. destruct Hnd as [Hx Hnd].
  destruct Ha as [->|Ha], Hb as [->|Hb].
  - reflexivity.
  - exfalso. apply Hx. rewrite E. now apply in_map.
  - exfalso. apply Hx. rewrite <- E. now apply in_map.
  - now apply IH.
Qed.

Lemma NoDup_map_filter {A K : Type} (key : A -> K) (p : A -> bool)
  (l : list A) :
  NoDup (map key l) -> NoDup (map key (filter p l)).
Proof.
  induction l as [|a l IH]; intros Hnd; [constructor|].
  cbn in Hnd. apply NoDup_cons_iff in Hnd. destruct Hnd as [Ha Hnd].
  cbn. destruct (p a); [|now apply IH].
  cbn. constructor; [|now apply IH].
  intros Hin. apply Ha. apply in_map_iff in Hin.
  destruct Hin as (x & Ex & Hx). apply filter_In in Hx.
  rewrite <- Ex. apply in_map. tauto.
Qed.

(** The rows a list of membership identifiers reads back are the rows the
    identifiers were taken from, each once. *)
Lemma related_of_ids (t : list NamedModel) (rs : list NamedModel) :
  NoDup (map named_id t) -> Forall (fun r => In r t) rs ->
  forall r, In r (related t (map named_id rs)) <-> In r rs.
Proof.
  intros Hnd Hall r. rewrite Forall_forall in Hall. unfold related.
  rewrite filter_In, existsb_exists. split.
  - intros (Hr & i & Hi & E). apply Z.eqb_eq in E.
    apply in_map_iff in Hi. destruct Hi as (g & Eg & Hg).
    assert (r = g) as ->; [|exact Hg].
    apply (key_inj named_id t); auto. congruence.
  - intros Hr. split; [now apply Hall|].
    exists (named_id r). split; [now apply in_map | apply Z.eqb_refl].
Qed.

Lemma related_names (t : list NamedModel) (rs : list NamedModel) :
  NoDup (map named_id t) -> Forall (fun r => In r t) rs ->
  forall n,
    In n (map ns_name (map NamedSchema_validate
                         (related t (map named_id rs))))
    <-> In n (map named_name rs).
Proof.
  intros Hnd Hall n. rewrite map_map. cbn [ns_name NamedSchema_validate].
  rewrite !in_map_iff. split; intros (r & E & Hr); exists r;
    (split; [exact E|]); now apply (related_of_ids t rs Hnd Hall).
Qed.

Lemma related_names_nodup (t : list NamedModel) (ids : list Z) :
  unique_names t ->
  NoDup (map ns_name (map NamedSchema_validate (related t ids))).
Proof.
  intros Hu. rewrite map_map. cbn [ns_name NamedSchema_validate].
  unfold related. now apply NoDup_map_filter.
Qed.

Lemma unique_names_app (t extra : list NamedModel) :
  unique_names t -> NoDup (map named_name extra) ->
  (forall r, In r extra ->
     forall r0, In r0 t -> named_name r0 <> named_name r) ->
  unique_names (t ++ extra).
Proof.
  unfold unique_names. intros Ht. revert t Ht.
  induction extra as [|x extra IH]; intros t Ht Hex Hnew.
  - now rewrite app_nil_r.
  - change (t ++ x :: extra) with (t ++ [x] ++ extra).
    rewrite app_assoc. cbn in Hex. apply NoDup_cons_iff in Hex.
    destruct Hex as [Hx Hex]. apply IH.
    + rewrite map_app. cbn. apply NoDup_snoc; [exact Ht|].
      intros Hin. apply in_map_iff in Hin. destruct Hin as (r0 & E & Hr0).
      apply (Hnew x (or_introl eq_refl) r0 Hr0 E).
    + exact Hex.
    + intros r Hr r0 Hr0. apply in_app_or in Hr0.
      destruct Hr0 as [Hr0|[<-|[]]].
      * apply Hnew; [now right | exact Hr0].
      * intros E. apply Hx. rewrite E. now apply in_map.
Qed.

(** X6.  The body of a 201 answer says what was asked for: on a store whose
    country and related tables have unique identifiers and whose related
    tables have unique names, every scalar field of the body is the field
    of the request, the status is the string value of the requested member
    (and validates back to it), the country carries the requested code, and
    the genres, actors and languages carry exactly the requested names,
    each name once however often the request gave it; identifiers and names
    stay unique. *)
Theorem create_detail_echoes_request (movie_data : MovieCreateRequest)
  (s : Store) (resp : Response) (s' : Store) :
  unique_related_ids s ->
  (forall model, unique_names (table model s)) ->
  serve_create_movie movie_data s = (resp, s') ->
  status_code resp = HTTP_201_CREATED ->
  exists d,
    body resp = DetailBody d
    /\ detail_name d = req_name movie_data
    /\ detail_date d = req_date movie_data
    /\ detail_score d = Finite (req_score movie_data)
    /\ detail_overview d = req_overview movie_data
    /\ detail_status d = value (req_status movie_data)
    /\ MovieStatusEnum_validate (detail_status d)
       = Some (req_status movie_data)
    /\ detail_budget d = req_budget movie_data
    /\ detail_revenue d = req_revenue movie_data
    /\ cs_code (detail_country d) = req_country movie_data
    /\ (forall n, In n (map ns_name (detail_genres d))
                  <-> In n (req_genres movie_data))
    /\ (forall n, In n (map ns_name (detail_actors d))
                  <-> In n (req_actors movie_data))
    /\ (forall n, In n (map ns_name (detail_languages d))
                  <-> In n (req_languages movie_data))
    /\ NoDup (map ns_name (detail_genres d))
    /\ NoDup (map ns_name (detail_actors d))
    /\ NoDup (map ns_name (detail_languages d))
    /\ unique_related_ids s'
    /\ (forall model, unique_names (table model s')).
Proof.
  intros [Hcid Htid] Hun Hserve Hst.
  destruct (serve_create_movie_created movie_data s resp s' Hserve Hst)
    as (m & c & c' & gs & acs & ls & -> & Hfind & Hms & Hm & Hf & Hin
        & Hcode & Hk & Ht & Hng & Hna & Hnl & Hag & Haa & Hal & _).
  assert (Hcid' : NoDup (map country_id (countries s'))).
  { destruct Hk as [[-> _]|[_ [Ec ->]]]; [exact Hcid|].
    rewrite map_app. cbn. apply NoDup_snoc; [exact Hcid|].
    rewrite Ec. cbn. apply next_id_fresh. }
  assert (Htid' : forall model, NoDup (map named_id (table model s'))).
  { intros model. destruct (Ht model) as (extra & _ & _ & _ & Hid).
    apply Hid, Htid. }
  assert (Hun' : forall model, unique_names (table model s')).
  { intros model. destruct (Ht model) as (extra & -> & Hex & Hnd & _).
    apply unique_names_app; [apply Hun | exact Hnd|].
    intros r Hr. now apply Hex. }
  rewrite (find_by_unique_id (countries s') c Hcid' Hin) in Hfind.
  injection Hfind as <-.
  eexists. split; [reflexivity|].
  cbn [detail_name detail_date detail_score detail_overview detail_status
       detail_budget detail_revenue detail_country detail_genres
       detail_actors detail_languages CountrySchema_validate cs_code].
  do 5 (split; [reflexivity|]).
  split; [now apply MovieStatusEnum_validate_some|].
  do 2 (split; [reflexivity|]).
  split; [exact Hcode|].
  split.
  { intros n. rewrite <- Hng.
    apply (related_names (genres s') gs (Htid' GenreModel) Hag). }
  split.
  { intros n. rewrite <- Hna.
    apply (related_names (actors s') acs (Htid' ActorModel) Haa). }
  split.
  { intros n. rewrite <- Hnl.
    apply (related_names (languages s') ls (Htid' LanguageModel) Hal). }
  split; [apply related_names_nodup, (Hun' GenreModel)|].
  split; [apply related_names_nodup, (Hun' ActorModel)|].
  split; [apply related_names_nodup, (Hun' LanguageModel)|].
  split; [split; [exact Hcid' | exact Htid'] | exact Hun'].
Qed.

(** X7.  The create route only ever appends to the three name-keyed tables,
    on every store and whatever the answer: each table afterwards is the
    old table followed by new rows whose names are pairwise different, were
    asked for in the request, and were not in the old table.  When the
    answer is 201, every requested name has a row. *)
Theorem create_movie_related_rows (movie_data : MovieCreateRequest)
  (s : Store) (model : RelatedModel) :
  (exists extra,
     table model (snd (serve_create_movie movie_data s))
     = table model s ++ extra
     /\ NoDup (map named_name extra)
     /\ forall r, In r extra ->
          In (named_name r) (requested_names model movie_data)
          /\ forall r0, In r0 (table model s) ->
               named_name r0 <> named_name r)
  /\ (status_code (fst (serve_create_movie movie_data s)) = HTTP_201_CREATED ->
      forall name, In name (requested_names model movie_data) ->
        exists r, In r (table model (snd (serve_create_movie movie_data s)))
                  /\ named_name r = name).
Proof.
  destruct (serve_create_movie movie_data s) as [resp s'] eqn:Hserve.
  cbn [fst snd].
  destruct (serve_create_movie_outcome movie_data s resp s' Hserve)
    as [[-> Hresp]
       |(m & c & c' & gs & acs & ls & -> & Hfind & Hms & Hm & Hf & Hin
         & Hcode & Hk & Ht & Hng & Hna & Hnl & Hag & Haa & Hal)].
  - split.
    + exists []. rewrite app_nil_r. split; [reflexivity|].
      split; [constructor | intros r []].
    + intros Hst. destruct Hresp as [[-> _] | [-> _]]; discriminate.
  - split.
    + destruct (Ht model) as (extra & Hext & Hex & Hnd & _).
      exists extra. split; [exact Hext|]. split; [exact Hnd | exact Hex].
    + intros _ name Hname.
      assert (Hrows : exists rs,
                 map named_name rs = requested_names model movie_data
                 /\ Forall (fun r => In r (table model s')) rs).
      { destruct model; [exists gs | exists acs | exists ls]; now split. }
      destruct Hrows as (rs & Hnames & Hall).
      rewrite <- Hnames in Hname. apply in_map_iff in Hname.
      destruct Hname as (r & Hr & Hinr). exists r. split; [|exact Hr].
      rewrite Forall_forall in Hall. now apply Hall.
Qed.

(** X8.  The country of a new movie is resolved by its code: when the create
    route answers 201, either a stored country had the requested code and
    the country table is unchanged, or none had it and the table has gained
    exactly one row, with that code, a fresh identifier and no display
    name. *)
Theorem create_movie_country_by_code (movie_data : MovieCreateRequest)
  (s : Store) (resp : Response) (s' : Store) :
  serve_create_movie movie_data s = (resp, s') ->
  status_code resp = HTTP_201_CREATED ->
  ((exists c, In c (countries s)
              /\ country_code c = req_country movie_data)
   /\ countries s' = countries s)
  \/ ((forall c, In c (countries s) ->
         country_code c <> req_country movie_data)
      /\ countries s'
         = countries s
           ++ [mkCountry (next_id (map country_id (countries s)))
                 (req_country movie_data) None]
      /\ ~ In (next_id (map country_id (countries s)))
           (map country_id (countries s))).
Proof.
  intros Hserve Hst.
  destruct (serve_create_movie_created movie_data s resp s' Hserve Hst)
    as (m & c & c' & gs & acs & ls & -> & Hfind & Hms & Hm & Hf & Hin
        & Hcode & Hk & _).
  destruct Hk as [[E Hc]|[Hno [Ec E]]].
  - left. split; [now exists c | exact E].
  - right. split; [exact Hno|]. split; [now rewrite E, Ec|].
    apply next_id_fresh.
Qed.

(** ** Deleting, on any store *)

Lemma filter_filter_length {A : Type} (p q : A -> bool) (l : list A) :
  (length (filter q (filter p l)) <= length (filter q l))%nat.
Proof.
  induction l as [|a l IH]; [constructor|]. cbn [filter].
  destruct (p a); cbn [filter]; destruct (q a); cbn [length]; lia.
Qed.

(** X9.  Deleting keeps the store in order, for every identifier and
    whatever the answer: the integrity constraints that held before hold
    afterwards, and a store whose rows were populated stays populated. *)
Theorem delete_movie_keeps_integrity (k : Z) (s : Store) :
  Integrity s ->
  Integrity (snd (route_delete_movie k s))
  /\ (populated (movies s) ->
      populated (movies (snd (route_delete_movie k s)))).
Proof.
  intros [Hids Hnd Hcodes Hnames]. rewrite route_delete_movie_cases.
  destruct (filter (fun x => movie_id x =? k) (movies s)) as [|m [|m' l]];
    cbn [snd]; try (split; [now constructor | tauto]).
  split.
  - constructor; cbn [movies countries set_movies].
    + now apply NoDup_map_filter.
    + intros name date.
      pose proof (filter_filter_length
                    (fun x => negb (movie_id x =? movie_id m))
                    (name_date_is name date) (movies s)).
      specialize (Hnd name date). lia.
    + exact Hcodes.
    + intros model. specialize (Hnames model). now destruct model.
  - intros Hpop. cbn [movies set_movies]. unfold populated in *.
    rewrite Forall_forall in *. intros x Hx. apply filter_In in Hx.
    now apply Hpop.
Qed.

Lemma filter_id_after_delete (ms : list MovieModel) (i j : Z) :
  j <> i ->
  filter (fun x => movie_id x =? j)
    (filter (fun x => negb (movie_id x =? i)) ms)
  = filter (fun x => movie_id x =? j) ms.
Proof.
  intros Hne. induction ms as [|a ms IH]; [reflexivity|]. cbn.
  destruct (Z.eqb_spec (movie_id a) i) as [Ei|Ei]; cbn.
  - destruct (Z.eqb_spec (movie_id a) j) as [Ej|_]; [congruence | exact IH].
  - now rewrite IH.
Qed.

(** X10.  Deleting one movie leaves the others alone: for every store and
    every two different identifiers, the answer of the detail route for the
    second is the same after deleting the first as it was before. *)
Theorem delete_movie_leaves_others (i j : Z) (s : Store) :
  j <> i ->
  fst (route_get_movie_details j (snd (route_delete_movie i s)))
  = fst (route_get_movie_details j s).
Proof.
  intros Hne. rewrite route_delete_movie_cases.
  destruct (filter (fun x => movie_id x =? i) (movies s))
    as [|m [|m' l]] eqn:Hf; cbn [snd]; try reflexivity.
  assert (Hm : In m (filter (fun x => movie_id x =? i) (movies s)))
    by (rewrite Hf; now left).
  apply filter_In in Hm. destruct Hm as [_ Hm]. apply Z.eqb_eq in Hm.
  rewrite !route_get_movie_details_cases. cbn [movies set_movies].
  rewrite Hm, (filter_id_after_delete (movies s) i j Hne).
  destruct (filter (fun x => movie_id x =? j) (movies s)) as [|x [|x' l']];
    reflexivity.
Qed.

(** ** Updating, on any store *)

Lemma route_update_movie_cases (k : Z) (r : MovieUpdateRequest) (s : Store) :
  route_update_movie k r s
  = match filter (fun x => movie_id x =? k) (movies s) with
    | [] => (mkResponse HTTP_404_NOT_FOUND ErrorBody, s)
    | [m] =>
        (mkResponse HTTP_200_OK
           (UpdateBody (mkUpdateResponse "Movie updated successfully.")),
         set_movies
           (map (fun x => if movie_id x =? movie_id m
                          then patched_movie r m else x)
              (movies s)) s)
    | _ :: _ :: _ => (server_error, s)
    end.
Proof.
  unfold route_update_movie, serve, update_movie.
  unfold bind at 1. unfold execute. cbn [view begin_session].
  destruct (filter (fun x => movie_id x =? k) (movies s)) as [|m [|m' l]];
    try reflexivity.
  unfold bind at 1. cbn [scalar_one_or_none ret].
  destruct (normalize_then_apply r m (begin_session s)) as [ud [Hrun Happ]].
  unfold bind at 1. rewrite Hrun, Happ. reflexivity.
Qed.

Lemma filter_single_id (ms : list MovieModel) (k : Z) (m : MovieModel) :
  filter (fun x => movie_id x =? k) ms = [m] ->
  movie_id m = k /\ In m ms
  /\ forall x, In x ms -> movie_id x = k -> x = m.
Proof.
  intros Hf.
  assert (Hm : In m (filter (fun x => movie_id x =? k) ms))
    by (rewrite Hf; now left).
  apply filter_In in Hm. destruct Hm as [Hin Hk]. apply Z.eqb_eq in Hk.
  split; [exact Hk|]. split; [exact Hin|].
  intros x Hx Ex.
  assert (H : In x (filter (fun x => movie_id x =? k) ms)).
  { apply filter_In. split; [exact Hx | now apply Z.eqb_eq]. }
  rewrite Hf in H. destruct H as [<-|[]]. reflexivity.
Qed.

(** Replacing the rows with one identifier by a row with that identifier. *)
Lemma filter_map_replace (ms : list MovieModel) (k : Z) (m' : MovieModel) :
  movie_id m' = k ->
  filter (fun x => movie_id x =? k)
    (map (fun x => if movie_id x =? k then m' else x) ms)
  = map (fun _ => m') (filter (fun x => movie_id x =? k) ms).
Proof.
  intros Hk. induction ms as [|a ms IH]; [reflexivity|]. cbn.
  destruct (Z.eqb_spec (movie_id a) k) as [E|E].
  - rewrite Hk, Z.eqb_refl. cbn. now rewrite IH.
  - destruct (Z.eqb_spec (movie_id a) k); [contradiction|]. exact IH.
Qed.

Lemma map_replace_ids (ms : list MovieModel) (k : Z) (m' : MovieModel) :
  movie_id m' = k ->
  map movie_id (map (fun x => if movie_id x =? k then m' else x) ms)
  = map movie_id ms.
Proof.
  intros Hk. rewrite map_map. apply map_ext. intros x.
  destruct (Z.eqb_spec (movie_id x) k); congruence.
Qed.

(** X11.  The update route answers 404 exactly when no stored movie has the
    identifier, and unless it answers 200 the store is exactly as before,
    for every store and payload. *)
Theorem update_movie_not_found_iff (k : Z) (r : MovieUpdateRequest)
  (s : Store) :
  (status_code (fst (route_update_movie k r s)) = HTTP_404_NOT_FOUND
   <-> forall m, In m (movies s) -> movie_id m <> k)
  /\ (status_code (fst (route_update_movie k r s)) <> HTTP_200_OK ->
      snd (route_update_movie k r s) = s).
Proof.
  rewrite route_update_movie_cases.
  destruct (filter (fun x => movie_id x =? k) (movies s)) as [|m l] eqn:Hf.
  - split; [|reflexivity]. split; [intros _|reflexivity].
    now apply (filter_key_nil_absent movie_id Z.eqb Z.eqb_eq).
  - assert (Hm : In m (filter (fun x => movie_id x =? k) (movies s)))
      by (rewrite Hf; now left).
    apply filter_In in Hm. destruct Hm as [Hin Hk]. apply Z.eqb_eq in Hk.
    destruct l; cbn [fst snd status_code server_error].
    + split; [|intros H; now contradiction H].
      split; [discriminate | intros Hno; exfalso; now apply (Hno m)].
    + split; [|reflexivity].
      split; [discriminate | intros Hno; exfalso; now apply (Hno m)].
Qed.

(** X12.  The update route never touches identifiers, relations or other
    tables, for every store, identifier and payload and whatever the answer:
    the movie table keeps its identifiers in the same order, each row keeps
    its country and its genre, actor and language memberships, and the
    country and name-keyed tables are unchanged. *)
Theorem update_movie_keeps_identifiers (k : Z) (r : MovieUpdateRequest)
  (s : Store) :
  map movie_id (movies (snd (route_update_movie k r s)))
  = map movie_id (movies s)
  /\ map movie_country (movies (snd (route_update_movie k r s)))
     = map movie_country (movies s)
  /\ map movie_genres (movies (snd (route_update_movie k r s)))
     = map movie_genres (movies s)
  /\ map movie_actors (movies (snd (route_update_movie k r s)))
     = map movie_actors (movies s)
  /\ map movie_languages (movies (snd (route_update_movie k r s)))
     = map movie_languages (movies s)
  /\ countries (snd (route_update_movie k r s)) = countries s
  /\ forall model,
       table model (snd (route_update_movie k r s)) = table model s.
Proof.
  rewrite route_update_movie_cases.
  destruct (filter (fun x => movie_id x =? k) (movies s))
    as [|m [|m' l]] eqn:Hf; cbn [snd]; try (repeat split; reflexivity).
  destruct (filter_single_id _ _ _ Hf) as (Hk & Hin & Huniq).
  cbn [movies countries set_movies].
  assert (Hrow : forall (B : Type) (f : MovieModel -> B),
             f (patched_movie r m) = f m ->
             map f (map (fun x => if movie_id x =? movie_id m
                                  then patched_movie r m else x) (movies s))
             = map f (movies s)).
  { intros B f Hfm. rewrite map_map.
    rewrite <- (map_id (movies s)) at 2. rewrite map_map.
    apply map_ext_in. intros x Hx.
    destruct (Z.eqb_spec (movie_id x) (movie_id m)) as [E|_];
      [|reflexivity].
    rewrite Hfm. f_equal. symmetry. apply Huniq; [exact Hx | congruence]. }
  repeat split; try (apply Hrow; reflexivity).
Qed.

Lemma patched_movie_twice (r : MovieUpdateRequest) (m : MovieModel) :
  patched_movie r (patched_movie r m) = patched_movie r m.
Proof.
  unfold patched_movie, patched. cbn.
  destruct (is_set r "name"), (is_set r "date"), (is_set r "score"),
    (is_set r "overview"), (is_set r "status"), (is_set r "budget"),
    (is_set r "revenue"); reflexivity.
Qed.

(** X13.  PATCH is idempotent: sending the same payload to the same
    identifier a second time gives the same answer and leaves the store as
    the first one left it, on every store. *)
Theorem update_movie_idempotent (k : Z) (r : MovieUpdateRequest) (s : Store) :
  route_update_movie k r (snd (route_update_movie k r s))
  = (fst (route_update_movie k r s), snd (route_update_movie k r s)).
Proof.
  rewrite (route_update_movie_cases k r s).
  destruct (filter (fun x => movie_id x =? k) (movies s))
    as [|m [|m' l]] eqn:Hf; cbn [fst snd].
  - rewrite route_update_movie_cases, Hf. reflexivity.
  - destruct (filter_single_id _ _ _ Hf) as (Hk & Hin & Huniq).
    rewrite route_update_movie_cases. cbn [movies set_movies].
    rewrite Hk.
    rewrite (filter_map_replace (movies s) k (patched_movie r m) Hk), Hf.
    cbn [map]. change (movie_id (patched_movie r m)) with (movie_id m).
    rewrite Hk, patched_movie_twice. f_equal.
    unfold set_movies. cbn [countries genres actors languages]. f_equal.
    rewrite map_map. apply map_ext. intros x.
    destruct (Z.eqb_spec (movie_id x) k) as [E|E].
    + change (movie_id (patched_movie r m)) with (movie_id m).
      now rewrite Hk, Z.eqb_refl.
    + destruct (Z.eqb_spec (movie_id x) k); [contradiction | reflexivity].
  - rewrite route_update_movie_cases, Hf. reflexivity.
Qed.

Lemma patched_movie_unset (r : MovieUpdateRequest) (m : MovieModel) :
  model_fields_set r = [] -> patched_movie r m = m.
Proof.
  intros Hset. unfold patched_movie, patched, is_set. rewrite Hset. cbn.
  now destruct m.
Qed.

(** X14.  A payload that carries no field changes nothing: with an empty
    set of carried fields the store after the update route is the store
    before, for every store and identifier. *)
Theorem update_movie_empty_payload (k : Z) (r : MovieUpdateRequest)
  (s : Store) :
  model_fields_set r = [] ->
  snd (route_update_movie k r s) = s.
Proof.
  intros Hset. rewrite route_update_movie_cases.
  destruct (filter (fun x => movie_id x =? k) (movies s))
    as [|m [|m' l]] eqn:Hf; cbn [snd]; try reflexivity.
  destruct (filter_single_id _ _ _ Hf) as (Hk & Hin & Huniq).
  rewrite (patched_movie_unset r m Hset).
  assert (Hmap : map (fun x => if movie_id x =? movie_id m then m else x)
                   (movies s) = movies s).
  { rewrite <- (map_id (movies s)) at 2. apply map_ext_in. intros x Hx.
    destruct (Z.eqb_spec (movie_id x) (movie_id m)) as [E|_];
      [|reflexivity].
    symmetry. apply Huniq; [exact Hx | congruence]. }
  rewrite Hmap. now destruct s.
Qed.

Lemma patched_keeps_shape {A : Type} (r : MovieUpdateRequest) (key : string)
  (inj : A -> PyVal) (P : PyVal -> Prop) (field : option A) (old : PyVal) :
  (forall a, P (inj a)) ->
  P old ->
  (is_set r key = true -> field <> None) ->
  P (patched r key inj field old).
Proof.
  intros Hinj Hold Hset. unfold patched.
  destruct (is_set r key); [|exact Hold].
  destruct field as [a|]; [apply Hinj | now contradiction Hset].
Qed.

Lemma update_populated (k : Z) (r : MovieUpdateRequest)
  (s : Store) :
  populated (movies s) -> no_explicit_null r ->
  populated (movies (snd (route_update_movie k r s))).
Proof.
  intros Hpop (Hn & Hd & Hsc & Ho). rewrite route_update_movie_cases.
  destruct (filter (fun x => movie_id x =? k) (movies s))
    as [|m [|m' l]] eqn:Hf; cbn [snd]; try exact Hpop.
  destruct (filter_single_id _ _ _ Hf) as (Hk & Hin & Huniq).
  cbn [movies set_movies]. unfold populated in *.
  rewrite Forall_forall in *. intros x Hx. apply in_map_iff in Hx.
  destruct Hx as (y & <- & Hy).
  destruct (movie_id y =? movie_id m); [|now apply Hpop].
  destruct (Hpop m Hin) as (n & d & q & o & Hn0 & Hd0 & Hq0 & Ho0).
  assert (E1 : exists n', movie_name (patched_movie r m) = VStr n').
  { cbn [patched_movie movie_name].
    apply patched_keeps_shape;
      [intros a; now exists a | now exists n | exact Hn]. }
  assert (E2 : exists d', movie_date (patched_movie r m) = VDate d').
  { cbn [patched_movie movie_date].
    apply patched_keeps_shape;
      [intros a; now exists a | now exists d | exact Hd]. }
  assert (E3 : exists q',
             movie_score (patched_movie r m) = VFloat (Finite q')).
  { cbn [patched_movie movie_score].
    apply patched_keeps_shape;
      [intros a; now exists a | now exists q | exact Hsc]. }
  assert (E4 : exists o', movie_overview (patched_movie r m) = VStr o').
  { cbn [patched_movie movie_overview].
    apply patched_keeps_shape;
      [intros a; now exists a | now exists o | exact Ho]. }
  destruct E1 as [n' E1], E2 as [d' E2], E3 as [q' E3], E4 as [o' E4].
  now exists n', d', q', o'.
Qed.

(** X15.  A payload without an explicit null keeps the list route working:
    if the stored rows are populated and the payload carries none of name,
    date, score and overview with the value null, the rows are populated
    after the update route too, for every store and identifier. *)
Theorem update_movie_keeps_populated (k : Z) (r : MovieUpdateRequest)
  (s : Store) :
  populated (movies s) -> no_explicit_null r ->
  populated (movies (snd (route_update_movie k r s))).
Proof. apply update_populated. Qed.

(** ** Walking the pages of the list *)

Lemma flat_map_of_map {A B C : Type} (f : B -> list C) (g : A -> B)
  (l : list A) :
  flat_map f (map g l) = flat_map (fun x => f (g x)) l.
Proof. induction l as [|a l IH]; cbn; [reflexivity | now rewrite IH]. Qed.

Lemma map_of_flat_map {A B C : Type} (h : B -> C) (f : A -> list B)
  (l : list A) :
  map h (flat_map f l) = flat_map (fun x => map h (f x)) l.
Proof.
  induction l as [|a l IH]; cbn; [reflexivity|].
  now rewrite map_app, IH.
Qed.

Lemma flat_map_ext_on {A B : Type} (f g : A -> list B) (l : list A) :
  (forall a, In a l -> f a = g a) -> flat_map f l = flat_map g l.
Proof.
  induction l as [|a l IH]; intros H; cbn; [reflexivity|].
  rewrite (H a) by now left. f_equal. apply IH. intros x Hx. apply H.
  now right.
Qed.

(** Consecutive slices of length [n] put one after the other give back the
    list, once there are enough of them. *)
Lemma slices_cover {A : Type} (n : nat) :
  (1 <= n)%nat ->
  forall (k : nat) (l : list A),
    (length l <= k * n)%nat ->
    flat_map (fun i => firstn n (skipn (i * n) l)) (seq 0 k) = l.
Proof.
  intros Hn. induction k as [|k IH]; intros l Hlen.
  - destruct l; [reflexivity | cbn in Hlen; lia].
  - rewrite <- cons_seq, <- seq_shift. cbn [flat_map].
    rewrite flat_map_of_map. cbn [Nat.mul skipn].
    transitivity (firstn n l ++ skipn n l); [|apply firstn_skipn].
    f_equal.
    transitivity (flat_map (fun i => firstn n (skipn (i * n) (skipn n l)))
                    (seq 0 k)).
    + apply flat_map_ext_on. intros i _.
      rewrite skipn_skipn. do 2 f_equal. lia.
    + apply IH. rewrite length_skipn. lia.
Qed.


Lemma populated_slice (s : Store) (o n : Z) :
  populated (movies s) ->
  populated (offset_limit o n (order_by_id_desc (movies s))).
Proof.
  intros Hpop. apply Forall_forall. intros x Hx. unfold populated in Hpop.
  rewrite Forall_forall in Hpop. apply Hpop.
  apply (Permutation_in _ (order_by_id_desc_perm (movies s))).
  now apply (offset_limit_incl o n).
Qed.

(** On a populated store a page shows exactly the identifiers of its slice
    (none at all when the slice is empty). *)
Lemma page_ids_slice (request : Request) (page per_page : Z) (s : Store) :
  populated (movies s) -> 1 <= page -> 1 <= per_page <= 20 ->
  page_ids request page per_page s
  = map movie_id
      (offset_limit ((page - 1) * per_page) per_page
         (order_by_id_desc (movies s))).
Proof.
  intros Hpop Hp Hpp. unfold page_ids.
  rewrite (route_get_movies_list_cases request page per_page s
             (valid_query_true page per_page Hp Hpp)).
  destruct (Z.eqb_spec (Z.of_nat (length (movies s))) 0) as [E|_].
  { assert (Hm : movies s = [])
      by (destruct (movies s); [easy | cbn in E; lia]).
    rewrite Hm. unfold offset_limit. cbn.
    now rewrite skipn_nil, firstn_nil. }
  destruct (offset_limit ((page - 1) * per_page) per_page
              (order_by_id_desc (movies s))) as [|row rows] eqn:Erows;
    [reflexivity|].
  destruct (validate_all_ready (row :: rows)) as (items & Hitems & Hfin).
  { rewrite <- Erows. now apply populated_slice. }
  rewrite Hitems, render_json_finite by exact Hfin.
  cbn [fst body list_movies].
  now apply validate_all_ids.
Qed.

(** X16.  The pages partition the catalog: on a populated store, for any
    page size from 1 to 20, the identifiers shown on pages 1, 2, ...,
    [total_pages], put one after the other, are the identifiers of all the
    stored movies in descending order, each movie once. *)
Theorem list_pages_cover (request : Request) (per_page : Z) (s : Store) :
  populated (movies s) -> 1 <= per_page <= 20 ->
  flat_map (fun page => page_ids request page per_page s)
    (page_numbers (math_ceil_div (Z.of_nat (length (movies s))) per_page))
  = map movie_id (order_by_id_desc (movies s)).
Proof.
  intros Hpop Hpp. unfold page_numbers.
  pose proof (math_ceil_div_spec (Z.of_nat (length (movies s))) per_page
                ltac:(lia)) as Hceil.
  set (pages := math_ceil_div (Z.of_nat (length (movies s))) per_page) in *.
  rewrite <- seq_shift, map_map, flat_map_of_map.
  transitivity
    (map movie_id
       (flat_map
          (fun i => firstn (Z.to_nat per_page)
                      (skipn (i * Z.to_nat per_page)
                         (order_by_id_desc (movies s))))
          (seq 0 (Z.to_nat pages)))).
  - rewrite map_of_flat_map. apply flat_map_ext_on. intros i _.
    rewrite page_ids_slice by (try assumption; lia).
    unfold offset_limit. do 3 f_equal. nia.
  - f_equal. apply slices_cover; [lia|].
    rewrite order_by_id_desc_length. nia.
Qed.

(** X17.  [total_pages] is the number of the last page: on a populated
    store, for [page >= 1] and a page size from 1 to 20, the list route
    answers 200 exactly when [page] is at most the ceiling of the number of
    movies over the page size, and 404 exactly when it is beyond. *)
Theorem list_ok_iff_page_in_range (request : Request) (page per_page : Z)
  (s : Store) :
  populated (movies s) -> 1 <= page -> 1 <= per_page <= 20 ->
  (status_code (fst (route_get_movies_list request page per_page s))
   = HTTP_200_OK
   <-> page <= math_ceil_div (Z.of_nat (length (movies s))) per_page)
  /\ (status_code (fst (route_get_movies_list request page per_page s))
      = HTTP_404_NOT_FOUND
      <-> math_ceil_div (Z.of_nat (length (movies s))) per_page < page).
Proof.
  intros Hpop Hp Hpp.
  pose proof (math_ceil_div_spec (Z.of_nat (length (movies s))) per_page
                ltac:(lia)) as Hceil.
  rewrite (route_get_movies_list_cases request page per_page s
             (valid_query_true page per_page Hp Hpp)).
  set (pages := math_ceil_div (Z.of_nat (length (movies s))) per_page) in *.
  destruct (Z.eqb_spec (Z.of_nat (length (movies s))) 0) as [E|E].
  { cbn [fst status_code]. assert (pages <= 0) by nia.
    split; split; intros H0; try discriminate; try reflexivity; lia. }
  pose proof (offset_limit_nil ((page - 1) * per_page) per_page
                (order_by_id_desc (movies s)) ltac:(nia) ltac:(lia)) as Hnil.
  rewrite order_by_id_desc_length in Hnil.
  destruct (offset_limit ((page - 1) * per_page) per_page
              (order_by_id_desc (movies s))) as [|row rows] eqn:Erows.
  { cbn [fst status_code].
    assert (Hlen : Z.of_nat (length (movies s)) <= (page - 1) * per_page)
      by now apply Hnil.
    assert (pages < page) by nia.
    split; split; intros H0; try discriminate; try reflexivity; lia. }
  assert (Hlen : ~ Z.of_nat (length (movies s)) <= (page - 1) * per_page).
  { intros H. apply Hnil in H. discriminate. }
  assert (page <= pages) by nia.
  destruct (validate_all_ready (row :: rows)) as (items & Hitems & Hfin).
  { rewrite <- Erows. now apply populated_slice. }
  rewrite Hitems, render_json_finite by exact Hfin.
  cbn [fst status_code].
  split; split; intros H0; try discriminate; try reflexivity; lia.
Qed.

(** ** More on how the routes compose *)

(** X18.  On every store the create route answers 409 exactly when exactly
    one stored movie has the name and the release date of the request; with
    two or more such rows the lookup itself fails and the answer is 500. *)
Theorem create_movie_conflict_iff_one_row (movie_data : MovieCreateRequest)
  (s : Store) :
  (status_code (fst (serve_create_movie movie_data s)) = HTTP_409_CONFLICT
   <-> exists x,
         filter (name_date_is (req_name movie_data) (req_date movie_data))
           (movies s) = [x])
  /\ ((2 <= length (filter (name_date_is (req_name movie_data)
                              (req_date movie_data)) (movies s)))%nat ->
      serve_create_movie movie_data s = (server_error, s)).
Proof.
  destruct (serve_create_movie movie_data s) as [resp s'] eqn:Hserve.
  cbn [fst].
  destruct (serve_create_movie_outcome movie_data s resp s' Hserve)
    as [[-> [[-> Hx] | [-> Hx]]]
       |(m & c & c' & gs & acs & ls & -> & _ & _ & _ & Hf & _)].
  - split; [split; [intros _; exact Hx | reflexivity]|].
    destruct Hx as [x ->]. cbn. lia.
  - split; [|reflexivity].
    split; [discriminate | intros [x Ex]; now contradiction (Hx x)].
  - rewrite Hf. split; [|cbn; lia].
    split; [|intros [x Ex]; discriminate].
    unfold render_json.
    match goal with
    | |- context [forallb ?f ?l] => destruct (forallb f l)
    end; discriminate.
Qed.

Lemma route_get_movies_list_store (request : Request) (page per_page : Z)
  (s : Store) :
  snd (route_get_movies_list request page per_page s) = s.
Proof.
  destruct (valid_query page per_page) eqn:Hv.
  - rewrite (route_get_movies_list_cases request page per_page s Hv).
    destruct (Z.of_nat (length (movies s)) =? 0); [reflexivity|].
    destruct (offset_limit ((page - 1) * per_page) per_page
                (order_by_id_desc (movies s))); [reflexivity|].
    match goal with
    | |- context [validate_all ?f ?l] => destruct (validate_all f l)
    end; reflexivity.
  - unfold route_get_movies_list. now rewrite Hv.
Qed.

(** X23.  No route breaks the lookup keys: on a store where country codes
    and the names of genres, actors and languages are unique, they are
    still unique after the create, delete and update routes, whatever the
    request and the answer, and the two read routes leave the store as it
    is.  So every store built from the empty one through the routes has
    unique lookup keys. *)
Theorem routes_keep_lookup_keys (s : Store) :
  unique_lookup_keys s ->
  (forall movie_data,
      unique_lookup_keys (snd (serve_create_movie movie_data s)))
  /\ (forall k, unique_lookup_keys (snd (route_delete_movie k s)))
  /\ (forall k r, unique_lookup_keys (snd (route_update_movie k r s)))
  /\ (forall k, snd (route_get_movie_details k s) = s)
  /\ (forall request page per_page,
        snd (route_get_movies_list request page per_page s) = s).
Proof.
  intros [Hcodes Hnames]. split; [|split; [|split; [|split]]].
  - intros movie_data.
    destruct (serve_create_movie movie_data s) as [resp s'] eqn:Hserve.
    cbn [snd].
    destruct (serve_create_movie_outcome movie_data s resp s' Hserve)
      as [[-> _]
         |(m & c & c' & gs & acs & ls & _ & _ & _ & _ & _ & _ & _ & Hk & Ht
           & _)].
    + now split.
    + split.
      * destruct Hk as [[-> _]|(Hno & Ec & ->)]; [exact Hcodes|].
        unfold unique_codes. rewrite map_app. cbn.
        apply NoDup_snoc; [exact Hcodes|].
        intros Hin. apply in_map_iff in Hin. destruct Hin as (c0 & E & Hc0).
        apply (Hno c0 Hc0). rewrite E, Ec. reflexivity.
      * intros model. destruct (Ht model) as (extra & -> & Hex & Hnd & _).
        apply unique_names_app; [apply Hnames | exact Hnd|].
        intros r Hr. now apply Hex.
  - intros k. rewrite route_delete_movie_cases.
    destruct (filter (fun x => movie_id x =? k) (movies s)) as [|m [|m' l]];
      cbn [snd]; now split.
  - intros k r. rewrite route_update_movie_cases.
    destruct (filter (fun x => movie_id x =? k) (movies s)) as [|m [|m' l]];
      cbn [snd]; now split.
  - intros k. rewrite route_get_movie_details_cases.
    destruct (filter (fun x => movie_id x =? k) (movies s)) as [|m [|m' l]];
      reflexivity.
  - intros request page per_page. apply route_get_movies_list_store.
Qed.

(** X19.  Deleting twice: when the delete route answers 204, the same
    request sent again is answered 404 and changes nothing, on every
    store. *)
Theorem delete_movie_twice (k : Z) (s : Store) :
  status_code (fst (route_delete_movie k s)) = HTTP_204_NO_CONTENT ->
  route_delete_movie k (snd (route_delete_movie k s))
  = (mkResponse HTTP_404_NOT_FOUND ErrorBody, snd (route_delete_movie k s)).
Proof.
  rewrite (route_delete_movie_cases k s).
  destruct (filter (fun x => movie_id x =? k) (movies s))
    as [|m [|m' l]] eqn:Hf; cbn [fst snd status_code server_error];
    try discriminate.
  intros _. destruct (filter_single_id _ _ _ Hf) as (Hk & _ & _).
  rewrite route_delete_movie_cases. cbn [movies set_movies].
  rewrite Hk.
  rewrite (filter_key_absent movie_id Z.eqb Z.eqb_eq _ k); [reflexivity|].
  intros x Hx E. apply filter_In in Hx. destruct Hx as [_ Hx].
  apply Z.eqb_eq in E. rewrite E in Hx. discriminate.
Qed.

Lemma insert_desc_map (g : MovieModel -> MovieModel) (m : MovieModel)
  (l : list MovieModel) :
  (forall x, movie_id (g x) = movie_id x) ->
  insert_desc (g m) (map g l) = map g (insert_desc m l).
Proof.
  intros Hg. induction l as [|a l IH]; [reflexivity|]. cbn.
  rewrite !Hg. destruct (movie_id a <=? movie_id m); [reflexivity|].
  cbn. now rewrite IH.
Qed.

Lemma order_by_id_desc_map (g : MovieModel -> MovieModel)
  (l : list MovieModel) :
  (forall x, movie_id (g x) = movie_id x) ->
  order_by_id_desc (map g l) = map g (order_by_id_desc l).
Proof.
  intros Hg. induction l as [|a l IH]; [reflexivity|].
  cbn [map order_by_id_desc fold_right].
  fold (order_by_id_desc (map g l)). fold (order_by_id_desc l).
  rewrite IH. now apply insert_desc_map.
Qed.

(** X20.  An update never moves a movie in the list: on a populated store,
    for a payload without an explicit null, every page of the list shows
    the same identifiers in the same order after the update route as
    before, for every identifier and valid page and page size. *)
Theorem update_movie_keeps_list_order (k : Z) (r : MovieUpdateRequest)
  (s : Store) (request : Request) (page per_page : Z) :
  populated (movies s) -> no_explicit_null r ->
  1 <= page -> 1 <= per_page <= 20 ->
  page_ids request page per_page (snd (route_update_movie k r s))
  = page_ids request page per_page s.
Proof.
  intros Hpop Hnull Hp Hpp.
  rewrite (page_ids_slice request page per_page
             (snd (route_update_movie k r s))
             (update_populated k r s Hpop Hnull) Hp Hpp).
  rewrite (page_ids_slice request page per_page s Hpop Hp Hpp).
  rewrite route_update_movie_cases.
  destruct (filter (fun x => movie_id x =? k) (movies s))
    as [|m [|m' l]] eqn:Hf; cbn [snd]; try reflexivity.
  cbn [movies set_movies].
  rewrite order_by_id_desc_map.
  - unfold offset_limit. rewrite skipn_map, firstn_map, map_map.
    apply map_ext. intros x.
    destruct (Z.eqb_spec (movie_id x) (movie_id m)) as [E|_];
      [now rewrite E | reflexivity].
  - intros x. destruct (Z.eqb_spec (movie_id x) (movie_id m)) as [E|_];
      [now rewrite E | reflexivity].
Qed.

(* ================================================================= *)
(** ** The further results on the sample data *)

Ltac sample_populated :=
  unfold populated, list_ready; cbn;
  repeat (constructor; [repeat eexists|]); constructor.

Lemma create_movie_conflict_witness :
  (exists d s',
      serve_create_movie arrival_request one_movie
      = (mkResponse HTTP_201_CREATED (DetailBody d), s')
      /\ detail_name d = "Arrival"
      /\ detail_date d = 736279
      /\ has_movie "Arrival" 736279 s'
      /\ forall other,
           req_name other = "Arrival" -> req_date other = 736279 ->
           serve_create_movie other s'
           = (mkResponse HTTP_409_CONFLICT ErrorBody, s'))
  /\ serve_create_movie dune_request one_movie
     = (mkResponse HTTP_409_CONFLICT ErrorBody, one_movie).
Proof.
  split.
  - destruct (create_movie_conflict arrival_request one_movie)
      as (_ & Hlater & Hfresh).
    destruct Hfresh as (d & s' & Hrun & Hn & Hd & Hhas).
    + intros (m & Hin & Hm & _).
      destruct Hin as [<-|[]]. discriminate Hm.
    + unfold unique_codes. singleton_nodup.
    + intros []; unfold unique_names; singleton_nodup.
    + reflexivity.
    + reflexivity.
    + exists d, s'. split; [exact Hrun|]. split; [exact Hn|].
      split; [exact Hd|]. split; [exact Hhas|].
      apply (Hlater _ _ Hrun). reflexivity.
  - apply (create_movie_conflict dune_request one_movie).
    now exists dune_row.
Defined.

(** C2, as first stated, fails in both of its parts.  A body whose budget is
    an infinity passes validation; on the empty store, where no movie has
    its name and date, the row is stored and the answer is 500, not 201.
    And after a PATCH has given the second of two movies the name and date
    of the first (answered 200), a create with that name and date finds two
    rows and is answered 500, not 409. *)
Lemma create_movie_neither_conflict_nor_created :
  (MovieCreateRequest_validate sample_today endless_budget_raw
   = Some endless_budget_request
   /\ ~ has_movie (req_name endless_budget_request)
         (req_date endless_budget_request) empty_store
   /\ exists s',
        route_create_movie sample_today endless_budget_raw empty_store
        = (mkResponse HTTP_500_INTERNAL_SERVER_ERROR ErrorBody, s')
        /\ has_movie (req_name endless_budget_request)
             (req_date endless_budget_request) s')
  /\ (route_update_movie 2 same_as_dune two_movies
      = (mkResponse HTTP_200_OK
           (UpdateBody (mkUpdateResponse "Movie updated successfully.")),
         twin_movies)
      /\ has_movie (req_name dune_request) (req_date dune_request)
           twin_movies
      /\ serve_create_movie dune_request twin_movies
         = (mkResponse HTTP_500_INTERNAL_SERVER_ERROR ErrorBody,
            twin_movies)).
Proof.
  split.
  - split; [reflexivity|]. split.
    + intros (m & [] & _).
    + eexists. split; [reflexivity|].
      eexists. split; [left; reflexivity | split; reflexivity].
  - split; [reflexivity|]. split; [|reflexivity].
    exists dune_row. split; [left; reflexivity | split; reflexivity].
Qed.


Lemma create_then_details_witness :
  (serve_create_movie arrival_request one_movie
   = (fst (serve_create_movie arrival_request one_movie), two_movies)
   /\ status_code (fst (serve_create_movie arrival_request one_movie))
      = HTTP_201_CREATED)
  /\ exists d,
       body (fst (serve_create_movie arrival_request one_movie))
       = DetailBody d
       /\ route_get_movie_details (detail_id d) two_movies
          = (mkResponse HTTP_200_OK (DetailBody d), two_movies).
Proof.
  split; [split; reflexivity|].
  apply (create_then_details arrival_request one_movie
           (fst (serve_create_movie arrival_request one_movie)) two_movies);
    reflexivity.
Defined.

Lemma create_then_list_first_witness :
  (populated (movies one_movie) /\ 1 <= 10 <= 20
   /\ serve_create_movie arrival_request one_movie
      = (fst (serve_create_movie arrival_request one_movie), two_movies)
   /\ status_code (fst (serve_create_movie arrival_request one_movie))
      = HTTP_201_CREATED)
  /\ exists d r item rest,
       body (fst (serve_create_movie arrival_request one_movie))
       = DetailBody d
       /\ route_get_movies_list request_at_literal 1 10 two_movies
          = (mkResponse HTTP_200_OK (ListBody r), two_movies)
       /\ list_movies r = item :: rest
       /\ short_id item = detail_id d
       /\ short_name item = detail_name d
       /\ short_date item = detail_date d
       /\ short_score item = detail_score d
       /\ short_overview item = detail_overview d
       /\ prev_page r = None
       /\ total_items r = Z.of_nat (length (movies one_movie)) + 1.
Proof.
  assert (Hpop : populated (movies one_movie)) by sample_populated.
  split; [split; [exact Hpop | split; [lia | split; reflexivity]]|].
  apply (create_then_list_first arrival_request one_movie
           (fst (serve_create_movie arrival_request one_movie)) two_movies
           request_at_literal 10 Hpop);
    [lia | reflexivity | reflexivity].
Defined.

Lemma create_then_delete_witness :
  (serve_create_movie arrival_request one_movie
   = (fst (serve_create_movie arrival_request one_movie), two_movies)
   /\ status_code (fst (serve_create_movie arrival_request one_movie))
      = HTTP_201_CREATED)
  /\ exists d s'',
       body (fst (serve_create_movie arrival_request one_movie))
       = DetailBody d
       /\ route_delete_movie (detail_id d) two_movies
          = (mkResponse HTTP_204_NO_CONTENT NoBody, s'')
       /\ movies s'' = movies one_movie
       /\ countries s'' = countries two_movies
       /\ (forall model, table model s'' = table model two_movies).
Proof.
  split; [split; reflexivity|].
  apply (create_then_delete arrival_request one_movie
           (fst (serve_create_movie arrival_request one_movie)) two_movies);
    reflexivity.
Defined.

Lemma create_detail_echoes_request_witness :
  (unique_related_ids one_movie
   /\ (forall model, unique_names (table model one_movie))
   /\ serve_create_movie arrival_request one_movie
      = (fst (serve_create_movie arrival_request one_movie), two_movies)
   /\ status_code (fst (serve_create_movie arrival_request one_movie))
      = HTTP_201_CREATED)
  /\ exists d,
       body (fst (serve_create_movie arrival_request one_movie))
       = DetailBody d
       /\ detail_name d = req_name arrival_request
       /\ detail_date d = req_date arrival_request
       /\ detail_score d = Finite (req_score arrival_request)
       /\ detail_overview d = req_overview arrival_request
       /\ detail_status d = value (req_status arrival_request)
       /\ MovieStatusEnum_validate (detail_status d)
          = Some (req_status arrival_request)
       /\ detail_budget d = req_budget arrival_request
       /\ detail_revenue d = req_revenue arrival_request
       /\ cs_code (detail_country d) = req_country arrival_request
       /\ (forall n, In n (map ns_name (detail_genres d))
                     <-> In n (req_genres arrival_request))
       /\ (forall n, In n (map ns_name (detail_actors d))
                     <-> In n (req_actors arrival_request))
       /\ (forall n, In n (map ns_name (detail_languages d))
                     <-> In n (req_languages arrival_request))
       /\ NoDup (map ns_name (detail_genres d))
       /\ NoDup (map ns_name (detail_actors d))
       /\ NoDup (map ns_name (detail_languages d))
       /\ unique_related_ids two_movies
       /\ (forall model, unique_names (table model two_movies)).
Proof.
  assert (Hu : unique_related_ids one_movie)
    by (split; [singleton_nodup | intros []; singleton_nodup]).
  assert (Hn : forall model, unique_names (table model one_movie))
    by (intros []; unfold unique_names; singleton_nodup).
  split; [split; [exact Hu | split; [exact Hn | split; reflexivity]]|].
  apply (create_detail_echoes_request arrival_request one_movie
           (fst (serve_create_movie arrival_request one_movie)) two_movies
           Hu Hn);
    reflexivity.
Defined.

Lemma create_movie_country_by_code_witness :
  (serve_create_movie dune_request empty_store
   = (fst (serve_create_movie dune_request empty_store), one_movie)
   /\ status_code (fst (serve_create_movie dune_request empty_store))
      = HTTP_201_CREATED)
  /\ (((exists c, In c (countries empty_store)
                  /\ country_code c = req_country dune_request)
       /\ countries one_movie = countries empty_store)
      \/ ((forall c, In c (countries empty_store) ->
             country_code c <> req_country dune_request)
          /\ countries one_movie
             = countries empty_store
               ++ [mkCountry (next_id (map country_id (countries empty_store)))
                     (req_country dune_request) None]
          /\ ~ In (next_id (map country_id (countries empty_store)))
               (map country_id (countries empty_store)))).
Proof.
  split; [split; reflexivity|].
  apply (create_movie_country_by_code dune_request empty_store
           (fst (serve_create_movie dune_request empty_store)) one_movie);
    reflexivity.
Defined.

Lemma delete_movie_keeps_integrity_witness :
  Integrity one_movie
  /\ Integrity (snd (route_delete_movie 1 one_movie))
  /\ (populated (movies one_movie) ->
      populated (movies (snd (route_delete_movie 1 one_movie)))).
Proof.
  assert (H : Integrity one_movie).
  { constructor.
    - unfold unique_ids. singleton_nodup.
    - intros name date. cbn.
      destruct (name_date_is name date _); cbn; lia.
    - unfold unique_codes. singleton_nodup.
    - intros []; unfold unique_names; singleton_nodup. }
  split; [exact H | apply (delete_movie_keeps_integrity 1 one_movie H)].
Defined.

Lemma delete_movie_leaves_others_witness :
  2 <> 1
  /\ fst (route_get_movie_details 2 (snd (route_delete_movie 1 two_movies)))
     = fst (route_get_movie_details 2 two_movies).
Proof.
  split; [lia | apply (delete_movie_leaves_others 1 2 two_movies); lia].
Defined.

Lemma update_movie_empty_payload_witness :
  model_fields_set empty_payload = []
  /\ snd (route_update_movie 1 empty_payload two_movies) = two_movies.
Proof.
  split; [reflexivity|].
  apply (update_movie_empty_payload 1 empty_payload two_movies).
  reflexivity.
Defined.

Lemma update_movie_keeps_populated_witness :
  (populated (movies two_movies) /\ no_explicit_null rename_payload)
  /\ populated (movies (snd (route_update_movie 1 rename_payload two_movies))).
Proof.
  assert (Hpop : populated (movies two_movies)) by sample_populated.
  assert (Hnull : no_explicit_null rename_payload)
    by (unfold no_explicit_null; cbn; repeat split; discriminate).
  split; [now split|].
  apply (update_movie_keeps_populated 1 rename_payload two_movies Hpop Hnull).
Defined.

Lemma list_pages_cover_witness :
  (populated (movies two_movies) /\ 1 <= 1 <= 20)
  /\ flat_map (fun page => page_ids request_at_literal page 1 two_movies)
       (page_numbers
          (math_ceil_div (Z.of_nat (length (movies two_movies))) 1))
     = map movie_id (order_by_id_desc (movies two_movies)).
Proof.
  assert (Hpop : populated (movies two_movies)) by sample_populated.
  split; [split; [exact Hpop | lia]|].
  apply (list_pages_cover request_at_literal 1 two_movies Hpop). lia.
Defined.

Lemma list_ok_iff_page_in_range_witness :
  (populated (movies two_movies) /\ 1 <= 2 /\ 1 <= 1 <= 20)
  /\ (status_code (fst (route_get_movies_list request_at_literal 2 1
                         two_movies))
      = HTTP_200_OK
      <-> 2 <= math_ceil_div (Z.of_nat (length (movies two_movies))) 1)
  /\ (status_code (fst (route_get_movies_list request_at_literal 2 1
                          two_movies))
      = HTTP_404_NOT_FOUND
      <-> math_ceil_div (Z.of_nat (length (movies two_movies))) 1 < 2).
Proof.
  assert (Hpop : populated (movies two_movies)) by sample_populated.
  split; [split; [exact Hpop | lia]|].
  apply (list_ok_iff_page_in_range request_at_literal 2 1 two_movies Hpop);
    lia.
Defined.

Lemma delete_movie_twice_witness :
  status_code (fst (route_delete_movie 1 two_movies)) = HTTP_204_NO_CONTENT
  /\ route_delete_movie 1 (snd (route_delete_movie 1 two_movies))
     = (mkResponse HTTP_404_NOT_FOUND ErrorBody,
        snd (route_delete_movie 1 two_movies)).
Proof.
  split; [reflexivity|].
  apply (delete_movie_twice 1 two_movies). reflexivity.
Defined.

Lemma update_movie_keeps_list_order_witness :
  (populated (movies two_movies) /\ no_explicit_null rename_payload
   /\ 1 <= 1 /\ 1 <= 1 <= 20)
  /\ page_ids request_at_literal 1 1
       (snd (route_update_movie 1 rename_payload two_movies))
     = page_ids request_at_literal 1 1 two_movies.
Proof.
  assert (Hpop : populated (movies two_movies)) by sample_populated.
  assert (Hnull : no_explicit_null rename_payload)
    by (unfold no_explicit_null; cbn; repeat split; discriminate).
  split; [split; [exact Hpop | split; [exact Hnull | lia]]|].
  apply (update_movie_keeps_list_order 1 rename_payload two_movies
           request_at_literal 1 1 Hpop Hnull); lia.
Defined.

Lemma routes_keep_lookup_keys_witness :
  unique_lookup_keys one_movie
  /\ unique_lookup_keys (snd (serve_create_movie arrival_request one_movie))
  /\ unique_lookup_keys (snd (route_delete_movie 1 one_movie))
  /\ unique_lookup_keys (snd (route_update_movie 1 rename_payload one_movie))
  /\ snd (route_get_movie_details 1 one_movie) = one_movie
  /\ snd (route_get_movies_list request_at_literal 1 1 one_movie)
     = one_movie.
Proof.
  assert (H : unique_lookup_keys one_movie).
  { split; [unfold unique_codes; singleton_nodup|].
    intros []; unfold unique_names; singleton_nodup. }
  split; [exact H|].
  destruct (routes_keep_lookup_keys one_movie H)
    as (Hc & Hd & Hu & Hg & Hl).
  split; [apply Hc|]. split; [apply Hd|]. split; [apply Hu|].
  split; [apply Hg | apply Hl].
Defined.

(* ================================================================= *)
(** * Validating the body of a PATCH request *)

Lemma validate_optional_check_if {A : Type} (p : A -> bool)
  (f : JsonField A) (v : option A) :
  validate_optional (check_if p) f = Some v
  <-> given_ok (fun a => p a = true) f /\ v = given_value f.
Proof.
  unfold given_ok, check_if. destruct f as [| |a]; cbn.
  - split; [intros H; injection H as <-; split; [discriminate | reflexivity]
           | intros [_ ->]; reflexivity].
  - split; [intros H; injection H as <-; split; [discriminate | reflexivity]
           | intros [_ ->]; reflexivity].
  - destruct (p a) eqn:E.
    + split.
      * intros H. injection H as <-. split; [|reflexivity].
        intros b Hb. injection Hb as <-. exact E.
      * intros [_ ->]. reflexivity.
    + split; [discriminate|]. intros [H _].
      specialize (H a eq_refl). congruence.
Qed.

Lemma validate_optional_any {A : Type} (f : JsonField A) :
  validate_optional Some f = Some (given_value f).
Proof. now destruct f. Qed.

Lemma value_injective (e e' : MovieStatusEnum) : value e = value e' -> e = e'.
Proof. destruct e, e'; cbn; intros H; try reflexivity; discriminate. Qed.

Lemma validate_optional_status (f : JsonField string)
  (v : option MovieStatusEnum) :
  validate_optional MovieStatusEnum_validate f = Some v
  <-> given_ok (fun s => exists e, s = value e) f
      /\ option_map value v = given_value f.
Proof.
  unfold given_ok. destruct f as [| |s]; cbn.
  - split; [intros H; injection H as <-; split; [discriminate | reflexivity]|].
    intros [_ H]. destruct v; [discriminate | reflexivity].
  - split; [intros H; injection H as <-; split; [discriminate | reflexivity]|].
    intros [_ H]. destruct v; [discriminate | reflexivity].
  - destruct (MovieStatusEnum_validate s) as [e|] eqn:E.
    + apply MovieStatusEnum_validate_some in E. split.
      * intros H. injection H as <-. split; [|cbn; now rewrite E].
        intros b Hb. injection Hb as <-. now exists e.
      * intros [_ H]. destruct v as [e'|]; [|discriminate].
        cbn in H. injection H as H. rewrite E in H.
        apply value_injective in H. now subst.
    + split; [discriminate|]. intros [H _].
      destruct (H s eq_refl) as [e He].
      apply MovieStatusEnum_validate_some in He. congruence.
Qed.

Lemma validate_optional_ge (f : JsonField PyFloat) (v : option PyFloat) :
  validate_optional (confloat_ge 0) f = Some v
  <-> given_ok (float_le (Finite 0)) f /\ v = given_value f.
Proof.
  unfold given_ok. destruct f as [| |x]; cbn [validate_optional given_value].
  - split; [intros H; injection H as <-; split; [discriminate | reflexivity]
           | intros [_ ->]; reflexivity].
  - split; [intros H; injection H as <-; split; [discriminate | reflexivity]
           | intros [_ ->]; reflexivity].
  - destruct (confloat_ge 0 x) as [y|] eqn:E.
    + apply confloat_ge_some in E. destruct E as [Hle ->]. split.
      * intros H. injection H as <-. split; [|reflexivity].
        intros b Hb. now injection Hb as <-.
      * now intros [_ ->].
    + split; [discriminate|]. intros [H _]. specialize (H x eq_refl).
      rewrite (proj2 (confloat_ge_some 0 x x)) in E by now split.
      discriminate.
Qed.

Lemma validate_optional_ge_le (f : JsonField PyFloat) (v : option Q) :
  validate_optional (confloat_ge_le 0 100) f = Some v
  <-> given_ok (fun x => float_le (Finite 0) x /\ float_le x (Finite 100)) f
      /\ option_map Finite v = given_value f.
Proof.
  unfold given_ok. destruct f as [| |x]; cbn [validate_optional given_value].
  - split; [intros H; injection H as <-; split; [discriminate | reflexivity]|].
    intros [_ H]. destruct v; [discriminate | reflexivity].
  - split; [intros H; injection H as <-; split; [discriminate | reflexivity]|].
    intros [_ H]. destruct v; [discriminate | reflexivity].
  - destruct (confloat_ge_le 0 100 x) as [q|] eqn:E.
    + apply confloat_ge_le_some in E. destruct E as (H0 & H1 & ->). split.
      * intros H. injection H as <-. split; [|reflexivity].
        intros b Hb. injection Hb as <-. now split.
      * intros [_ H]. destruct v as [q'|]; [|discriminate].
        cbn in H. now injection H as ->.
    + split; [discriminate|]. intros [H Hv].
      destruct (H x eq_refl) as [H0 H1].
      destruct v as [q|]; [|discriminate]. cbn in Hv. injection Hv as <-.
      rewrite (proj2 (confloat_ge_le_some 0 100 (Finite q) q)) in E
        by now repeat split.
      discriminate.
Qed.

Lemma is_set_fields_set_of (raw : RawUpdateRequest)
  (n : option string) (d : option Z) (sc : option Q) (o : option string)
  (st : option MovieStatusEnum) (b rv : option PyFloat) :
  let r := mkUpdate n d sc o st b rv (fields_set_of raw) in
  is_set r "name" = is_present (rawu_name raw)
  /\ is_set r "date" = is_present (rawu_date raw)
  /\ is_set r "score" = is_present (rawu_score raw)
  /\ is_set r "overview" = is_present (rawu_overview raw)
  /\ is_set r "status" = is_present (rawu_status raw)
  /\ is_set r "budget" = is_present (rawu_budget raw)
  /\ is_set r "revenue" = is_present (rawu_revenue raw).
Proof.
  unfold is_set, fields_set_of. cbn [model_fields_set filter snd].
  destruct (is_present (rawu_name raw)), (is_present (rawu_date raw)),
    (is_present (rawu_score raw)), (is_present (rawu_overview raw)),
    (is_present (rawu_status raw)), (is_present (rawu_budget raw)),
    (is_present (rawu_revenue raw)); cbn; repeat split.
Qed.

(** A body passes exactly when the given values are within the bounds; the
    validated request then holds the given values and the carried keys. *)
Lemma MovieUpdateRequest_validate_some (raw : RawUpdateRequest)
  (r : MovieUpdateRequest) :
  MovieUpdateRequest_validate raw = Some r
  <-> update_within_bounds raw
      /\ exists st sc,
           option_map value st = given_value (rawu_status raw)
           /\ option_map Finite sc = given_value (rawu_score raw)
           /\ r = mkUpdate (given_value (rawu_name raw))
                    (given_value (rawu_date raw)) sc
                    (given_value (rawu_overview raw)) st
                    (given_value (rawu_budget raw))
                    (given_value (rawu_revenue raw)) (fields_set_of raw).
Proof.
  unfold MovieUpdateRequest_validate, update_within_bounds.
  rewrite !validate_optional_any.
  assert (Bn : forall f : JsonField string,
             given_ok (fun s => constr_max_length 255 s = true) f
             <-> given_ok (fun s => (String.length s <= 255)%nat) f).
  { intros f. unfold given_ok. split; intros H a Ha; specialize (H a Ha);
      now apply (constr_max_length_true 255). }
  split.
  - destruct (validate_optional (check_if (constr_max_length 255))
                (rawu_name raw)) as [n|] eqn:En; [|discriminate].
    destruct (validate_optional (confloat_ge_le 0 100) (rawu_score raw))
      as [sc|] eqn:Es; [|discriminate].
    destruct (validate_optional MovieStatusEnum_validate (rawu_status raw))
      as [st|] eqn:Et; [|discriminate].
    destruct (validate_optional (confloat_ge 0) (rawu_budget raw))
      as [b|] eqn:Eb; [|discriminate].
    destruct (validate_optional (confloat_ge 0) (rawu_revenue raw))
      as [rv|] eqn:Er; [|discriminate].
    intros H. injection H as <-.
    apply validate_optional_check_if in En.
    apply validate_optional_ge_le in Es.
    apply validate_optional_ge in Eb, Er.
    apply validate_optional_status in Et.
    destruct En as [En ->], Es as [Es Esc], Et as [Et Ev], Eb as [Eb ->],
      Er as [Er ->].
    split.
    + split; [now apply Bn|]. split; [exact Es|].
      split; [exact Et|]. now split.
    + exists st, sc. now repeat split.
  - intros [(Pn & Ps & Pt & Pb & Pr) (st & sc & Ev & Esc & ->)].
    rewrite (proj2 (validate_optional_check_if _ _ _)
               (conj (proj2 (Bn _) Pn) eq_refl)).
    rewrite (proj2 (validate_optional_ge_le _ sc) (conj Ps Esc)).
    rewrite (proj2 (validate_optional_status _ st) (conj Pt Ev)).
    rewrite (proj2 (validate_optional_ge (rawu_budget raw) _)
               (conj Pb eq_refl)).
    rewrite (proj2 (validate_optional_ge (rawu_revenue raw) _)
               (conj Pr eq_refl)).
    reflexivity.
Qed.

(** X21.  The body of a PATCH request is rejected, with 422 and the store
    untouched, exactly when a value it gives breaks a bound: a name longer
    than 255 characters, a score outside 0..100, a status that is not an
    enumerated value, a negative budget or revenue.  Absent keys and nulls
    always pass, and no calendar date is rejected.  A body that passes reaches
    the handler with the given values, null or absent as [None], and with
    exactly the carried keys marked as set. *)
Theorem update_request_validation (k : Z) (raw : RawUpdateRequest)
  (s : Store) :
  (MovieUpdateRequest_validate raw = None <-> ~ update_within_bounds raw)
  /\ (MovieUpdateRequest_validate raw = None ->
      route_update_movie_body k raw s = (unprocessable, s))
  /\ (forall r,
        MovieUpdateRequest_validate raw = Some r ->
        route_update_movie_body k raw s = route_update_movie k r s
        /\ upd_name r = given_value (rawu_name raw)
        /\ upd_date r = given_value (rawu_date raw)
        /\ option_map Finite (upd_score r) = given_value (rawu_score raw)
        /\ upd_overview r = given_value (rawu_overview raw)
        /\ option_map value (upd_status r) = given_value (rawu_status raw)
        /\ upd_budget r = given_value (rawu_budget raw)
        /\ upd_revenue r = given_value (rawu_revenue raw)
        /\ is_set r "name" = is_present (rawu_name raw)
        /\ is_set r "date" = is_present (rawu_date raw)
        /\ is_set r "score" = is_present (rawu_score raw)
        /\ is_set r "overview" = is_present (rawu_overview raw)
        /\ is_set r "status" = is_present (rawu_status raw)
        /\ is_set r "budget" = is_present (rawu_budget raw)
        /\ is_set r "revenue" = is_present (rawu_revenue raw)).
Proof.
  split; [|split].
  - split.
    + intros Hnone Hok.
      assert (Hst : exists st,
                 option_map value st = given_value (rawu_status raw)).
      { destruct Hok as (_ & _ & Pt & _). unfold given_ok in Pt.
        destruct (rawu_status raw) as [| |x]; cbn.
        - now exists None.
        - now exists None.
        - destruct (Pt x eq_refl) as [e ->]. now exists (Some e). }
      destruct Hst as [st Hst].
      assert (Hsc : exists sc,
                 option_map Finite sc = given_value (rawu_score raw)).
      { destruct Hok as (_ & Ps & _). unfold given_ok in Ps.
        destruct (rawu_score raw) as [| |x]; cbn.
        - now exists None.
        - now exists None.
        - destruct (Ps x eq_refl) as [H0 H1]. unfold float_le in H0, H1.
          destruct x as [q| |]; try contradiction. now exists (Some q). }
      destruct Hsc as [sc Hsc].
      assert (H : MovieUpdateRequest_validate raw
                  = Some (mkUpdate (given_value (rawu_name raw))
                            (given_value (rawu_date raw)) sc
                            (given_value (rawu_overview raw)) st
                            (given_value (rawu_budget raw))
                            (given_value (rawu_revenue raw))
                            (fields_set_of raw))).
      { apply MovieUpdateRequest_validate_some. split; [exact Hok|].
        exists st, sc. now repeat split. }
      congruence.
    + intros Hno.
      destruct (MovieUpdateRequest_validate raw) as [r|] eqn:E;
        [|reflexivity].
      exfalso. apply Hno. now apply MovieUpdateRequest_validate_some in E.
  - intros Hnone. unfold route_update_movie_body. now rewrite Hnone.
  - intros r Hr. split.
    + unfold route_update_movie_body. now rewrite Hr.
    + apply MovieUpdateRequest_validate_some in Hr.
      destruct Hr as [_ (st & sc & Ev & Esc & ->)].
      cbn [upd_name upd_date upd_score upd_overview upd_status upd_budget
           upd_revenue].
      do 2 (split; [reflexivity|]). split; [exact Esc|].
      split; [reflexivity|]. split; [exact Ev|].
      do 2 (split; [reflexivity|]).
      apply is_set_fields_set_of.
Qed.

(** X22.  The one-year limit on release dates guards creation only: with
    identifiers unique, a PATCH body that carries just a date is accepted
    whatever the date, answered 200 for a stored movie, and the date is
    what the movie holds when fetched again, even when it lies more than
    365 days after today, where every create body with that date is
    rejected. *)
Theorem update_accepts_any_date (k d : Z) (s : Store) (m : MovieModel) :
  unique_ids (movies s) -> In m (movies s) -> movie_id m = k ->
  exists s' l',
    route_update_movie_body k (only_date d) s
    = (mkResponse HTTP_200_OK
         (UpdateBody (mkUpdateResponse "Movie updated successfully.")), s')
    /\ get_movie_by_id k (begin_session s')
       = (Return (Some l'), begin_session s')
    /\ movie_date (loaded_row l') = VDate d
    /\ movie_name (loaded_row l') = movie_name m
    /\ forall today raw,
         today + 365 < d -> raw_date raw = d ->
         MovieCreateRequest_validate today raw = None.
Proof.
  intros Hu Hin Hk.
  set (r := mkUpdate None (Some d) None None None None None ["date"]).
  assert (Hv : MovieUpdateRequest_validate (only_date d) = Some r)
    by reflexivity.
  destruct (update_movie_present k r (begin_session s) m Hu Hin Hk)
    as [Hrun Hget].
  cbn [view begin_session] in Hrun, Hget.
  eexists. eexists. split.
  { unfold route_update_movie_body. rewrite Hv.
    unfold route_update_movie, serve. rewrite Hrun. reflexivity. }
  cbn [committed]. split; [exact Hget|].
  split; [reflexivity|]. split; [reflexivity|].
  intros today raw Hlate Hraw.
  destruct (MovieCreateRequest_validate today raw) as [md|] eqn:E;
    [|reflexivity].
  apply MovieCreateRequest_validate_some in E.
  destruct E as [(_ & _ & _ & _ & _ & Hdate) _]. lia.
Qed.

Lemma update_accepts_any_date_witness :
  (unique_ids (movies one_movie) /\ In dune_row (movies one_movie)
   /\ movie_id dune_row = 1)
  /\ exists s' l',
       route_update_movie_body 1 (only_date (sample_today + 1000)) one_movie
       = (mkResponse HTTP_200_OK
            (UpdateBody (mkUpdateResponse "Movie updated successfully.")), s')
       /\ get_movie_by_id 1 (begin_session s')
          = (Return (Some l'), begin_session s')
       /\ movie_date (loaded_row l') = VDate (sample_today + 1000)
       /\ movie_name (loaded_row l') = movie_name dune_row
       /\ forall today raw,
            today + 365 < sample_today + 1000 ->
            raw_date raw = sample_today + 1000 ->
            MovieCreateRequest_validate today raw = None.
Proof.
  assert (Hu : unique_ids (movies one_movie))
    by (unfold unique_ids; singleton_nodup).
  assert (Hin : In dune_row (movies one_movie)) by (left; reflexivity).
  split; [split; [exact Hu | split; [exact Hin | reflexivity]]|].
  apply (update_accepts_any_date 1 (sample_today + 1000) one_movie dune_row
           Hu Hin eq_refl).
Defined.
